(** * preconf_bot_example: transaction builder, bid submitter and reconnect loop

    A shallow embedding of the Go sources
      - core/eth/sendtx.go         (SelfETHTransfer, ExecuteBlobTransaction,
                                    makeSidecar, randBlobs)
      - core/mevcommit (bid file)  (SendBid)
      - core/mevcommit (client)    (AuthenticateAddress, AuthAcct)
      - cmd (main)                 (main's header case, connectWSClient,
                                    reconnectWSClient, sendPreconfBid)

    Go values are modelled as follows.
      - [*big.Int] is [Z]; [uint64] and [int64] are [Z] with the wrap-around
        written out; a pointer is an [option] ([None] is nil).
      - A Go call either returns, panics (nil dereference, [make] with a
        negative length, [uint256.MustFromBig] overflow) or ends the process
        ([log.Crit] of go-ethereum logs and calls [os.Exit(1)]).
      - A Go result pair [(v, err)] is [inr v] when [err == nil] and [inl err]
        otherwise; the sources return nil/zero values next to every non-nil
        error.
      - Calls to the node, to the signing code, to the KZG library and to the
        bidder gRPC service are fields of records that the functions receive,
        as the Go functions receive their clients. *)

From Stdlib Require Import ZArith List String Ascii Bool Lia DecimalString.
From Stdlib Require Import DecimalPos HexadecimalString HexadecimalPos HexadecimalN.
Import ListNotations.
Open Scope Z_scope.

(* ================================================================= *)
(** ** Machine integers *)

Definition wrap_uint64 (z : Z) : Z := z mod 2 ^ 64.

(** [Uint64] of [big.Int]: the low 64 bits of the magnitude. *)
Definition Uint64 (x : Z) : Z := Z.abs x mod 2 ^ 64.

Definition int64_min : Z := - 2 ^ 63.
Definition int64_max : Z := 2 ^ 63 - 1.

(** Two's complement wrap-around of Go's [int64]. *)
Definition wrap_int64 (z : Z) : Z := (z + 2 ^ 63) mod 2 ^ 64 - 2 ^ 63.

(* ================================================================= *)
(** ** Effects: a trace of observable events and three ways to end *)

Definition error := string.

Inductive Level := LvlInfo | LvlWarn | LvlError | LvlCrit.

Inductive outcome (A : Type) : Type :=
| Ret (a : A)            (* the call returned *)
| Panic (why : string)   (* run-time panic, unwinds the goroutine *)
| Exit.                  (* log.Crit: os.Exit(1) *)
Arguments Ret {A} a.
Arguments Panic {A} why.
Arguments Exit {A}.

Definition nil_deref : string := "invalid memory address or nil pointer dereference".

(** Pointer dereference. *)
Definition deref {A} (p : option A) : outcome A :=
  match p with
  | Some a => Ret a
  | None => Panic nil_deref
  end.

Definition obind {A B} (m : outcome A) (k : A -> outcome B) : outcome B :=
  match m with
  | Ret a => k a
  | Panic w => Panic w
  | Exit => Exit
  end.

(** Go results: [inl err] is a non-nil error. *)
Definition result (A : Type) : Type := (error + A)%type.

(** [x <- e ;; k] : run [e]; a panic or an exit ends the computation.
    [x <-? e ;; k] : the Go idiom
        [x, err := e; if err != nil { return nil, 0, err }]. *)
Declare Scope go_scope.
Delimit Scope go_scope with go.
Notation "x <- e ;; k" := (obind e (fun x => k))
  (at level 61, e at next level, right associativity) : go_scope.
Notation "x <-? e ;; k" :=
  (match e with
   | inl err => Ret (inl err)
   | inr x => k
   end)
  (at level 61, e at next level, right associativity) : go_scope.
Open Scope go_scope.

(* ================================================================= *)
(** ** Data model *)

(** [common.Address], a 20-byte value; the zero value is all zeroes. *)
Definition Address := Z.
Definition zeroAddress : Address := 0.

(** [ecdsa.PrivateKey] (the scalar D) and [ecdsa.PublicKey] (the point). *)
Definition PrivateKey := Z.
Definition PublicKey := (Z * Z)%type.

Record Signature := mkSignature { sigV : Z; sigR : Z; sigS : Z }.

Definition Blob := list Z.          (* kzg4844.Blob, 131072 bytes *)
Definition Commitment := list Z.    (* kzg4844.Commitment, 48 bytes *)
Definition Proof := list Z.         (* kzg4844.Proof, 48 bytes *)
Definition Hash := list Z.          (* common.Hash, 32 bytes *)

(** The zero value of a Go byte array type is not inspected by the code;
    the empty list stands for it. *)
Definition zeroCommitment : Commitment := [].
Definition zeroProof : Proof := [].

Record BlobTxSidecar := mkSidecar {
  Blobs : list Blob;
  Commitments : list Commitment;
  Proofs : list Proof
}.

Record DynamicFeeTx := mkDynamicFeeTx {
  df_Nonce : Z;
  df_To : option Address;
  df_Value : Z;
  df_Gas : Z;
  df_GasFeeCap : Z;
  df_GasTipCap : Z
}.

Record BlobTx := mkBlobTx {
  bt_ChainID : Z;
  bt_Nonce : Z;
  bt_GasTipCap : Z;
  bt_GasFeeCap : Z;
  bt_Gas : Z;
  bt_To : Address;
  bt_BlobFeeCap : Z;
  bt_BlobHashes : list Hash;
  bt_Sidecar : BlobTxSidecar
}.

Inductive TxData :=
| DynamicFee (d : DynamicFeeTx)
| BlobData (b : BlobTx).

(** [types.Transaction]: the inner payload and, once signed, (V, R, S). *)
Record Transaction := mkTx {
  inner : TxData;
  signature : option Signature
}.

Definition NewTx (d : TxData) : Transaction := mkTx d None.

(** [tx.WithSignature]: a copy of the payload with the signature values set. *)
Definition WithSignature (tx : Transaction) (s : Signature) : Transaction :=
  mkTx (inner tx) (Some s).

Definition Nonce (tx : Transaction) : Z :=
  match inner tx with
  | DynamicFee d => df_Nonce d
  | BlobData b => bt_Nonce b
  end.

Definition GasTipCap (tx : Transaction) : Z :=
  match inner tx with
  | DynamicFee d => df_GasTipCap d
  | BlobData b => bt_GasTipCap b
  end.

Definition GasFeeCap (tx : Transaction) : Z :=
  match inner tx with
  | DynamicFee d => df_GasFeeCap d
  | BlobData b => bt_GasFeeCap b
  end.

Definition Gas (tx : Transaction) : Z :=
  match inner tx with
  | DynamicFee d => df_Gas d
  | BlobData b => bt_Gas b
  end.

Definition BlobGasFeeCap (tx : Transaction) : option Z :=
  match inner tx with
  | DynamicFee _ => None
  | BlobData b => Some (bt_BlobFeeCap b)
  end.

Definition BlobHashes (tx : Transaction) : list Hash :=
  match inner tx with
  | DynamicFee _ => []
  | BlobData b => bt_BlobHashes b
  end.

Definition BlobTxSidecarOf (tx : Transaction) : option BlobTxSidecar :=
  match inner tx with
  | DynamicFee _ => None
  | BlobData b => Some (bt_Sidecar b)
  end.

(** [types.Header]; the number is always present in a decoded header, the
    other three are pointers that older forks leave nil. *)
Record Header := mkHeader {
  Number : Z;
  BaseFee : option Z;
  ExcessBlobGas : option Z;
  BlobGasUsed : option Z
}.

(** [bind.TransactOpts] as [NewKeyedTransactorWithChainID] builds it: the
    sender and the signing closure.  The closure of go-ethereum returns
    [tx.WithSignature(signer, sig)]; [Signer] yields the signature. *)
Record TransactOpts := mkTransactOpts {
  From : Address;
  Signer : Address -> Transaction -> result Signature
}.

(** [mevcommit.AuthAcct]. *)
Record AuthAcct := mkAuthAcct {
  acctPrivateKey : option PrivateKey;
  acctPublicKey : option PublicKey;
  acctAddress : Address;
  acctAuth : option TransactOpts
}.

(** The zero value [AuthAcct{}]. *)
Definition zeroAuthAcct : AuthAcct := mkAuthAcct None None zeroAddress None.

(** The node behind an [*ethclient.Client]: the three state reads the
    builders perform. *)
Record EthClient := mkEthClient {
  PendingNonceAt : Address -> result Z;
  HeaderByNumber : result Header;
  NetworkID : result Z
}.

(** go-ethereum's key handling and signing. *)
Record Crypto := mkCrypto {
  HexToECDSA : string -> result PrivateKey;
  Public : PrivateKey -> PublicKey;
  PubkeyToAddress : PublicKey -> Address;
  (* types.SignTx(tx, types.LatestSignerForChainID(chainID), key) *)
  SignTx : Transaction -> Z -> PrivateKey -> result Signature;
  NewKeyedTransactorWithChainID : PrivateKey -> Z -> result TransactOpts
}.

(* ================================================================= *)
(** ** core/mevcommit: AuthenticateAddress *)

Definition HOLESKY_CHAIN_ID : Z := 1700.

Definition AuthenticateAddress (cr : Crypto) (privateKeyHex : string)
  : outcome (AuthAcct * option error) :=
  if string_dec privateKeyHex EmptyString then
    Ret (zeroAuthAcct, None)
  else
    match HexToECDSA cr privateKeyHex with
    | inl _ => Exit                          (* log.Crit *)
    | inr privateKey =>
        let publicKeyECDSA := Public cr privateKey in
        let address := PubkeyToAddress cr publicKeyECDSA in
        let chainID := HOLESKY_CHAIN_ID in
        match NewKeyedTransactorWithChainID cr privateKey chainID with
        | inl _ => Exit                      (* log.Crit *)
        | inr auth =>
            Ret (mkAuthAcct (Some privateKey) (Some publicKeyECDSA)
                            address (Some auth), None)
        end
    end.

(** The start-up lines of main around it: an empty PRIVATE_KEY is fatal
    before AuthenticateAddress is called, and so is a returned error. *)
Definition mainAuthenticate (cr : Crypto) (privateKeyHex : string)
  : outcome AuthAcct :=
  if string_dec privateKeyHex EmptyString then Exit      (* log.Crit *)
  else
    r <- AuthenticateAddress cr privateKeyHex ;;
    match r with
    | (_, Some _) => Exit                                 (* log.Crit *)
    | (authAcct, None) => Ret authAcct
    end.

(* ================================================================= *)
(** ** core/eth: SelfETHTransfer, both files *)

(** A Go function returning [(tx, blockNumber, err)]. *)
Definition built := outcome (result (Transaction * Z)).

(** The signing step shared by both files:
    [types.SignTx(tx, signer, authAcct.PrivateKey)]; [crypto.Sign]
    dereferences the key. *)
Definition signWithKey (cr : Crypto) (tx : Transaction) (chainID : Z)
    (key : option PrivateKey) : outcome (result Transaction) :=
  prv <- deref key ;;
  match SignTx cr tx chainID prv with
  | inl err => Ret (inl err)
  | inr sg => Ret (inr (WithSignature tx sg))
  end.

Module BlobFile.
(** sendtx.go as it stands next to ExecuteBlobTransaction: the tip cap is
    [big.NewInt(0)]. *)
Definition SelfETHTransfer (cr : Crypto) (client : EthClient)
    (authAcct : AuthAcct) (value : Z) (offset : Z) : built :=
  nonce <-? PendingNonceAt client (acctAddress authAcct) ;;
  header <-? HeaderByNumber client ;;
  let blockNumber := Uint64 (Number header) in
  baseFee <- deref (BaseFee header) ;;
  let maxPriorityFee := baseFee * 2 in
  let maxFeePerGas := maxPriorityFee * 2 in
  chainID <-? NetworkID client ;;
  let tx := NewTx (DynamicFee {|
    df_Nonce := nonce;
    df_To := Some (acctAddress authAcct);
    df_Value := value;
    df_Gas := 500000;
    df_GasFeeCap := maxFeePerGas;
    df_GasTipCap := 0 |}) in
  signed <- signWithKey cr tx chainID (acctPrivateKey authAcct) ;;
  signedTx <-? signed ;;
  Ret (inr (signedTx, wrap_uint64 (blockNumber + offset))).
End BlobFile.

Module TransferFile.
(** The documented SelfETHTransfer of the second sendtx.go: the tip cap is
    [maxPriorityFee]. *)
Definition SelfETHTransfer (cr : Crypto) (client : EthClient)
    (authAcct : AuthAcct) (value : Z) (offset : Z) : built :=
  nonce <-? PendingNonceAt client (acctAddress authAcct) ;;
  header <-? HeaderByNumber client ;;
  let blockNumber := Uint64 (Number header) in
  baseFee <- deref (BaseFee header) ;;
  let maxPriorityFee := baseFee * 2 in
  let maxFeePerGas := maxPriorityFee * 2 in
  chainID <-? NetworkID client ;;
  let tx := NewTx (DynamicFee {|
    df_Nonce := nonce;
    df_To := Some (acctAddress authAcct);
    df_Value := value;
    df_Gas := 500000;
    df_GasFeeCap := maxFeePerGas;
    df_GasTipCap := maxPriorityFee |}) in
  signed <- signWithKey cr tx chainID (acctPrivateKey authAcct) ;;
  signedTx <-? signed ;;
  Ret (inr (signedTx, wrap_uint64 (blockNumber + offset))).
End TransferFile.

(* ================================================================= *)
(** ** core/eth: blobs, sidecar and ExecuteBlobTransaction *)

(** The KZG library.  Its two fallible calls return a value next to the
    error, as in Go; on failure the value is the zero value. *)
Record Kzg := mkKzg {
  BlobToCommitment : Blob -> Commitment * option error;
  ComputeBlobProof : Blob -> Commitment -> Proof * option error;
  CalcBlobHashV1 : Commitment -> Hash
}.

(** go-ethereum's consensus/misc/eip4844. *)
Record Eip4844 := mkEip4844 {
  CalcExcessBlobGas : Z -> Z -> Z;
  CalcBlobFee : Z -> Z
}.

(** The process-wide generator of x/exp/rand: [rand_Read k] is the 32 bytes
    that the k-th call of [rand.Read] writes (it never fails). *)
Record Rand := mkRand { rand_Read : nat -> list Z }.

(** Big-endian bytes and the scalar field of BLS12-381. *)
Definition be_decode (bs : list Z) : Z :=
  fold_left (fun acc b => acc * 256 + b) bs 0.

Fixpoint be_encode (len : nat) (z : Z) : list Z :=
  match len with
  | O => []
  | S len' => be_encode len' (z / 256) ++ [z mod 256]
  end.

Definition fr_modulus : Z :=
  52435875175126190479447740508185965837690552500527637822603658699938581184513.

Definition SerializedScalarSize : Z := 32.
Definition blobLen : Z := 131072.

(** Iterations of [for i := 0; i < len(blob); i += SerializedScalarSize]. *)
Definition scalarsPerBlob : nat := Z.to_nat (blobLen / SerializedScalarSize).

(** [r.SetBytes(bytes)] followed by [gokzg4844.SerializeScalar(r)]. *)
Definition randFieldElement (rnd : Rand) (call : nat) : list Z :=
  be_encode (Z.to_nat SerializedScalarSize) (be_decode (rand_Read rnd call) mod fr_modulus).

(** [randBlob], started when [call] draws have been made: one field element
    per 32-byte slot of the blob. *)
Definition randBlob (rnd : Rand) (call : nat) : Blob :=
  flat_map (fun j => randFieldElement rnd (call + j)%nat)
           (seq 0 scalarsPerBlob).

(** [randBlobs]: [make([]Blob, n)] panics on a negative length. *)
Definition randBlobs (rnd : Rand) (n : Z) : outcome (list Blob) :=
  if n <? 0 then Panic "makeslice: len out of range"
  else Ret (map (fun i => randBlob rnd (i * scalarsPerBlob)%nat)
                (seq 0 (Z.to_nat n))).

(** [makeSidecar]: the loop appends to both slices for every blob; the errors
    of the two KZG calls are assigned to the blank identifier. *)
Fixpoint makeSidecar_loop (kz : Kzg) (blobs : list Blob)
    (commitments : list Commitment) (proofs : list Proof)
  : list Commitment * list Proof :=
  match blobs with
  | [] => (commitments, proofs)
  | blob :: rest =>
      let '(c, _) := BlobToCommitment kz blob in
      let '(p, _) := ComputeBlobProof kz blob c in
      makeSidecar_loop kz rest (commitments ++ [c]) (proofs ++ [p])
  end.

Definition makeSidecar (kz : Kzg) (blobs : list Blob) : BlobTxSidecar :=
  let '(commitments, proofs) := makeSidecar_loop kz blobs [] [] in
  {| Blobs := blobs; Commitments := commitments; Proofs := proofs |}.

(** The sidecar method [BlobHashes] of go-ethereum: one versioned hash per
    commitment. *)
Definition sidecarBlobHashes (kz : Kzg) (sc : BlobTxSidecar) : list Hash :=
  map (CalcBlobHashV1 kz) (Commitments sc).

(** [uint256.MustFromBig]: panics when the magnitude needs more than 256
    bits; a negative value is stored in two's complement. *)
Definition MustFromBig (b : Z) : outcome Z :=
  if Z.abs b <? 2 ^ 256 then Ret (b mod 2 ^ 256)
  else Panic "overflow".

Definition ExecuteBlobTransaction (cr : Crypto) (kz : Kzg) (fm : Eip4844)
    (rnd : Rand) (client : EthClient) (authAcct : AuthAcct)
    (numBlobs : Z) (offset : Z) : built :=
  let gasLimit := 500000 in
  privateKey <- deref (acctPrivateKey authAcct) ;;
  let publicKeyECDSA := Public cr privateKey in
  let fromAddress := PubkeyToAddress cr publicKeyECDSA in
  nonce <-? PendingNonceAt client (acctAddress authAcct) ;;
  header <-? HeaderByNumber client ;;
  let blockNumber := Uint64 (Number header) in
  chainID <-? NetworkID client ;;
  excessBlobGas <- deref (ExcessBlobGas header) ;;
  blobGasUsed <- deref (BlobGasUsed header) ;;
  let parentExcessBlobGas := CalcExcessBlobGas fm excessBlobGas blobGasUsed in
  let blobFeeCap := CalcBlobFee fm parentExcessBlobGas in
  let blobFeeCap := blobFeeCap + 1 in
  blobs <- randBlobs rnd numBlobs ;;
  let sideCar := makeSidecar kz blobs in
  let blobHashes := sidecarBlobHashes kz sideCar in
  let blobFeeCap := blobFeeCap * 110 / 100 in
  baseFee <- deref (BaseFee header) ;;
  let maxPriorityFee := baseFee * 2 in
  let maxFeePerGas := maxPriorityFee * 2 in
  chainID256 <- MustFromBig chainID ;;
  gasFeeCap256 <- MustFromBig maxFeePerGas ;;
  blobFeeCap256 <- MustFromBig blobFeeCap ;;
  let tx := NewTx (BlobData {|
    bt_ChainID := chainID256;
    bt_Nonce := nonce;
    bt_GasTipCap := 0;
    bt_GasFeeCap := gasFeeCap256;
    bt_Gas := gasLimit;
    bt_To := fromAddress;
    bt_BlobFeeCap := blobFeeCap256;
    bt_BlobHashes := blobHashes;
    bt_Sidecar := sideCar |}) in
  auth <-? NewKeyedTransactorWithChainID cr privateKey chainID ;;
  sg <-? Signer auth (From auth) tx ;;
  Ret (inr (WithSignature tx sg, wrap_uint64 (blockNumber + offset))).

(* ================================================================= *)
(** ** core/mevcommit: SendBid *)

(** [strings.TrimPrefix]. *)
Definition TrimPrefix (s pre : string) : string :=
  if String.prefix pre s
  then String.substring (String.length pre)
                        (String.length s - String.length pre) s
  else s.

(** [hex.EncodeToString]. *)
Definition hexDigit (n : Z) : ascii :=
  match String.get (Z.to_nat n) "0123456789abcdef" with
  | Some c => c
  | None => "0"%char
  end.

Fixpoint EncodeToString (bs : list Z) : string :=
  match bs with
  | [] => EmptyString
  | b :: rest =>
      String (hexDigit (b / 16)) (String (hexDigit (b mod 16)) (EncodeToString rest))
  end.

(** [pb.Bid], the request message of the bidder service. *)
Record Bid := mkBid {
  Amount : string;
  BlockNumber : Z;
  DecayStartTimestamp : Z;
  DecayEndTimestamp : Z;
  TxHashes : list string;
  RawTransactions : list string
}.

Definition set_TxHashes (r : Bid) (l : list string) : Bid :=
  mkBid (Amount r) (BlockNumber r) (DecayStartTimestamp r)
        (DecayEndTimestamp r) l (RawTransactions r).

Definition set_RawTransactions (r : Bid) (l : list string) : Bid :=
  mkBid (Amount r) (BlockNumber r) (DecayStartTimestamp r)
        (DecayEndTimestamp r) (TxHashes r) l.

(** Go's [len] of a slice. *)
Definition len {A} (l : list A) : Z := Z.of_nat (List.length l).

(** A commitment message received on the response stream. *)
Definition Msg := string.

(** A server stream ([pb.Bidder_SendBidClient]) that ends: the messages
    still to be received and how the stream ends, [None] for [io.EOF].  A
    stream that the service keeps open, on which [Recv] blocks (the call is
    made without a deadline), has no value of this type: what is said below
    of a return of SendBid and of its callers is said of streams that end. *)
Record Stream := mkStream {
  pending : list Msg;
  closing : option error
}.

Inductive RecvResult :=
| RecvMsg (m : Msg)
| RecvEOF
| RecvErr (e : error).

(** [response.Recv()]. *)
Definition Recv (s : Stream) : RecvResult * Stream :=
  match pending s with
  | m :: rest => (RecvMsg m, mkStream rest (closing s))
  | [] =>
      match closing s with
      | None => (RecvEOF, s)
      | Some e => (RecvErr e, s)
      end
  end.

(** The dynamic type of SendBid's [input interface{}]; a transaction slice
    holds pointers. *)
Inductive BidInput :=
| HashList (v : list string)
| TxList (v : list (option Transaction))
| OtherInput (typeName : string).

(** The gRPC bidder client and the transaction encoding of go-ethereum. *)
Record Bidder := mkBidder {
  client_SendBid : Bid -> result Stream;
  MarshalBinary : Transaction -> result (list Z);
  HashString : Transaction -> string
}.

(** Everything the bid path does that is visible from outside. *)
Inductive Event :=
| EvLog (lvl : Level) (msg : string)
| EvSendBid (req : Bid)                              (* b.client.SendBid *)
| EvRecv (r : RecvResult)                            (* response.Recv *)
| EvGoSaveBidRequest (file : string) (req : Bid) (ts : Z)
| EvGoSaveBidResponses (file : string) (responses : list Msg)
| EvSendBundle (url : string) (tx : Transaction) (blk : Z)
| EvSleep (seconds : Z).

(** A computation with its events. *)
Definition traced (A : Type) : Type := (list Event * outcome A)%type.

Definition tbind {A B} (m : traced A) (k : A -> traced B) : traced B :=
  match m with
  | (ev, Ret a) => let '(ev', r) := k a in (ev ++ ev', r)
  | (ev, Panic w) => (ev, Panic w)
  | (ev, Exit) => (ev, Exit)
  end.

Definition emit (e : Event) : traced unit := ([e], Ret tt).
Definition pure {A} (a : A) : traced A := ([], Ret a).
Definition lift {A} (o : outcome A) : traced A := ([], o).

Notation "x <~ e ;; k" := (tbind e (fun x => k))
  (at level 61, e at next level, right associativity) : go_scope.
Notation "e ;;; k" := (tbind e (fun _ => k))
  (at level 61, right associativity) : go_scope.

(** The first loop of the [[]*types.Transaction] case. *)
Fixpoint marshalAll (b : Bidder) (v : list (option Transaction))
  : traced (result (list string)) :=
  match v with
  | [] => pure (inr [])
  | ptx :: rest =>
      tx <~ lift (deref ptx) ;;
      match MarshalBinary b tx with
      | inl err =>
          emit (EvLog LvlError "Failed to marshal transaction to raw format") ;;;
          pure (inl ("failed to marshal transaction: " ++ err)%string)
      | inr rlpEncodedTx =>
          r <~ marshalAll b rest ;;
          match r with
          | inl e => pure (inl e)
          | inr raws => pure (inr (EncodeToString rlpEncodedTx :: raws))
          end
      end
  end.

(** The receive loop [for { response.Recv() ... }] on a stream that ends:
    append every message, stop at [io.EOF], return at any other error. *)
Fixpoint recvLoop (msgs : list Msg) (closing : option error)
    (responses : list Msg) : traced (result (list Msg * Stream)) :=
  match msgs with
  | msg :: rest =>
      emit (EvRecv (RecvMsg msg)) ;;;
      emit (EvLog LvlInfo "Bid accepted") ;;;
      recvLoop rest closing (responses ++ [msg])
  | [] =>
      match closing with
      | None =>
          emit (EvRecv RecvEOF) ;;;
          pure (inr (responses, mkStream [] None))
      | Some err =>
          emit (EvRecv (RecvErr err)) ;;;
          emit (EvLog LvlError "Failed to receive bid response") ;;;
          pure (inl ("failed to send bid: " ++ err)%string)
      end
  end.

Definition SendBid (b : Bidder) (submitTimestamp : Z) (input : BidInput)
    (amount : string) (blockNumber decayStart decayEnd : Z)
  : traced (result Stream) :=
  lists <~
    match input with
    | HashList v =>
        pure (inr (map (fun hash => TrimPrefix hash "0x") v, []))
    | TxList v =>
        r <~ marshalAll b v ;;
        match r with
        | inl e => pure (inl e)
        | inr raws => pure (inr ([], raws))
        end
    | OtherInput ty =>
        emit (EvLog LvlWarn
                "Unsupported input type, must be []string or []*types.Transaction") ;;;
        pure (inl ("unsupported input type: " ++ ty)%string)
    end ;;
  match lists with
  | inl e => pure (inl e)
  | inr (txHashes, rawTransactions) =>
      let bidRequest := mkBid amount blockNumber decayStart decayEnd [] [] in
      let bidRequest :=
        if 0 <? len txHashes then set_TxHashes bidRequest txHashes
        else if 0 <? len rawTransactions
             then set_RawTransactions bidRequest (map (fun rawTx => rawTx) rawTransactions)
             else bidRequest in
      emit (EvSendBid bidRequest) ;;;
      match client_SendBid b bidRequest with
      | inl err =>
          emit (EvLog LvlError "Failed to send bid") ;;;
          pure (inl ("failed to send bid: " ++ err)%string)
      | inr response =>
          emit (EvGoSaveBidRequest "data/bid.json" bidRequest submitTimestamp) ;;;
          r <~ recvLoop (pending response) (closing response) [] ;;
          match r with
          | inl e => pure (inl e)
          | inr (responses, drained) =>
              emit (EvLog LvlInfo "End Time") ;;;
              emit (EvGoSaveBidResponses "data/response.json" responses) ;;;
              pure (inr drained)
          end
      end
  end.

Definition requestsSent (evs : list Event) : list Bid :=
  flat_map (fun e => match e with EvSendBid r => [r] | _ => [] end) evs.

Definition responsesSaved (evs : list Event) : list (list Msg) :=
  flat_map (fun e => match e with EvGoSaveBidResponses _ r => [r] | _ => [] end) evs.

Definition received (evs : list Event) : list RecvResult :=
  flat_map (fun e => match e with EvRecv r => [r] | _ => [] end) evs.

(* ================================================================= *)
(** ** cmd: sendPreconfBid *)

(** [time.Duration] counts nanoseconds. *)
Definition Second : Z := 1000000000.
Definition Milliseconds (d : Z) : Z := Z.quot d 1000000.

(** [fmt.Sprintf("%d", n)]. *)
Definition Sprintf_d (n : Z) : string :=
  DecimalString.NilZero.string_of_int (Z.to_int n).

(** The dynamic type of sendPreconfBid's [input interface{}]. *)
Inductive PreconfInput :=
| InString (v : string)
| InTransaction (v : option Transaction)
| InOther.

(** [currentTime] is the reading of [time.Now().UnixMilli()],
    [randomWeiAmount] the amount drawn by the random policy, and
    [submitTimestamp] the clock reading taken inside SendBid. *)
Definition sendPreconfBid (bidderClient : Bidder)
    (currentTime randomWeiAmount submitTimestamp : Z)
    (input : PreconfInput) (blockNumber : Z) : traced unit :=
  let amount := Sprintf_d randomWeiAmount in
  let decayStart := currentTime in
  let decayEnd := wrap_int64 (currentTime + Milliseconds (36 * Second)) in
  sent <~
    match input with
    | InString v =>
        let txHash := TrimPrefix v "0x" in
        emit (EvLog LvlInfo "sending bid with transaction hash") ;;;
        r <~ SendBid bidderClient submitTimestamp (HashList [txHash])
                     amount blockNumber decayStart decayEnd ;;
        pure (Some r)
    | InTransaction v =>
        tx <~ lift (deref v) ;;                  (* input.Hash() *)
        emit (EvLog LvlInfo "sending bid with tx payload") ;;;
        r <~ SendBid bidderClient submitTimestamp (TxList [v])
                     amount blockNumber decayStart decayEnd ;;
        pure (Some r)
    | InOther =>
        emit (EvLog LvlWarn
                "unsupported input type, must be string or *types.Transaction") ;;;
        pure None
    end ;;
  match sent with
  | None => pure tt
  | Some (inl _) => emit (EvLog LvlWarn "failed to send bid")
  | Some (inr _) => emit (EvLog LvlInfo "sent preconfirmation bid")
  end.

(* ================================================================= *)
(** ** cmd: the header case of main's select loop *)

(** [ee.SendBundle], the HTTP relay call: it returns a body or an error,
    or it panics. *)
Definition Relay := string -> Transaction -> Z -> outcome (result string).

(** What main needs around one header: the builder it links against, the
    bidder, the relay and the clock and random readings of this iteration. *)
Record MainEnv := mkMainEnv {
  selfETHTransfer : EthClient -> AuthAcct -> Z -> Z -> built;
  bidderClient : Bidder;
  sendBundle : Relay;
  usePayload : bool;
  rpcEndpoint : string;
  offset : Z;
  currentTime : Z;
  randomWeiAmount : Z;
  submitTimestamp : Z
}.

(** [case header := <-headers:] up to the end of the loop body.  A returned
    [tt] is the next iteration of the [for] loop. *)
Definition headerCase (env : MainEnv) (wsClient : EthClient)
    (authAcct : AuthAcct) (header : Header) : traced unit :=
  emit (EvLog LvlInfo "new block generated") ;;;
  let amount := 1000000000000000 in
  res <~ lift (selfETHTransfer env wsClient authAcct amount (offset env)) ;;
  let signedTx : option Transaction :=
    match res with inr (tx, _) => Some tx | inl _ => None end in
  let blockNumber : Z :=
    match res with inr (_, n) => n | inl _ => 0 end in
  let err : option error :=
    match res with inr _ => None | inl e => Some e end in
  (* log.Info evaluates signedTx.GasTipCap() first *)
  tx <~ lift (deref signedTx) ;;
  emit (EvLog LvlInfo "Transaction fee values") ;;;
  err <~
    (if usePayload env then
       sendPreconfBid (bidderClient env) (currentTime env) (randomWeiAmount env)
                      (submitTimestamp env) (InTransaction signedTx)
                      (wrap_int64 blockNumber) ;;;
       pure err
     else
       emit (EvSendBundle (rpcEndpoint env) tx blockNumber) ;;;
       sent <~ lift (sendBundle env (rpcEndpoint env) tx blockNumber) ;;
       let err :=
         match sent with
         | inl e => Some e
         | inr _ => None
         end in
       match err with
       | Some _ => emit (EvLog LvlError "Failed to send transaction")
       | None => pure tt
       end ;;;
       sendPreconfBid (bidderClient env) (currentTime env) (randomWeiAmount env)
                      (submitTimestamp env)
                      (InString (HashString (bidderClient env) tx))
                      (wrap_int64 blockNumber) ;;;
       pure err) ;;
  match err with
  | Some _ => emit (EvLog LvlWarn "failed to execute blob tx")   (* continue *)
  | None => pure tt
  end.

(* ================================================================= *)
(** ** cmd: connectWSClient and reconnectWSClient *)

Definition Subscription := Z.

(** The network as the reconnect code meets it: the result of the k-th dial
    ([bb.NewGethClient]) and of the k-th [SubscribeNewHead], counted from the
    start of the process. *)
Record Net := mkNet {
  Dial : nat -> string -> result EthClient;
  SubscribeNewHead : nat -> EthClient -> result Subscription
}.

Record World := mkWorld {
  dials : nat;
  subscribes : nat;
  events : list Event
}.

Definition dialed (w : World) : World :=
  mkWorld (S (dials w)) (subscribes w) (events w).
Definition subscribed (w : World) : World :=
  mkWorld (dials w) (S (subscribes w)) (events w).
Definition did (e : Event) (w : World) : World :=
  mkWorld (dials w) (subscribes w) (events w ++ [e]).

(** [connectWSClient] calls itself after every failed dial; [fuel] bounds the
    depth of that recursion and [None] means the bound was reached before
    the function returned. *)
Fixpoint connectWSClient (net : Net) (fuel : nat) (wsEndpoint : string)
    (w : World) : option (result EthClient * World) :=
  match fuel with
  | O => None
  | S fuel' =>
      match Dial net (dials w) wsEndpoint with
      | inl err =>
          let w := did (EvLog LvlWarn "failed to connect to websocket client") (dialed w) in
          let w := did (EvSleep 10) w in
          connectWSClient net fuel' wsEndpoint w
      | inr wsClient => Some (inr wsClient, dialed w)
      end
  end.

(** The body of [for i := 0; i < 10; i++] with [todo] iterations left. *)
Fixpoint reconnectLoop (net : Net) (fuel : nat) (wsEndpoint : string)
    (todo : nat) (w : World)
  : option (outcome (EthClient * Subscription) * World) :=
  match todo with
  | O =>
      Some (Exit, did (EvLog LvlCrit "failed to reconnect WebSocket client after retries") w)
  | S todo' =>
      match connectWSClient net fuel wsEndpoint w with
      | None => None
      | Some (r, w) =>
          let retry (w : World) :=
            let w := did (EvLog LvlWarn "failed to reconnect WebSocket client, retrying...") w in
            let w := did (EvSleep 5) w in
            reconnectLoop net fuel wsEndpoint todo' w in
          match r with
          | inr wsClient =>
              let w := did (EvLog LvlInfo "(ws) geth client reconnected") w in
              match SubscribeNewHead net (subscribes w) wsClient with
              | inr sub => Some (Ret (wsClient, sub), subscribed w)
              | inl _ => retry (subscribed w)
              end
          | inl _ => retry w
          end
      end
  end.

Definition reconnectWSClient (net : Net) (fuel : nat) (wsEndpoint : string)
    (w : World) : option (outcome (EthClient * Subscription) * World) :=
  reconnectLoop net fuel wsEndpoint 10 w.

(* ================================================================= *)
(** ** cmd: connectRPCClientWithRetries *)

(** What the RPC dial loop leaves behind: the dials made (the k-th dial of
    the process is [Dial net k]), the arguments of [time.Sleep] in
    nanoseconds, and its log lines. *)
Record RpcState := mkRpcState {
  rpcDials : nat;
  rpcSleeps : list Z;
  rpcLog : list (Level * string)
}.

(** [time.Duration(math.Pow(2, float64(i)))]: for [0 <= i < 63] the power is
    an exact float and converts to the same integer; beyond, the conversion
    of an out-of-range float is left to the platform, [conv]. *)
Definition pow2Duration (conv : Z -> Z) (i : Z) : Z :=
  if i <? 63 then 2 ^ i else conv i.

(** The argument of [time.Sleep]: [10 * time.Duration(...)], an int64
    product of nanoseconds. *)
Definition backoff (conv : Z -> Z) (i : Z) : Z :=
  wrap_int64 (10 * pow2Duration conv i).

(** The loop [for i := 0; i < maxRetries; i++] with [todo] iterations
    left. *)
Fixpoint rpcRetryLoop (net : Net) (conv : Z -> Z) (rpcEndpoint : string)
    (todo : nat) (i : Z) (st : RpcState) : option EthClient * RpcState :=
  match todo with
  | O =>
      (None,
       mkRpcState (rpcDials st) (rpcSleeps st)
         (rpcLog st ++ [(LvlError, "failed to connect to RPC client after retries"%string)]))
  | S todo' =>
      match Dial net (rpcDials st) rpcEndpoint with
      | inr rpcClient =>
          (Some rpcClient,
           mkRpcState (S (rpcDials st)) (rpcSleeps st) (rpcLog st))
      | inl _ =>
          rpcRetryLoop net conv rpcEndpoint todo' (i + 1)
            (mkRpcState (S (rpcDials st))
               (rpcSleeps st ++ [backoff conv i])
               (rpcLog st ++ [(LvlWarn, "failed to connect to RPC client, retrying..."%string)]))
      end
  end.

(** [timeout] bounds each dial; the dial results of [net] are those obtained
    under it. *)
Definition connectRPCClientWithRetries (net : Net) (conv : Z -> Z)
    (rpcEndpoint : string) (maxRetries : Z) (timeout : Z) (st : RpcState)
  : option EthClient * RpcState :=
  rpcRetryLoop net conv rpcEndpoint (Z.to_nat maxRetries) 0 st.

(* ================================================================= *)
(** ** cmd: environment parsing and the configuration block of main *)

Definition ErrSyntax : error := "invalid syntax"%string.
Definition ErrRange : error := "value out of range"%string.

(** [strconv.ParseBool]. *)
Definition ParseBool (str : string) : result bool :=
  if existsb (String.eqb str) ["1"; "t"; "T"; "TRUE"; "true"; "True"]%string
  then inr true
  else if existsb (String.eqb str) ["0"; "f"; "F"; "FALSE"; "false"; "False"]%string
  then inr false
  else inl ErrSyntax.

Definition parseBoolEnvVar (name value : string) : result bool :=
  match ParseBool value with
  | inl _ =>
      inl ("environment variable " ++ name ++ " must be true or false, got '"
           ++ value ++ "'")%string
  | inr parsedValue => inr parsedValue
  end.

Definition maxUint64 : Z := 2 ^ 64 - 1.

(** The digit value that [strconv.ParseUint] gives a character: decimal
    digits, then letters of either case from 10 on; [None] for anything
    else (an underscore is only skipped when the base is 0). *)
Definition digitValue (c : ascii) : option Z :=
  let n := Z.of_N (N_of_ascii c) in
  if (48 <=? n) && (n <=? 57) then Some (n - 48)
  else
    let lower := Z.lor n 32 in
    if (97 <=? lower) && (lower <=? 122) then Some (lower - 97 + 10)
    else None.

(** The digit loop of [strconv.ParseUint(s, 10, 64)]; [n] is a uint64. *)
Fixpoint parseUintLoop (s : string) (n : Z) : result Z :=
  match s with
  | EmptyString => inr n
  | String c rest =>
      match digitValue c with
      | None => inl ErrSyntax
      | Some d =>
          if 10 <=? d then inl ErrSyntax
          else if maxUint64 / 10 + 1 <=? n then inl ErrRange
          else
            let n := wrap_uint64 (n * 10) in
            let n1 := wrap_uint64 (n + d) in
            if (n1 <? n) || (maxUint64 <? n1) then inl ErrRange
            else parseUintLoop rest n1
      end
  end.

Definition ParseUint10 (s : string) : result Z :=
  match s with
  | EmptyString => inl ErrSyntax
  | _ => parseUintLoop s 0
  end.

Definition parseUintEnvVar (name value : string) : result Z :=
  match ParseUint10 value with
  | inl _ =>
      inl ("environment variable " ++ name ++ " must be a positive integer, got '"
           ++ value ++ "'")%string
  | inr parsedValue => inr parsedValue
  end.

(** The settings that main reads before it connects. *)
Record Config := mkConfig {
  cfg_bidderAddress : string;
  cfg_usePayload : bool;
  cfg_rpcEndpoint : string;
  cfg_wsEndpoint : string;
  cfg_privateKeyHex : string;
  cfg_offset : Z
}.

Definition isEmpty (s : string) : bool := String.eqb s EmptyString.

(** main from [godotenv.Load] to the last configuration check.  [dotenv] is
    the error of [godotenv.Load], [Getenv] the environment after it
    ([os.Getenv] gives the empty string for an unset variable); every
    [log.Crit] ends the process. *)
Definition loadConfig (dotenv : option error) (Getenv : string -> string)
  : outcome Config :=
  match dotenv with
  | Some _ => Exit
  | None =>
      let bidderAddress := Getenv "BIDDER_ADDRESS"%string in
      let bidderAddress :=
        if isEmpty bidderAddress then "mev-commit-bidder:13524"%string
        else bidderAddress in
      let usePayloadEnv := Getenv "USE_PAYLOAD"%string in
      usePayload <-
        (if isEmpty usePayloadEnv then Ret true
         else match parseBoolEnvVar "USE_PAYLOAD" usePayloadEnv with
              | inl _ => Exit
              | inr v => Ret v
              end) ;;
      rpcEndpoint <-
        (if negb usePayload then
           let rpcEndpoint := Getenv "RPC_ENDPOINT"%string in
           if isEmpty rpcEndpoint then Exit else Ret rpcEndpoint
         else Ret EmptyString) ;;
      let wsEndpoint := Getenv "WS_ENDPOINT"%string in
      if isEmpty wsEndpoint then Exit
      else
        let privateKeyHex := Getenv "PRIVATE_KEY"%string in
        if isEmpty privateKeyHex then Exit
        else
          let offsetEnv := Getenv "OFFSET"%string in
          offset <-
            (if isEmpty offsetEnv then Ret 1
             else match parseUintEnvVar "OFFSET" offsetEnv with
                  | inl _ => Exit
                  | inr v => Ret v
                  end) ;;
          Ret (mkConfig bidderAddress usePayload rpcEndpoint wsEndpoint
                        privateKeyHex offset)
  end.

(* ================================================================= *)
(** ** core/eth: SendBundle *)

(** One element of [Params]: the [txs] list and the [blockNumber] string. *)
Record BundleParams := mkBundleParams {
  bp_txs : list string;
  bp_blockNumber : string
}.

Record FlashbotsPayload := mkFlashbotsPayload {
  fp_Jsonrpc : string;
  fp_Method : string;
  fp_Params : list BundleParams;
  fp_ID : Z
}.

Record Request := mkRequest {
  req_Method : string;
  req_URL : string;
  req_Body : list Z;
  req_Header : list (string * string)
}.

(** The HTTP and JSON collaborators of SendBundle: [json.Marshal], the URL
    check of [http.NewRequest] ([None] when the URL parses), [httpClient.Do],
    whose successful result is the outcome of reading the response body. *)
Record Http := mkHttp {
  jsonMarshal : FlashbotsPayload -> result (list Z);
  urlError : string -> option error;
  Do : Request -> result (result string)
}.

Inductive BundleEvent :=
| BLog (lvl : Level) (msg : string)
| BDo (req : Request).

(** [hexutil.Encode] and [hexutil.EncodeUint64]. *)
Definition hexutil_Encode (b : list Z) : string :=
  ("0x" ++ EncodeToString b)%string.

Definition hexutil_EncodeUint64 (i : Z) : string :=
  ("0x" ++ HexadecimalString.NilZero.string_of_uint (N.to_hex_uint (Z.to_N i)))%string.

Definition SendBundle (http : Http)
    (marshalBinary : Transaction -> result (list Z))
    (RPCURL : string) (signedTx : option Transaction) (blkNum : Z)
  : list BundleEvent * outcome (result string) :=
  match signedTx with
  | None => ([], Panic nil_deref)
  | Some tx =>
      match marshalBinary tx with
      | inl err => ([BLog LvlError "Error marshal transaction"], Ret (inl err))
      | inr binary =>
          let blockNum := hexutil_EncodeUint64 blkNum in
          let payload :=
            mkFlashbotsPayload "2.0" "eth_sendBundle"
              [mkBundleParams [hexutil_Encode binary] blockNum] 1 in
          match jsonMarshal http payload with
          | inl err => ([], Ret (inl err))
          | inr payloadBytes =>
              match urlError http RPCURL with
              | Some _ =>
                  (* req is nil; req.Header.Add dereferences it *)
                  ([BLog LvlError "an error occurred creating request"],
                   Panic nil_deref)
              | None =>
                  let req :=
                    mkRequest "POST" RPCURL payloadBytes
                              [("Content-Type", "application/json")%string] in
                  match Do http req with
                  | inl err =>
                      ([BDo req; BLog LvlError "an error occurred"],
                       Ret (inl err))
                  | inr (inl err) =>
                      ([BDo req; BLog LvlError "an error occurred"],
                       Ret (inl err))
                  | inr (inr body) => ([BDo req], Ret (inr body))
                  end
              end
          end
      end
  end.

Definition requestsDone (evs : list BundleEvent) : list Request :=
  flat_map (fun e => match e with BDo r => [r] | _ => [] end) evs.

(** SendBundle as the relay call of the header case, which passes it a
    transaction that is not nil. *)
Definition relayOf (http : Http)
    (marshalBinary : Transaction -> result (list Z)) : Relay :=
  fun RPCURL signedTx blkNum =>
    snd (SendBundle http marshalBinary RPCURL (Some signedTx) blkNum).

(* ================================================================= *)
(** ** core/mevcommit: contract helpers *)

Definition bidderRegistryAddress : string := "0x401B3287364f95694c43ACA3252831cAc02e5C41".
Definition blockTrackerAddress : string := "0x7538F3AaA07dA1990486De21A0B438F55e9639e4".

(** A parsed ABI, and a value that a contract call returns or takes. *)
Definition ABI := string.

Inductive AbiValue :=
| VBigInt (z : Z)          (* a pointer to a big integer *)
| VAddress (a : Address)
| VOther.

Record Receipt := mkReceipt { Status : Z }.

(** The file system, the ABI parser and a bound contract (address and ABI):
    its read-only [Call], the argument packing that [Transact] starts with,
    [Transact] with a transactor and the value the transactor carries at that
    moment, and [bind.WaitMined].  Each is a function of its arguments: the
    files and the chain do not change between the calls of one helper.  The
    helpers' prints to standard output are left out. *)
Record Chain := mkChain {
  ReadFile : string -> result string;
  abi_JSON : string -> result ABI;
  Call : string -> ABI -> string -> list AbiValue -> result (list AbiValue);
  abi_Pack : ABI -> string -> list AbiValue -> option error;
  Transact : string -> ABI -> TransactOpts -> option Z -> string
             -> list AbiValue -> result Transaction;
  WaitMined : Transaction -> result Receipt
}.

Definition LoadABI (ch : Chain) (filePath : string) : result ABI :=
  match ReadFile ch filePath with
  | inl err => inl err
  | inr data =>
      match abi_JSON ch data with
      | inl err => inl err
      | inr parsedABI => inr parsedABI
      end
  end.

Definition index_out_of_range : string :=
  "index out of range [0] with length 0".

(** The first element of the output slice of a call, asserted to be a
    big integer. *)
Definition firstBigInt (results : list AbiValue) (failure : error)
  : outcome (result Z) :=
  match results with
  | [] => Panic index_out_of_range
  | VBigInt z :: _ => Ret (inr z)
  | _ :: _ => Ret (inl failure)
  end.

Definition WindowHeight (ch : Chain) : outcome (result Z) :=
  match LoadABI ch "abi/BlockTracker.abi" with
  | inl err => Ret (inl err)
  | inr blockTrackerABI =>
      match Call ch blockTrackerAddress blockTrackerABI "getCurrentWindow" [] with
      | inl err => Ret (inl err)
      | inr currentWindowResult =>
          firstBigInt currentWindowResult "conversion to *big.Int failed"%string
      end
  end.

Definition GetMinDeposit (ch : Chain) : outcome (result Z) :=
  match LoadABI ch "abi/BidderRegistry.abi" with
  | inl err => Ret (inl ("failed to load ABI file: " ++ err)%string)
  | inr bidderRegistryABI =>
      match Call ch bidderRegistryAddress bidderRegistryABI "minDeposit" [] with
      | inl err => Ret (inl ("failed to call minDeposit function: " ++ err)%string)
      | inr minDepositResult =>
          firstBigInt minDepositResult "failed to convert minDeposit to *big.Int"%string
      end
  end.

(** The end shared by the two transacting helpers: wait for the receipt and
    look at its status. *)
Definition awaitReceipt (ch : Chain) (tx : Transaction)
    (miningError failed : string) : result Transaction :=
  match WaitMined ch tx with
  | inl err => inl (miningError ++ err)%string
  | inr receipt =>
      if Status receipt =? 1 then inr tx else inl failed
  end.

(** DepositIntoWindow takes a pointer to the account; [authValue] is the
    [Value] field of the transactor the account points to, which the function
    assigns.  The second component of the result is that field afterwards. *)
Definition DepositIntoWindow (ch : Chain) (depositWindow : Z)
    (authAcct : option AuthAcct) (authValue : option Z)
  : outcome (result Transaction) * option Z :=
  match LoadABI ch "abi/BidderRegistry.abi" with
  | inl err => (Ret (inl ("failed to load ABI file: " ++ err)%string), authValue)
  | inr bidderRegistryABI =>
      match GetMinDeposit ch with
      | Panic w => (Panic w, authValue)
      | Exit => (Exit, authValue)
      | Ret (inl err) =>
          (Ret (inl ("failed to get minDeposit: " ++ err)%string), authValue)
      | Ret (inr minDeposit) =>
          match authAcct with
          | None => (Panic nil_deref, authValue)
          | Some acct =>
              match acctAuth acct with
              | None => (Panic nil_deref, authValue)
              | Some auth =>
                  let authValue := Some minDeposit in
                  match Transact ch bidderRegistryAddress bidderRegistryABI auth
                                 authValue "depositForSpecificWindow"
                                 [VBigInt depositWindow] with
                  | inl err =>
                      (Ret (inl ("failed to create transaction: " ++ err)%string),
                       authValue)
                  | inr tx =>
                      (Ret (awaitReceipt ch tx "transaction mining error: "
                                         "transaction failed"),
                       authValue)
                  end
              end
          end
      end
  end.

(** WithdrawFromWindow passes [authAcct.Auth] to Transact as it is, with the
    value it carries; Transact packs the arguments, returning the error of
    that, before it dereferences a nil transactor. *)
Definition WithdrawFromWindow (ch : Chain) (authAcct : option AuthAcct)
    (window : Z) (authValue : option Z) : outcome (result Transaction) :=
  match LoadABI ch "abi/BidderRegistry.abi" with
  | inl err => Ret (inl ("failed to load ABI file: " ++ err)%string)
  | inr bidderRegistryABI =>
      acct <- deref authAcct ;;
      let params := [VAddress (acctAddress acct); VBigInt window] in
      match acctAuth acct with
      | None =>
          match abi_Pack ch bidderRegistryABI "withdrawBidderAmountFromWindow"
                         params with
          | Some err =>
              Ret (inl ("failed to create withdrawal transaction: " ++ err)%string)
          | None => Panic nil_deref
          end
      | Some auth =>
          match Transact ch bidderRegistryAddress bidderRegistryABI auth authValue
                         "withdrawBidderAmountFromWindow" params with
          | inl err =>
              Ret (inl ("failed to create withdrawal transaction: " ++ err)%string)
          | inr withdrawalTx =>
              Ret (awaitReceipt ch withdrawalTx
                                "withdrawal transaction mining error: "
                                "withdrawal failed")
          end
      end
  end.

(* ================================================================= *)
(** * Auxiliary definitions for the statements *)

(** The blobs that a KZG library accepts: 4096 slots of 32 bytes, each of
    which, read big-endian, is a canonical scalar (below the modulus). *)
Fixpoint canonicalScalars (slots : nat) (blob : Blob) : bool :=
  match slots with
  | O => match blob with [] => true | _ :: _ => false end
  | S slots' =>
      (List.length (firstn 32 blob) =? 32)%nat
      && (be_decode (firstn 32 blob) <? fr_modulus)
      && canonicalScalars slots' (skipn 32 blob)
  end.

Definition canonicalBlob (blob : Blob) : bool :=
  canonicalScalars scalarsPerBlob blob.

(** The unsigned transfer that SelfETHTransfer assembles. *)
Definition transferTx (authAcct : AuthAcct) (nonce value feeCap tipCap : Z)
  : Transaction :=
  NewTx (DynamicFee (mkDynamicFeeTx nonce (Some (acctAddress authAcct))
                                    value 500000 feeCap tipCap)).

(** The blob fee cap of ExecuteBlobTransaction as a function of the fee that
    [eip4844.CalcBlobFee] returns: [Add] 1, [Mul] 110, [Div] 100.  [Div] of
    [big.Int] is Euclidean division, which is [Z.div] for the divisor 100. *)
Definition bumpBlobFee (minBlobFee : Z) : Z :=
  let blobFeeCap := minBlobFee + 1 in
  blobFeeCap * 110 / 100.

(** The blob fee that the network computes from the two blob-gas fields of
    the latest header. *)
Definition minBlobFeeOf (fm : Eip4844) (excessBlobGas blobGasUsed : Z) : Z :=
  CalcBlobFee fm (CalcExcessBlobGas fm excessBlobGas blobGasUsed).

(** What SendBid does once the request [req] is sent and the service has
    answered with the stream [response]. *)
Definition afterSend (b : Bidder) (ts : Z) (req : Bid) : traced (result Stream) :=
  match client_SendBid b req with
  | inl err =>
      emit (EvLog LvlError "Failed to send bid") ;;;
      pure (inl ("failed to send bid: " ++ err)%string)
  | inr response =>
      emit (EvGoSaveBidRequest "data/bid.json" req ts) ;;;
      r <~ recvLoop (pending response) (closing response) [] ;;
      match r with
      | inl e => pure (inl e)
      | inr (responses, drained) =>
          emit (EvLog LvlInfo "End Time") ;;;
          emit (EvGoSaveBidResponses "data/response.json" responses) ;;;
          pure (inr drained)
      end
  end.


(** Number of [time.Sleep] calls of [d] seconds in a trace. *)
Definition isSleep (d : Z) (e : Event) : bool :=
  match e with
  | EvSleep s => s =? d
  | _ => false
  end.

Definition sleeps (d : Z) (evs : list Event) : nat :=
  List.length (filter (isSleep d) evs).
Arguments sleeps : simpl never.


(** Dials number [from] to [to - 1] of the process that fail, and that
    succeed. *)
Definition dialFails (net : Net) (wsEndpoint : string) (k : nat) : bool :=
  match Dial net k wsEndpoint with
  | inl _ => true
  | inr _ => false
  end.

Definition countIn (p : nat -> bool) (from to : nat) : nat :=
  List.length (filter p (seq from (to - from))).

Definition failedDials (net : Net) (wsEndpoint : string) (from to : nat) : nat :=
  countIn (dialFails net wsEndpoint) from to.

Definition goodDials (net : Net) (wsEndpoint : string) (from to : nat) : nat :=
  countIn (fun k => negb (dialFails net wsEndpoint k)) from to.

(** What one run of the retry loop with [todo] iterations left does, from
    the world [w] to the world [w']: the subscription attempts made, the
    dials made for them, the sleeps, and how it ends. *)
Definition reconnected (net : Net) (wsEndpoint : string) (todo : nat) (w : World)
    (out : outcome (EthClient * Subscription)) (w' : World) : Prop :=
  (dials w <= dials w')%nat
  /\ (subscribes w <= subscribes w')%nat
  /\ (subscribes w' - subscribes w <= todo)%nat
  /\ goodDials net wsEndpoint (dials w) (dials w')
     = (subscribes w' - subscribes w)%nat
  /\ sleeps 10 (events w')
     = (sleeps 10 (events w) + failedDials net wsEndpoint (dials w) (dials w'))%nat
  /\ (forall s,
        (subscribes w <= s)%nat ->
        (s < subscribes w' - match out with Ret _ => 1 | _ => 0 end)%nat ->
        exists k c err,
          (dials w <= k < dials w')%nat
          /\ Dial net k wsEndpoint = inr c
          /\ SubscribeNewHead net s c = inl err)
  /\ match out with
     | Ret (c, sub) =>
         (subscribes w < subscribes w')%nat
         /\ (dials w < dials w')%nat
         /\ Dial net (dials w' - 1) wsEndpoint = inr c
         /\ SubscribeNewHead net (subscribes w' - 1) c = inr sub
         /\ sleeps 5 (events w')
            = (sleeps 5 (events w) + (subscribes w' - subscribes w - 1))%nat
     | Exit =>
         subscribes w' = (subscribes w + todo)%nat
         /\ sleeps 5 (events w') = (sleeps 5 (events w) + todo)%nat
         /\ last (events w') (EvSleep 0)
            = EvLog LvlCrit "failed to reconnect WebSocket client after retries"
     | Panic _ => False
     end.


(** The transfer both files assemble, up to the tip cap. *)
Definition isSelfTransfer (client : EthClient) (cr : Crypto)
    (authAcct : AuthAcct) (value offset tipFactor : Z)
    (tx : Transaction) (blk : Z) : Prop :=
  exists nonce header baseFee chainID key sg,
    PendingNonceAt client (acctAddress authAcct) = inr nonce
    /\ HeaderByNumber client = inr header
    /\ BaseFee header = Some baseFee
    /\ NetworkID client = inr chainID
    /\ acctPrivateKey authAcct = Some key
    /\ (let unsigned := transferTx authAcct nonce value (4 * baseFee)
                                   (tipFactor * baseFee) in
        SignTx cr unsigned chainID key = inr sg
        /\ tx = WithSignature unsigned sg)
    /\ blk = wrap_uint64 (Uint64 (Number header) + offset).

(** The inverse of [hexDigit] and of [EncodeToString], used to state that
    the encoding loses nothing. *)
Definition unhexDigit (c : ascii) : Z :=
  match String.index 0 (String c EmptyString) "0123456789abcdef" with
  | Some n => Z.of_nat n
  | None => 0
  end.

Fixpoint hexDecode (s : string) : list Z :=
  match s with
  | String hi (String lo rest) => (unhexDigit hi * 16 + unhexDigit lo) :: hexDecode rest
  | _ => []
  end.

(** Reading back a quantity written by [hexutil.EncodeUint64]. *)
Definition hexutil_DecodeUint64 (s : string) : option Z :=
  match HexadecimalString.NilZero.uint_of_string (TrimPrefix s "0x") with
  | Some d => Some (Z.of_N (N.of_hex_uint d))
  | None => None
  end.

(** The goroutines that a trace starts for the request log, and the relay
    calls it makes. *)
Definition requestsSaved (evs : list Event) : list (Bid * Z) :=
  flat_map (fun e => match e with EvGoSaveBidRequest _ r ts => [(r, ts)] | _ => [] end) evs.

Definition bundlesSent (evs : list Event) : list (string * Transaction * Z) :=
  flat_map (fun e => match e with EvSendBundle u tx blk => [(u, tx, blk)] | _ => [] end) evs.

Definition logged (evs : list Event) : list (Level * string) :=
  flat_map (fun e => match e with EvLog l m => [(l, m)] | _ => [] end) evs.

(** A slice of transaction pointers whose elements are all non-nil and
    encode to the given byte strings. *)
Definition encodeTo (b : Bidder) (v : list (option Transaction))
    (encs : list (list Z)) : Prop :=
  Forall2 (fun ptx enc => exists tx, ptx = Some tx /\ MarshalBinary b tx = inr enc)
          v encs.

(** Events of the bid path proper: logs, the gRPC call, receives and the two
    persistence goroutines. *)
Definition onBidPath (e : Event) : Prop :=
  match e with
  | EvSendBundle _ _ _ | EvSleep _ => False
  | _ => True
  end.

(** Total of a list of durations. *)
Definition total (l : list Z) : Z := fold_right Z.add 0 l.

(** The state of the RPC dial loop after [k] failed dials that started at
    loop index [i]. *)
Definition afterFailures (conv : Z -> Z) (st : RpcState) (i : Z) (k : nat)
  : RpcState :=
  mkRpcState (rpcDials st + k)
    (rpcSleeps st ++ map (fun j => backoff conv (i + Z.of_nat j)) (seq 0 k))
    (rpcLog st
     ++ repeat (LvlWarn, "failed to connect to RPC client, retrying..."%string) k).

(** The number a decimal numeral denotes when read from the left with
    [a] already accumulated. *)
Fixpoint decimalValue (d : Decimal.uint) (a : Z) : Z :=
  match d with
  | Decimal.Nil => a
  | Decimal.D0 d => decimalValue d (10 * a + 0)
  | Decimal.D1 d => decimalValue d (10 * a + 1)
  | Decimal.D2 d => decimalValue d (10 * a + 2)
  | Decimal.D3 d => decimalValue d (10 * a + 3)
  | Decimal.D4 d => decimalValue d (10 * a + 4)
  | Decimal.D5 d => decimalValue d (10 * a + 5)
  | Decimal.D6 d => decimalValue d (10 * a + 6)
  | Decimal.D7 d => decimalValue d (10 * a + 7)
  | Decimal.D8 d => decimalValue d (10 * a + 8)
  | Decimal.D9 d => decimalValue d (10 * a + 9)
  end.

(** A string of decimal digits. *)
Fixpoint allDigits (s : string) : bool :=
  match s with
  | EmptyString => true
  | String c rest =>
      let n := Z.of_N (N_of_ascii c) in
      (48 <=? n) && (n <=? 57) && allDigits rest
  end.

(** The number that a string of decimal digits denotes, read from the left
    with [a] already accumulated; leading zeros do not count. *)
Fixpoint digitsValueFrom (s : string) (a : Z) : Z :=
  match s with
  | EmptyString => a
  | String c rest =>
      digitsValueFrom rest (10 * a + (Z.of_N (N_of_ascii c) - 48))
  end.

Definition digitsValue (s : string) : Z := digitsValueFrom s 0.

(* ================================================================= *)
(** * Concrete collaborators used in examples *)

Module Demo.
Definition sig0 : Signature := mkSignature 1 2 3.

Definition auth0 : TransactOpts :=
  mkTransactOpts 42 (fun _ _ => inr sig0).

Definition crypto : Crypto :=
  {| HexToECDSA := fun _ => inr 5;
     Public := fun k => (k, k);
     PubkeyToAddress := fun _ => 42;
     SignTx := fun _ _ _ => inr sig0;
     NewKeyedTransactorWithChainID := fun _ _ => inr auth0 |}.

Definition acct : AuthAcct := mkAuthAcct (Some 5) (Some (5, 5)) 42 (Some auth0).

Definition header : Header := mkHeader 10 (Some 100) (Some 0) (Some 0).

Definition client : EthClient :=
  {| PendingNonceAt := fun _ => inr 7;
     HeaderByNumber := inr header;
     NetworkID := inr 17000 |}.

(** A node whose nonce query fails. *)
Definition brokenClient : EthClient :=
  {| PendingNonceAt := fun _ => inl "connection reset"%string;
     HeaderByNumber := inr header;
     NetworkID := inr 17000 |}.

Definition kzg : Kzg :=
  {| BlobToCommitment := fun b => (firstn 48 b, None);
     ComputeBlobProof := fun b c => (firstn 48 (b ++ c), None);
     CalcBlobHashV1 := fun c => 1 :: c |}.

(** A KZG library that, like go-kzg-4844, refuses exactly the blobs that
    are not 4096 canonical scalars, and a commitment that is the zero value;
    next to an error it returns the zero value. *)
Definition strictKzg : Kzg :=
  {| BlobToCommitment := fun b =>
       if canonicalBlob b then (192 :: firstn 47 b, None)
       else (zeroCommitment, Some "scalar is not canonical"%string);
     ComputeBlobProof := fun b c =>
       if canonicalBlob b && negb (len c =? 0)
       then (160 :: firstn 47 (c ++ b), None)
       else (zeroProof, Some "invalid blob or commitment"%string);
     CalcBlobHashV1 := fun c => 1 :: c |}.


(** A fee market whose current blob fee is 1000. *)
Definition feeMarket : Eip4844 :=
  {| CalcExcessBlobGas := fun excess used => excess + used;
     CalcBlobFee := fun _ => 1000 |}.

Definition rnd : Rand := {| rand_Read := fun k => repeat (Z.of_nat k mod 256) 32 |}.

(** A bidder whose stream carries two commitments and then ends. *)
Definition bidder : Bidder :=
  {| client_SendBid := fun _ => inr (mkStream ["c1"; "c2"]%string None);
     MarshalBinary := fun _ => inr [2; 248];
     HashString := fun _ => "0xabcd"%string |}.

(** A bidder whose stream breaks after the first commitment. *)
Definition brokenBidder : Bidder :=
  {| client_SendBid :=
       fun _ => inr (mkStream ["c1"]%string (Some "transport is closing"%string));
     MarshalBinary := fun _ => inr [2; 248];
     HashString := fun _ => "0xabcd"%string |}.

(** An endpoint that refuses every connection. *)
Definition deadNet : Net :=
  {| Dial := fun _ _ => inl "connection refused"%string;
     SubscribeNewHead := fun _ _ => inr 1 |}.

(** An endpoint that refuses the first two connections of the process and
    the first subscription. *)
Definition flakyNet : Net :=
  {| Dial := fun k _ =>
       if (k <? 2)%nat then inl "connection refused"%string else inr client;
     SubscribeNewHead := fun k _ =>
       if (k <? 1)%nat then inl "subscription failed"%string else inr 1 |}.

(** An endpoint that accepts connections and subscriptions. *)
Definition liveNet : Net :=
  {| Dial := fun _ _ => inr client;
     SubscribeNewHead := fun _ _ => inr 1 |}.

Definition relay : Relay := fun _ _ _ => Ret (inr "ok"%string).

(** A signed transfer to the account itself. *)
Definition signed : Transaction :=
  WithSignature
    (NewTx (DynamicFee (mkDynamicFeeTx 7 (Some 42) 1000000000000000 500000 200 2)))
    sig0.

(** A relay endpoint that answers every request with an empty object. *)
Definition http : Http :=
  {| jsonMarshal := fun _ => inr [123; 125];
     urlError := fun _ => None;
     Do := fun _ => inr (inr "{}"%string) |}.

(** The same endpoint behind a URL that does not parse. *)
Definition badUrlHttp : Http :=
  {| jsonMarshal := fun _ => inr [123; 125];
     urlError := fun _ => Some "missing protocol scheme"%string;
     Do := fun _ => inr (inr "{}"%string) |}.

(** A chain on which the minimum deposit is 1000 wei and every transaction
    is mined successfully. *)
Definition chain : Chain :=
  {| ReadFile := fun _ => inr "[]"%string;
     abi_JSON := fun data => inr data;
     Call := fun _ _ _ _ => inr [VBigInt 1000];
     abi_Pack := fun _ _ _ => None;
     Transact := fun _ _ _ _ _ _ => inr signed;
     WaitMined := fun _ => inr (mkReceipt 1) |}.

(** The same chain when calls succeed without any output. *)
Definition silentChain : Chain :=
  {| ReadFile := fun _ => inr "[]"%string;
     abi_JSON := fun data => inr data;
     Call := fun _ _ _ _ => inr [];
     abi_Pack := fun _ _ _ => None;
     Transact := fun _ _ _ _ _ _ => inr signed;
     WaitMined := fun _ => inr (mkReceipt 1) |}.

(** The same chain when every transaction reverts. *)
Definition revertingChain : Chain :=
  {| ReadFile := fun _ => inr "[]"%string;
     abi_JSON := fun data => inr data;
     Call := fun _ _ _ _ => inr [VBigInt 1000];
     abi_Pack := fun _ _ _ => None;
     Transact := fun _ _ _ _ _ _ => inr signed;
     WaitMined := fun _ => inr (mkReceipt 0) |}.

(** An environment given by the variables that are set; [os.Getenv] gives
    the empty string for the others. *)
Fixpoint getenv (vars : list (string * string)) (name : string) : string :=
  match vars with
  | [] => EmptyString
  | (k, v) :: rest => if String.eqb k name then v else getenv rest name
  end.

(** Bundle mode with the block offset 0 and the default bidder address. *)
Definition env : string -> string :=
  getenv [("WS_ENDPOINT", "ws://geth:8546"); ("PRIVATE_KEY", "4c0883a6");
          ("USE_PAYLOAD", "false"); ("RPC_ENDPOINT", "http://relay:8545");
          ("OFFSET", "0")]%string.
End Demo.

(* ================================================================= *)
(** * Properties *)

(** ** AuthenticateAddress *)

(** C10: called with the empty private-key string, AuthenticateAddress
    returns the zero-valued account (nil private key, nil public key, zero
    address, nil transactor) together with a nil error; the only place that
    turns an absent key into a failure is main's own configuration check,
    which exits before the call. *)
Theorem AuthenticateAddress_empty_key :
  forall cr : Crypto,
    AuthenticateAddress cr EmptyString = Ret (zeroAuthAcct, None)
    /\ acctPrivateKey zeroAuthAcct = None
    /\ acctPublicKey zeroAuthAcct = None
    /\ acctAddress zeroAuthAcct = zeroAddress
    /\ acctAuth zeroAuthAcct = None
    /\ mainAuthenticate cr EmptyString = Exit.
Proof.
  intro cr. unfold AuthenticateAddress, mainAuthenticate.
  destruct (string_dec EmptyString EmptyString) as [_ | ne];
    [ repeat split | now elim ne ].
Qed.

(** ** SelfETHTransfer *)

Section SelfTransfer.
Variables (cr : Crypto) (client : EthClient) (authAcct : AuthAcct).
Variables (value offset nonce baseFee chainID : Z) (header : Header).
Variables (key : PrivateKey) (sgn : Transaction -> Signature).

Hypothesis nonce_read :
  PendingNonceAt client (acctAddress authAcct) = inr nonce.
Hypothesis header_read : HeaderByNumber client = inr header.
Hypothesis header_fee : BaseFee header = Some baseFee.
Hypothesis chain_read : NetworkID client = inr chainID.
Hypothesis has_key : acctPrivateKey authAcct = Some key.
Hypothesis signs : forall tx, SignTx cr tx chainID key = inr (sgn tx).

Lemma TransferFile_run :
  TransferFile.SelfETHTransfer cr client authAcct value offset
  = let tx := transferTx authAcct nonce value (baseFee * 2 * 2) (baseFee * 2) in
    Ret (inr (WithSignature tx (sgn tx),
              wrap_uint64 (Uint64 (Number header) + offset))).
Proof.
  unfold TransferFile.SelfETHTransfer, signWithKey.
  rewrite nonce_read, header_read, header_fee. cbn [deref obind].
  rewrite chain_read, has_key. cbn [deref obind].
  rewrite signs. reflexivity.
Qed.

Lemma BlobFile_run :
  BlobFile.SelfETHTransfer cr client authAcct value offset
  = let tx := transferTx authAcct nonce value (baseFee * 2 * 2) 0 in
    Ret (inr (WithSignature tx (sgn tx),
              wrap_uint64 (Uint64 (Number header) + offset))).
Proof.
  unfold BlobFile.SelfETHTransfer, signWithKey.
  rewrite nonce_read, header_read, header_fee. cbn [deref obind].
  rewrite chain_read, has_key. cbn [deref obind].
  rewrite signs. reflexivity.
Qed.

(** C2 (amended): when the nonce, header (carrying a base fee) and chain-id
    reads succeed and the transaction is signed, both files' SelfETHTransfer
    return a transaction for block [number + offset] whose nonce is the
    pending nonce and whose gas fee cap is 4 x base fee.  The gas tip cap
    is 2 x base fee (so fee cap = 2 x tip cap) in the transfer file, and 0
    in the file that also holds ExecuteBlobTransaction.  The base fee being
    non-negative, fee cap >= tip cap >= 0 in both. *)
Theorem SelfETHTransfer_nonce_and_fees :
  0 <= baseFee ->
  exists txT txB blk,
    TransferFile.SelfETHTransfer cr client authAcct value offset
      = Ret (inr (txT, blk))
    /\ BlobFile.SelfETHTransfer cr client authAcct value offset
      = Ret (inr (txB, blk))
    /\ blk = wrap_uint64 (Uint64 (Number header) + offset)
    /\ Nonce txT = nonce /\ Nonce txB = nonce
    /\ GasTipCap txT = 2 * baseFee
    /\ GasFeeCap txT = 2 * GasTipCap txT
    /\ GasFeeCap txT = 4 * baseFee
    /\ GasTipCap txB = 0
    /\ GasFeeCap txB = 4 * baseFee
    /\ 0 <= GasTipCap txT <= GasFeeCap txT
    /\ 0 <= GasTipCap txB <= GasFeeCap txB.
Proof.
  intros Hfee.
  rewrite TransferFile_run, BlobFile_run. cbv zeta.
  do 3 eexists. split; [ reflexivity | ]. split; [ reflexivity | ].
  unfold transferTx, Nonce, GasTipCap, GasFeeCap;
    cbn [WithSignature NewTx inner df_Nonce df_GasTipCap df_GasFeeCap].
  repeat match goal with |- _ /\ _ => split end;
    try reflexivity; lia.
Qed.
End SelfTransfer.

Lemma SelfETHTransfer_nonce_and_fees_witness :
  exists txT txB blk,
    TransferFile.SelfETHTransfer Demo.crypto Demo.client Demo.acct 1000000000000000 1
      = Ret (inr (txT, blk))
    /\ BlobFile.SelfETHTransfer Demo.crypto Demo.client Demo.acct 1000000000000000 1
      = Ret (inr (txB, blk))
    /\ blk = wrap_uint64 (Uint64 (Number Demo.header) + 1)
    /\ Nonce txT = 7 /\ Nonce txB = 7
    /\ GasTipCap txT = 2 * 100
    /\ GasFeeCap txT = 2 * GasTipCap txT
    /\ GasFeeCap txT = 4 * 100
    /\ GasTipCap txB = 0
    /\ GasFeeCap txB = 4 * 100
    /\ 0 <= GasTipCap txT <= GasFeeCap txT
    /\ 0 <= GasTipCap txB <= GasFeeCap txB.
Proof.
  apply (SelfETHTransfer_nonce_and_fees Demo.crypto Demo.client Demo.acct
           1000000000000000 1 7 100 17000 Demo.header 5 (fun _ => Demo.sig0));
    first [ reflexivity | lia ].
Defined.

(** The claim of C2 read on the file that holds ExecuteBlobTransaction: all
    reads succeed, the base fee is 100, the transaction is signed and
    returned, and its tip cap is 0, not 2 x 100. *)
Lemma SelfETHTransfer_tip_counterexample :
  PendingNonceAt Demo.client (acctAddress Demo.acct) = inr 7
  /\ HeaderByNumber Demo.client = inr Demo.header
  /\ BaseFee Demo.header = Some 100
  /\ NetworkID Demo.client = inr 17000
  /\ exists tx blk,
       BlobFile.SelfETHTransfer Demo.crypto Demo.client Demo.acct 1000000000000000 1
         = Ret (inr (tx, blk))
       /\ Nonce tx = 7
       /\ GasFeeCap tx = 4 * 100
       /\ GasTipCap tx = 0
       /\ GasTipCap tx <> 2 * 100
       /\ GasFeeCap tx <> 2 * GasTipCap tx.
Proof.
  repeat split; try reflexivity.
  eexists; eexists. split; [ reflexivity | ].
  repeat split; try reflexivity; cbn; discriminate.
Qed.

(** ** Sidecar and blob builder *)

Lemma makeSidecar_loop_spec (kz : Kzg) (blobs : list Blob) :
  forall cs ps,
    makeSidecar_loop kz blobs cs ps
    = (cs ++ map (fun b => fst (BlobToCommitment kz b)) blobs,
       ps ++ map (fun b => fst (ComputeBlobProof kz b (fst (BlobToCommitment kz b))))
                 blobs).
Proof.
  induction blobs as [| blob rest IH]; intros cs ps; cbn [makeSidecar_loop map].
  - now rewrite !app_nil_r.
  - destruct (BlobToCommitment kz blob) as [c ce]; cbn [fst].
    destruct (ComputeBlobProof kz blob c) as [p pe]; cbn [fst].
    rewrite IH, <- !app_assoc. reflexivity.
Qed.

Lemma makeSidecar_spec (kz : Kzg) (blobs : list Blob) :
  makeSidecar kz blobs
  = {| Blobs := blobs;
       Commitments := map (fun b => fst (BlobToCommitment kz b)) blobs;
       Proofs := map (fun b => fst (ComputeBlobProof kz b (fst (BlobToCommitment kz b))))
                     blobs |}.
Proof.
  unfold makeSidecar. rewrite makeSidecar_loop_spec. reflexivity.
Qed.

Lemma randBlobs_length (rnd : Rand) (n : Z) (blobs : list Blob) :
  randBlobs rnd n = Ret blobs -> len blobs = n.
Proof.
  unfold randBlobs, len. destruct (n <? 0) eqn:En; [ discriminate | ].
  intros [= <-]. rewrite length_map, length_seq. apply Z.ltb_ge in En. lia.
Qed.

Lemma randBlobs_returns (rnd : Rand) (n : Z) :
  0 <= n -> exists blobs, randBlobs rnd n = Ret blobs.
Proof.
  intros Hn. unfold randBlobs.
  destruct (n <? 0) eqn:En; [ apply Z.ltb_lt in En; lia | eauto ].
Qed.

Lemma MustFromBig_small (b : Z) :
  0 <= b < 2 ^ 256 -> MustFromBig b = Ret b.
Proof.
  intros Hb. unfold MustFromBig.
  rewrite Z.abs_eq by lia.
  destruct (b <? 2 ^ 256) eqn:E; [ | apply Z.ltb_ge in E; lia ].
  now rewrite Z.mod_small.
Qed.

(** Case analysis on the next call of a builder. *)
Ltac next_call :=
  match goal with
  | |- obind ?x _ = _ -> _ => destruct x eqn:?; cbn [obind deref]
  | |- match ?x with inl _ => _ | inr _ => _ end = _ -> _ => destruct x eqn:?
  end.



Section BlobBuild.
Variables (cr : Crypto) (kz : Kzg) (fm : Eip4844) (rnd : Rand).
Variables (client : EthClient) (authAcct : AuthAcct) (numBlobs offset : Z).
Variables (key : PrivateKey) (nonce chainID : Z) (header : Header).
Variables (excessBlobGas blobGasUsed baseFee : Z).
Variables (auth : TransactOpts) (sgn : Transaction -> Signature).

Hypothesis has_key : acctPrivateKey authAcct = Some key.
Hypothesis nonce_read :
  PendingNonceAt client (acctAddress authAcct) = inr nonce.
Hypothesis header_read : HeaderByNumber client = inr header.
Hypothesis chain_read : NetworkID client = inr chainID.
Hypothesis header_excess : ExcessBlobGas header = Some excessBlobGas.
Hypothesis header_used : BlobGasUsed header = Some blobGasUsed.
Hypothesis header_fee : BaseFee header = Some baseFee.
Hypothesis count_ok : 0 <= numBlobs.
Hypothesis chain_fits : 0 <= chainID < 2 ^ 256.
Hypothesis fee_fits : 0 <= baseFee * 2 * 2 < 2 ^ 256.
Hypothesis transactor :
  NewKeyedTransactorWithChainID cr key chainID = inr auth.
Hypothesis signs : forall tx, Signer auth (From auth) tx = inr (sgn tx).

Let minBlobFee : Z := minBlobFeeOf fm excessBlobGas blobGasUsed.

Hypothesis blob_fee_fits : 0 <= bumpBlobFee minBlobFee < 2 ^ 256.

Lemma ExecuteBlobTransaction_run :
  exists blobs,
    randBlobs rnd numBlobs = Ret blobs
    /\ ExecuteBlobTransaction cr kz fm rnd client authAcct numBlobs offset
       = let sideCar := makeSidecar kz blobs in
         let tx := NewTx (BlobData {|
           bt_ChainID := chainID;
           bt_Nonce := nonce;
           bt_GasTipCap := 0;
           bt_GasFeeCap := baseFee * 2 * 2;
           bt_Gas := 500000;
           bt_To := PubkeyToAddress cr (Public cr key);
           bt_BlobFeeCap := bumpBlobFee minBlobFee;
           bt_BlobHashes := sidecarBlobHashes kz sideCar;
           bt_Sidecar := sideCar |}) in
         Ret (inr (WithSignature tx (sgn tx),
                   wrap_uint64 (Uint64 (Number header) + offset))).
Proof.
  destruct (randBlobs_returns rnd numBlobs count_ok) as [blobs Hb].
  exists blobs. split; [ exact Hb | ].
  unfold ExecuteBlobTransaction.
  rewrite has_key; cbn [deref obind].
  rewrite nonce_read, header_read, chain_read.
  rewrite header_excess, header_used; cbn [deref obind].
  rewrite Hb; cbn [obind].
  rewrite header_fee; cbn [deref obind].
  rewrite (MustFromBig_small chainID chain_fits); cbn [obind].
  rewrite (MustFromBig_small _ fee_fits); cbn [obind].
  change (CalcBlobFee fm (CalcExcessBlobGas fm excessBlobGas blobGasUsed))
    with minBlobFee.
  change ((minBlobFee + 1) * 110 / 100) with (bumpBlobFee minBlobFee).
  rewrite (MustFromBig_small _ blob_fee_fits); cbn [obind].
  rewrite transactor, signs. reflexivity.
Qed.


(** C6: for every blob count n >= 1, when the state reads and the signing
    succeed and the fee values fit the 256-bit fields, ExecuteBlobTransaction
    returns a transaction that carries exactly n blobs, n versioned blob
    hashes, n commitments and n opening proofs. *)
Theorem ExecuteBlobTransaction_counts :
  1 <= numBlobs ->
  exists tx blk sc,
    ExecuteBlobTransaction cr kz fm rnd client authAcct numBlobs offset
      = Ret (inr (tx, blk))
    /\ BlobTxSidecarOf tx = Some sc
    /\ len (Blobs sc) = numBlobs
    /\ len (BlobHashes tx) = numBlobs
    /\ len (Commitments sc) = numBlobs
    /\ len (Proofs sc) = numBlobs.
Proof.
  intros _.
  destruct ExecuteBlobTransaction_run as (blobs & Hb & Hrun).
  apply randBlobs_length in Hb.
  rewrite Hrun, makeSidecar_spec. cbv zeta.
  do 3 eexists. split; [ reflexivity | ].
  unfold BlobTxSidecarOf, BlobHashes, sidecarBlobHashes;
    cbn [WithSignature NewTx inner bt_Sidecar bt_BlobHashes
         Blobs Commitments Proofs].
  split; [ reflexivity | ].
  unfold len in *. cbn [Blobs Commitments Proofs].
  rewrite !length_map. repeat split; exact Hb.
Qed.

(** C7: for every minimum blob fee m >= 0 the cap (m + 1) * 110 / 100 is
    strictly greater than m and at least 110% of m; for m = 1000 it is
    1101 >= 1100; and this cap is the blob fee cap of the transaction that
    ExecuteBlobTransaction returns, m being the fee computed from the
    header. *)
Theorem blob_fee_cap_exceeds_minimum :
  0 <= minBlobFee ->
  (forall m, 0 <= m ->
     m < bumpBlobFee m /\ 110 * m <= 100 * bumpBlobFee m)
  /\ bumpBlobFee 1000 = 1101
  /\ 1100 <= bumpBlobFee 1000
  /\ exists tx blk,
       ExecuteBlobTransaction cr kz fm rnd client authAcct numBlobs offset
         = Ret (inr (tx, blk))
       /\ BlobGasFeeCap tx = Some (bumpBlobFee minBlobFee)
       /\ minBlobFee < bumpBlobFee minBlobFee
       /\ 110 * minBlobFee <= 100 * bumpBlobFee minBlobFee.
Proof.
  intros Hmin.
  assert (bump : forall m, 0 <= m ->
                   m < bumpBlobFee m /\ 110 * m <= 100 * bumpBlobFee m).
  { intros m Hm. unfold bumpBlobFee. Z.div_mod_to_equations. lia. }
  split; [ exact bump | ].
  split; [ reflexivity | ].
  split; [ now vm_compute | ].
  destruct ExecuteBlobTransaction_run as (blobs & _ & Hrun).
  rewrite Hrun. cbv zeta. do 2 eexists.
  split; [ reflexivity | ].
  split; [ reflexivity | apply bump, Hmin ].
Qed.
End BlobBuild.

Ltac fits_256 := vm_compute; split; [ discriminate | reflexivity ].



Lemma ExecuteBlobTransaction_counts_witness :
  exists tx blk sc,
    ExecuteBlobTransaction Demo.crypto Demo.kzg Demo.feeMarket Demo.rnd
      Demo.client Demo.acct 2 1
    = Ret (inr (tx, blk))
    /\ BlobTxSidecarOf tx = Some sc
    /\ len (Blobs sc) = 2
    /\ len (BlobHashes tx) = 2
    /\ len (Commitments sc) = 2
    /\ len (Proofs sc) = 2.
Proof.
  apply (ExecuteBlobTransaction_counts
           Demo.crypto Demo.kzg Demo.feeMarket Demo.rnd Demo.client
           Demo.acct 2 1 5 7 17000 Demo.header 0 0 100 Demo.auth0
           (fun _ => Demo.sig0));
    first [ reflexivity | lia | fits_256 ].
Defined.

Lemma blob_fee_cap_exceeds_minimum_witness :
  (forall m, 0 <= m ->
     m < bumpBlobFee m /\ 110 * m <= 100 * bumpBlobFee m)
  /\ bumpBlobFee 1000 = 1101
  /\ 1100 <= bumpBlobFee 1000
  /\ exists tx blk,
       ExecuteBlobTransaction Demo.crypto Demo.kzg Demo.feeMarket Demo.rnd
         Demo.client Demo.acct 2 1
       = Ret (inr (tx, blk))
       /\ BlobGasFeeCap tx = Some (bumpBlobFee (minBlobFeeOf Demo.feeMarket 0 0))
       /\ minBlobFeeOf Demo.feeMarket 0 0
          < bumpBlobFee (minBlobFeeOf Demo.feeMarket 0 0)
       /\ 110 * minBlobFeeOf Demo.feeMarket 0 0
          <= 100 * bumpBlobFee (minBlobFeeOf Demo.feeMarket 0 0).
Proof.
  apply (blob_fee_cap_exceeds_minimum
           Demo.crypto Demo.kzg Demo.feeMarket Demo.rnd Demo.client
           Demo.acct 2 1 5 7 17000 Demo.header 0 0 100 Demo.auth0
           (fun _ => Demo.sig0));
    first [ reflexivity | lia | fits_256 | now vm_compute ].
Defined.

(** ** Traces *)

Lemma tbind_events {A B} (m : traced A) (k : A -> traced B) :
  fst (tbind m k)
  = fst m ++ match snd m with Ret a => fst (k a) | _ => [] end.
Proof.
  destruct m as [ev [a | w |]]; cbn; [ | now rewrite app_nil_r ..].
  now destruct (k a).
Qed.

Lemma tbind_result {A B} (m : traced A) (k : A -> traced B) :
  snd (tbind m k)
  = match snd m with
    | Ret a => snd (k a)
    | Panic w => Panic w
    | Exit => Exit
    end.
Proof.
  destruct m as [ev [a | w |]]; cbn; try reflexivity. now destruct (k a).
Qed.

Ltac trace_norm :=
  unfold requestsSent, responsesSaved, received in *;
  repeat first
    [ rewrite tbind_events | rewrite tbind_result | rewrite flat_map_app
    | progress cbn [emit pure lift fst snd app deref flat_map] ].

(** The receive loop sends nothing, saves nothing, and receives every pending
    message followed by the end of the stream; it returns the accumulated
    messages only at [io.EOF]. *)
Lemma recvLoop_spec (msgs : list Msg) (closing : option error) :
  forall responses,
    requestsSent (fst (recvLoop msgs closing responses)) = []
    /\ responsesSaved (fst (recvLoop msgs closing responses)) = []
    /\ received (fst (recvLoop msgs closing responses))
       = map RecvMsg msgs
         ++ [match closing with None => RecvEOF | Some e => RecvErr e end]
    /\ snd (recvLoop msgs closing responses)
       = match closing with
         | None => Ret (inr (responses ++ msgs, mkStream [] None))
         | Some e => Ret (inl ("failed to send bid: " ++ e)%string)
         end.
Proof.
  induction msgs as [| msg rest IH]; intros responses; cbn [recvLoop].
  - destruct closing as [e |]; trace_norm; rewrite ?app_nil_r; repeat split.
  - specialize (IH (responses ++ [msg])).
    destruct IH as (IH1 & IH2 & IH3 & IH4).
    trace_norm. rewrite IH1, IH2, IH3, IH4, <- app_assoc.
    repeat split.
Qed.

Lemma marshalAll_spec (b : Bidder) (v : list (option Transaction)) :
  requestsSent (fst (marshalAll b v)) = []
  /\ responsesSaved (fst (marshalAll b v)) = []
  /\ received (fst (marshalAll b v)) = []
  /\ forall raws, snd (marshalAll b v) = Ret (inr raws) ->
                  List.length raws = List.length v.
Proof.
  induction v as [| ptx rest IH]; cbn [marshalAll].
  - repeat split. cbn. intros raws [= <-]. reflexivity.
  - destruct IH as (IH1 & IH2 & IH3 & IH4).
    destruct ptx as [tx |]; trace_norm;
      [ | repeat split; discriminate ].
    destruct (MarshalBinary b tx) as [err | enc]; trace_norm;
      [ repeat split; discriminate | ].
    rewrite IH1, IH2, IH3.
    destruct (snd (marshalAll b rest)) as [[e | raws] | w |] eqn:Er;
      trace_norm; repeat split; try discriminate.
    intros raws' [= <-]. cbn. f_equal. now apply IH4.
Qed.

(** ** SendBid *)

Lemma let_pair_eta {A B} (t : A * B) : (let '(a, b) := t in (a, b)) = t.
Proof. now destruct t. Qed.

Lemma afterSend_spec (b : Bidder) (ts : Z) (req : Bid) :
  requestsSent (fst (afterSend b ts req)) = []
  /\ forall response, client_SendBid b req = inr response ->
       received (fst (afterSend b ts req))
       = map RecvMsg (pending response)
         ++ [match closing response with None => RecvEOF | Some e => RecvErr e end]
       /\ match closing response with
          | None =>
              snd (afterSend b ts req) = Ret (inr (mkStream [] None))
              /\ responsesSaved (fst (afterSend b ts req)) = [pending response]
          | Some e =>
              snd (afterSend b ts req) = Ret (inl ("failed to send bid: " ++ e)%string)
              /\ responsesSaved (fst (afterSend b ts req)) = []
          end.
Proof.
  unfold afterSend.
  destruct (client_SendBid b req) as [err | response].
  - split; [ reflexivity | discriminate ].
  - destruct (recvLoop_spec (pending response) (closing response) [])
      as (R1 & R2 & R3 & R4).
    trace_norm. rewrite R1, R2, R3, R4.
    split.
    + destruct (closing response); reflexivity.
    + intros response' [= <-].
      destruct (closing response) as [e |]; cbn; rewrite ?app_nil_r; auto.
Qed.

(** SendBid is: build the two lists, build the request, send it, then
    [afterSend]. *)
Lemma SendBid_HashList (b : Bidder) (ts : Z) (v : list string)
    (amount : string) (blk ds de : Z) :
  let hashes := map (fun hash => TrimPrefix hash "0x") v in
  let req := mkBid amount blk ds de hashes [] in
  SendBid b ts (HashList v) amount blk ds de
  = (emit (EvSendBid req) ;;; afterSend b ts req).
Proof.
  cbv zeta. unfold SendBid, afterSend. cbn [pure tbind app].
  destruct v as [| h rest]; cbn [map len List.length Z.of_nat Z.ltb Z.compare];
    unfold set_TxHashes; cbn [Amount BlockNumber DecayStartTimestamp
                              DecayEndTimestamp RawTransactions];
    (etransitivity; [ apply let_pair_eta | reflexivity ]).
Qed.

Lemma SendBid_TxList (b : Bidder) (ts : Z) (v : list (option Transaction))
    (amount : string) (blk ds de : Z) (raws : list string) :
  snd (marshalAll b v) = Ret (inr raws) ->
  let req := mkBid amount blk ds de [] raws in
  fst (SendBid b ts (TxList v) amount blk ds de)
  = fst (marshalAll b v) ++ EvSendBid req :: fst (afterSend b ts req)
  /\ snd (SendBid b ts (TxList v) amount blk ds de) = snd (afterSend b ts req).
Proof.
  intros Hm. cbv zeta. unfold SendBid.
  rewrite !tbind_events, !tbind_result, Hm.
  cbn [pure fst snd app]. rewrite app_nil_r, map_id.
  destruct raws as [| r rest]; cbn [len List.length Z.of_nat Z.ltb Z.compare];
    unfold set_RawTransactions; cbn [Amount BlockNumber DecayStartTimestamp
                                     DecayEndTimestamp TxHashes];
    rewrite !tbind_events, !tbind_result; split; reflexivity.
Qed.

Lemma SendBid_TxList_stopped (b : Bidder) (ts : Z) (v : list (option Transaction))
    (amount : string) (blk ds de : Z) :
  (forall raws, snd (marshalAll b v) <> Ret (inr raws)) ->
  requestsSent (fst (SendBid b ts (TxList v) amount blk ds de)) = [].
Proof.
  intros Hm. unfold SendBid.
  destruct (marshalAll_spec b v) as (M1 & _).
  trace_norm. rewrite M1.
  destruct (snd (marshalAll b v)) as [[e | raws] | w |]; trace_norm;
    try reflexivity.
  now elim (Hm raws).
Qed.

Lemma SendBid_HashList_events (b : Bidder) (ts : Z) (v : list string)
    (amount : string) (blk ds de : Z) :
  let req := mkBid amount blk ds de (map (fun hash => TrimPrefix hash "0x") v) [] in
  fst (SendBid b ts (HashList v) amount blk ds de)
  = EvSendBid req :: fst (afterSend b ts req)
  /\ snd (SendBid b ts (HashList v) amount blk ds de) = snd (afterSend b ts req).
Proof.
  cbv zeta. rewrite SendBid_HashList, tbind_events, tbind_result.
  split; reflexivity.
Qed.

(** C4 (amended): a request built by SendBid never has both lists populated.
    For a list of hashes the request carries the trimmed hashes and no raw
    transactions; for a list of transactions that all encode it carries the
    raw encodings and no hashes; so for a non-empty input list exactly one of
    the two lists is non-empty.  An input of another type is rejected with
    an error and nothing is sent.  An empty input list is not rejected: the
    request is sent with both lists empty. *)
Theorem SendBid_request_lists :
  forall (b : Bidder) (ts : Z) (input : BidInput) (amount : string)
         (blk ds de : Z),
    let run := SendBid b ts input amount blk ds de in
    Forall (fun req => TxHashes req = [] \/ RawTransactions req = [])
           (requestsSent (fst run))
    /\ match input with
       | HashList v =>
           exists req,
             requestsSent (fst run) = [req]
             /\ TxHashes req = map (fun hash => TrimPrefix hash "0x") v
             /\ RawTransactions req = []
             /\ (TxHashes req = [] <-> v = [])
       | TxList v =>
           forall raws, snd (marshalAll b v) = Ret (inr raws) ->
           exists req,
             requestsSent (fst run) = [req]
             /\ TxHashes req = []
             /\ RawTransactions req = raws
             /\ (RawTransactions req = [] <-> v = [])
       | OtherInput ty =>
           requestsSent (fst run) = []
           /\ snd run = Ret (inl ("unsupported input type: " ++ ty)%string)
       end.
Proof.
  intros b ts input amount blk ds de run. subst run.
  destruct input as [v | v | ty].
  - destruct (SendBid_HashList_events b ts v amount blk ds de) as [Hev _].
    cbv zeta in Hev. rewrite Hev.
    destruct (afterSend_spec b ts
                (mkBid amount blk ds de (map (fun hash => TrimPrefix hash "0x") v) []))
      as [Hnone _].
    unfold requestsSent in *. cbn [flat_map app]. rewrite Hnone.
    split.
    + constructor; [ right; reflexivity | constructor ].
    + eexists. split; [ reflexivity | ]. cbn [TxHashes RawTransactions].
      repeat split; intros H; [ now destruct v | now subst v ].
  - destruct (marshalAll_spec b v) as (M1 & _ & _ & M4).
    destruct (snd (marshalAll b v)) as [[e | raws] | w |] eqn:Hm.
    + rewrite SendBid_TxList_stopped
        by (intros raws; rewrite Hm; discriminate).
      split; [ constructor | discriminate ].
    + destruct (SendBid_TxList b ts v amount blk ds de raws Hm) as [Hev _].
      cbv zeta in Hev. rewrite Hev.
      destruct (afterSend_spec b ts (mkBid amount blk ds de [] raws))
        as [Hnone _].
      unfold requestsSent in *. rewrite flat_map_app, M1.
      cbn [flat_map app]. rewrite Hnone.
      split.
      * constructor; [ left; reflexivity | constructor ].
      * intros raws' [= <-]. eexists. split; [ reflexivity | ].
        cbn [TxHashes RawTransactions]. specialize (M4 raws eq_refl).
        repeat split; intros H.
        -- subst raws. destruct v; [ reflexivity | discriminate M4 ].
        -- subst v. destruct raws; [ reflexivity | discriminate M4 ].
    + rewrite SendBid_TxList_stopped
        by (intros raws; rewrite Hm; discriminate).
      split; [ constructor | discriminate ].
    + rewrite SendBid_TxList_stopped
        by (intros raws; rewrite Hm; discriminate).
      split; [ constructor | discriminate ].
  - cbn. split; [ constructor | split; reflexivity ].
Qed.

Lemma SendBid_request_lists_witness :
  let run := SendBid Demo.bidder 0 (TxList [Some (NewTx (DynamicFee
               (mkDynamicFeeTx 7 (Some 42) 1 500000 400 200)))])
               "1" 11 1000 37000 in
  Forall (fun req => TxHashes req = [] \/ RawTransactions req = [])
         (requestsSent (fst run))
  /\ forall raws,
       snd (marshalAll Demo.bidder [Some (NewTx (DynamicFee
               (mkDynamicFeeTx 7 (Some 42) 1 500000 400 200)))])
       = Ret (inr raws) ->
       exists req,
         requestsSent (fst run) = [req]
         /\ TxHashes req = []
         /\ RawTransactions req = raws
         /\ (RawTransactions req = []
             <-> [Some (NewTx (DynamicFee
                   (mkDynamicFeeTx 7 (Some 42) 1 500000 400 200)))] = []).
Proof.
  exact (SendBid_request_lists Demo.bidder 0
           (TxList [Some (NewTx (DynamicFee
               (mkDynamicFeeTx 7 (Some 42) 1 500000 400 200)))])
           "1" 11 1000 37000).
Defined.

(** The claim of C4 at the empty list of hashes: the request is sent with
    neither list populated, and SendBid returns the drained stream, not an
    error. *)
Lemma SendBid_empty_input_counterexample :
  exists req,
    requestsSent (fst (SendBid Demo.bidder 0 (HashList []) "1" 11 1000 37000)) = [req]
    /\ TxHashes req = []
    /\ RawTransactions req = []
    /\ snd (SendBid Demo.bidder 0 (HashList []) "1" 11 1000 37000)
       = Ret (inr (mkStream [] None)).
Proof.
  eexists. split; [ reflexivity | ]. repeat split.
Qed.

(** C5: once the request is sent and the service has opened the stream,
    SendBid calls Recv until the stream ends: it receives every message and
    then the end marker.  When the end is [io.EOF] it returns the drained
    stream and hands all messages, in order, to the response log; when the
    end is any other error it returns an error and the messages received so
    far are neither returned nor logged. *)
Theorem SendBid_drains_stream :
  forall (b : Bidder) (ts : Z) (input : BidInput) (amount : string)
         (blk ds de : Z) (req : Bid) (response : Stream),
    let run := SendBid b ts input amount blk ds de in
    requestsSent (fst run) = [req] ->
    client_SendBid b req = inr response ->
    received (fst run)
    = map RecvMsg (pending response)
      ++ [match closing response with None => RecvEOF | Some e => RecvErr e end]
    /\ match closing response with
       | None =>
           snd run = Ret (inr (mkStream [] None))
           /\ responsesSaved (fst run) = [pending response]
       | Some e =>
           snd run = Ret (inl ("failed to send bid: " ++ e)%string)
           /\ responsesSaved (fst run) = []
       end.
Proof.
  intros b ts input amount blk ds de req response run Hreq Hsvc. subst run.
  destruct input as [v | v | ty].
  - destruct (SendBid_HashList_events b ts v amount blk ds de) as [Hev Hres].
    cbv zeta in Hev, Hres. rewrite Hev in *. rewrite Hres.
    set (req0 := mkBid amount blk ds de _ []) in *.
    destruct (afterSend_spec b ts req0) as [Hnone Hafter].
    unfold requestsSent in Hreq, Hnone. cbn [flat_map app] in Hreq.
    rewrite Hnone in Hreq. injection Hreq as Hreq. rewrite Hreq in *.
    destruct (Hafter response Hsvc) as [Hrecv Hend].
    unfold received, responsesSaved in *. cbn [flat_map app].
    split; [ exact Hrecv | exact Hend ].
  - destruct (marshalAll_spec b v) as (M1 & M2 & M3 & _).
    destruct (snd (marshalAll b v)) as [[e | raws] | w |] eqn:Hm;
      try (rewrite SendBid_TxList_stopped in Hreq
             by (intros raws; rewrite Hm; discriminate);
           discriminate).
    destruct (SendBid_TxList b ts v amount blk ds de raws Hm) as [Hev Hres].
    cbv zeta in Hev, Hres. rewrite Hev in *. rewrite Hres.
    set (req0 := mkBid amount blk ds de [] raws) in *.
    destruct (afterSend_spec b ts req0) as [Hnone Hafter].
    unfold requestsSent, received, responsesSaved in *.
    rewrite flat_map_app in Hreq. rewrite M1 in Hreq.
    cbn [flat_map app] in Hreq.
    rewrite Hnone in Hreq. injection Hreq as Hreq. rewrite Hreq in *.
    destruct (Hafter response Hsvc) as [Hrecv Hend].
    rewrite !flat_map_app, M2, M3. cbn [flat_map app].
    split; [ exact Hrecv | exact Hend ].
  - discriminate.
Qed.

Lemma SendBid_drains_stream_witness :
  let run := SendBid Demo.brokenBidder 0 (HashList ["0xabcd"%string]) "1" 11 1000 37000 in
  received (fst run)
  = map RecvMsg ["c1"%string] ++ [RecvErr "transport is closing"%string]
  /\ snd run = Ret (inl ("failed to send bid: " ++ "transport is closing")%string)
  /\ responsesSaved (fst run) = [].
Proof.
  exact (SendBid_drains_stream Demo.brokenBidder 0 (HashList ["0xabcd"%string])
           "1" 11 1000 37000
           (mkBid "1" 11 1000 37000 ["abcd"%string] [])
           (mkStream ["c1"%string] (Some "transport is closing"%string))
           eq_refl eq_refl).
Defined.

(** ** sendPreconfBid *)

(** SendBid sends at most one request, and it carries the amount, the block
    number and the decay window it was called with. *)
Lemma SendBid_requests (b : Bidder) (ts : Z) (input : BidInput)
    (amount : string) (blk ds de : Z) :
  requestsSent (fst (SendBid b ts input amount blk ds de)) = []
  \/ exists hashes raws,
       requestsSent (fst (SendBid b ts input amount blk ds de))
       = [mkBid amount blk ds de hashes raws].
Proof.
  destruct input as [v | v | ty].
  - right. destruct (SendBid_HashList_events b ts v amount blk ds de) as [Hev _].
    cbv zeta in Hev. rewrite Hev.
    destruct (afterSend_spec b ts
                (mkBid amount blk ds de (map (fun hash => TrimPrefix hash "0x") v) []))
      as [Hnone _].
    unfold requestsSent in *. cbn [flat_map app]. rewrite Hnone. eauto.
  - destruct (marshalAll_spec b v) as (M1 & _).
    destruct (snd (marshalAll b v)) as [[e | raws] | w |] eqn:Hm;
      try (left; apply SendBid_TxList_stopped;
           intros raws; rewrite Hm; discriminate).
    right.
    destruct (SendBid_TxList b ts v amount blk ds de raws Hm) as [Hev _].
    cbv zeta in Hev. rewrite Hev.
    destruct (afterSend_spec b ts (mkBid amount blk ds de [] raws)) as [Hnone _].
    unfold requestsSent in *. rewrite flat_map_app, M1.
    cbn [flat_map app]. rewrite Hnone. eauto.
  - left. reflexivity.
Qed.

Lemma wrap_int64_id (z : Z) :
  int64_min <= z <= int64_max -> wrap_int64 z = z.
Proof.
  unfold int64_min, int64_max, wrap_int64. intros Hz.
  rewrite Z.mod_small; lia.
Qed.

Lemma fixed_decay_duration : Milliseconds (36 * Second) = 36000.
Proof. reflexivity. Qed.

(** The requests that sendPreconfBid sends are those of its one SendBid
    call. *)
Lemma sendPreconfBid_requests (b : Bidder) (now rnd ts : Z)
    (input : PreconfInput) (blk : Z) :
  let decayEnd := wrap_int64 (now + Milliseconds (36 * Second)) in
  requestsSent (fst (sendPreconfBid b now rnd ts input blk))
  = match input with
    | InString v =>
        requestsSent (fst (SendBid b ts (HashList [TrimPrefix v "0x"])
                             (Sprintf_d rnd) blk now decayEnd))
    | InTransaction (Some tx) =>
        requestsSent (fst (SendBid b ts (TxList [Some tx])
                             (Sprintf_d rnd) blk now decayEnd))
    | _ => []
    end.
Proof.
  cbv zeta. unfold sendPreconfBid.
  destruct input as [v | [tx |] |]; trace_norm; try reflexivity.
  - match goal with
    | |- context [snd (SendBid ?b ?t ?i ?a ?k ?s ?e)] =>
        destruct (snd (SendBid b t i a k s e)) as [[err | st] | w |]
    end; trace_norm; now rewrite ?app_nil_r.
  - match goal with
    | |- context [snd (SendBid ?b ?t ?i ?a ?k ?s ?e)] =>
        destruct (snd (SendBid b t i a k s e)) as [[err | st] | w |]
    end; trace_norm; now rewrite ?app_nil_r.
Qed.

(** C8: every bid that sendPreconfBid submits has its decay start at the
    submission time in milliseconds, its decay end 36000 ms (36 s) later,
    hence after the start; a hash input always leads to one submitted bid.
    The clock reading is taken in the range where adding 36 s stays within
    int64. *)
Theorem sendPreconfBid_decay_window :
  forall (b : Bidder) (now rnd ts : Z) (input : PreconfInput) (blk : Z),
    int64_min <= now ->
    now + 36000 <= int64_max ->
    let run := sendPreconfBid b now rnd ts input blk in
    Milliseconds (36 * Second) = 36000
    /\ Forall (fun req =>
                 DecayStartTimestamp req = now
                 /\ DecayEndTimestamp req - DecayStartTimestamp req = 36000
                 /\ DecayEndTimestamp req > DecayStartTimestamp req)
              (requestsSent (fst run))
    /\ match input with
       | InString _ => exists req, requestsSent (fst run) = [req]
       | _ => True
       end.
Proof.
  intros b now rnd ts input blk Hlo Hhi run. subst run.
  split; [ reflexivity | ].
  pose proof (sendPreconfBid_requests b now rnd ts input blk) as Hreq.
  cbv zeta in Hreq. rewrite Hreq. clear Hreq.
  rewrite fixed_decay_duration, wrap_int64_id
    by (unfold int64_min, int64_max in *; lia).
  assert (window : forall i,
             Forall (fun req =>
                 DecayStartTimestamp req = now
                 /\ DecayEndTimestamp req - DecayStartTimestamp req = 36000
                 /\ DecayEndTimestamp req > DecayStartTimestamp req)
               (requestsSent (fst (SendBid b ts i (Sprintf_d rnd) blk now (now + 36000))))).
  { intros i.
    destruct (SendBid_requests b ts i (Sprintf_d rnd) blk now (now + 36000))
      as [-> | (hashes & raws & ->)]; constructor; [ | constructor ].
    cbn [DecayStartTimestamp DecayEndTimestamp]. lia. }
  destruct input as [v | [tx |] |]; split; try apply window; try constructor.
  destruct (SendBid_HashList_events b ts [TrimPrefix v "0x"] (Sprintf_d rnd)
              blk now (now + 36000)) as [Hev _].
  cbv zeta in Hev. rewrite Hev.
  match goal with
  | |- context [afterSend b ts ?r] =>
      destruct (afterSend_spec b ts r) as [Hnone _]
  end.
  unfold requestsSent in *. cbn [flat_map app]. rewrite Hnone. eauto.
Qed.

Lemma sendPreconfBid_decay_window_witness :
  let run := sendPreconfBid Demo.bidder 1728667766708 8704466770567168 1728667766
               (InString "0xabcd") 2513098 in
  Milliseconds (36 * Second) = 36000
  /\ Forall (fun req =>
               DecayStartTimestamp req = 1728667766708
               /\ DecayEndTimestamp req - DecayStartTimestamp req = 36000
               /\ DecayEndTimestamp req > DecayStartTimestamp req)
            (requestsSent (fst run))
  /\ exists req, requestsSent (fst run) = [req].
Proof.
  apply (sendPreconfBid_decay_window Demo.bidder 1728667766708 8704466770567168
           1728667766 (InString "0xabcd") 2513098);
    unfold int64_min, int64_max; lia.
Defined.

Lemma recvLoop_follows_Recv (s : Stream) (responses : list Msg) :
  recvLoop (pending s) (closing s) responses
  = match Recv s with
    | (RecvMsg msg, s') =>
        emit (EvRecv (RecvMsg msg)) ;;;
        emit (EvLog LvlInfo "Bid accepted") ;;;
        recvLoop (pending s') (closing s') (responses ++ [msg])
    | (RecvEOF, _) =>
        emit (EvRecv RecvEOF) ;;;
        pure (inr (responses, mkStream [] None))
    | (RecvErr err, _) =>
        emit (EvRecv (RecvErr err)) ;;;
        emit (EvLog LvlError "Failed to receive bid response") ;;;
        pure (inl ("failed to send bid: " ++ err)%string)
    end.
Proof.
  unfold Recv. destruct (pending s) as [| m rest]; [ | reflexivity ].
  destruct (closing s); reflexivity.
Qed.

(** ** The header case of main *)

Lemma headerCase_on_error (env : MainEnv) (wsClient : EthClient)
    (authAcct : AuthAcct) (header : Header) (e : error) :
  selfETHTransfer env wsClient authAcct 1000000000000000 (offset env)
  = Ret (inl e) ->
  headerCase env wsClient authAcct header
  = ([EvLog LvlInfo "new block generated"], Panic nil_deref).
Proof.
  intros Hbuild. unfold headerCase. rewrite Hbuild. reflexivity.
Qed.

(** C1 (the code departs from it): when the nonce query of the node fails,
    SelfETHTransfer of either file returns a nil transaction with the error,
    and the header case of main panics on [signedTx.GasTipCap()] right after
    logging the new block: no bid, no warning, no next iteration.  The error
    check that logs and continues is the last statement of the case and is
    not reached. *)
Theorem headerCase_failed_build_panics :
  forall (cr : Crypto) (bidder : Bidder) (relay : Relay) (payload : bool)
         (rpc : string) (off now rnd ts : Z) (authAcct : AuthAcct)
         (header : Header) (e : error) (hdr : result Header) (nid : result Z),
    let wsClient := mkEthClient (fun _ => inl e) hdr nid in
    TransferFile.SelfETHTransfer cr wsClient authAcct 1000000000000000 off
      = Ret (inl e)
    /\ BlobFile.SelfETHTransfer cr wsClient authAcct 1000000000000000 off
      = Ret (inl e)
    /\ headerCase (mkMainEnv (TransferFile.SelfETHTransfer cr) bidder relay
                             payload rpc off now rnd ts)
                  wsClient authAcct header
      = ([EvLog LvlInfo "new block generated"], Panic nil_deref)
    /\ headerCase (mkMainEnv (BlobFile.SelfETHTransfer cr) bidder relay
                             payload rpc off now rnd ts)
                  wsClient authAcct header
      = ([EvLog LvlInfo "new block generated"], Panic nil_deref).
Proof.
  intros. subst wsClient.
  repeat split; try reflexivity; apply headerCase_on_error with (e := e);
    reflexivity.
Qed.

(** The same at a concrete node, in payload mode. *)
Example headerCase_connection_reset :
  headerCase (mkMainEnv (TransferFile.SelfETHTransfer Demo.crypto) Demo.bidder
                        Demo.relay true EmptyString 1 1728667766708
                        8704466770567168 1728667766)
             Demo.brokenClient Demo.acct Demo.header
  = ([EvLog LvlInfo "new block generated"], Panic nil_deref).
Proof. reflexivity. Qed.

(** On a successful build, and with a response stream that ends, the same
    case submits one bid and goes on. *)
Example headerCase_success :
  let run := headerCase (mkMainEnv (TransferFile.SelfETHTransfer Demo.crypto)
                           Demo.bidder Demo.relay true EmptyString 1
                           1728667766708 8704466770567168 1728667766)
                        Demo.client Demo.acct Demo.header in
  snd run = Ret tt /\ List.length (requestsSent (fst run)) = 1%nat.
Proof. split; reflexivity. Qed.

(** ** connectWSClient and reconnectWSClient *)

Lemma sleeps_did (d : Z) (e : Event) (w : World) :
  sleeps d (events (did e w))
  = (sleeps d (events w) + if isSleep d e then 1 else 0)%nat.
Proof.
  unfold sleeps, did. cbn [events]. rewrite filter_app, length_app. f_equal.
  cbn. now destruct (isSleep d e).
Qed.

Lemma countIn_empty (p : nat -> bool) (a : nat) : countIn p a a = 0%nat.
Proof. unfold countIn. now rewrite Nat.sub_diag. Qed.

Lemma countIn_split (p : nat -> bool) (a m b : nat) :
  (a <= m <= b)%nat ->
  countIn p a b = (countIn p a m + countIn p m b)%nat.
Proof.
  intros Hm. unfold countIn.
  replace (b - a)%nat with ((m - a) + (b - m))%nat by lia.
  rewrite seq_app, filter_app, length_app.
  now replace (a + (m - a))%nat with m by lia.
Qed.

Lemma countIn_last (p : nat -> bool) (a b : nat) :
  (a <= b)%nat ->
  countIn p a (S b) = (countIn p a b + if p b then 1 else 0)%nat.
Proof.
  intros Hab. rewrite (countIn_split p a b (S b)) by lia. f_equal.
  unfold countIn. replace (S b - b)%nat with 1%nat by lia.
  cbn [seq filter]. now destruct (p b).
Qed.

Lemma countIn_all (p : nat -> bool) (a n : nat) :
  (forall k, (a <= k < a + n)%nat -> p k = true) ->
  countIn p a (a + n) = n.
Proof.
  induction n as [| n IH]; intros Hp.
  - rewrite Nat.add_0_r. apply countIn_empty.
  - replace (a + S n)%nat with (S (a + n)) by lia.
    rewrite countIn_last by lia.
    rewrite IH by (intros k Hk; apply Hp; lia).
    rewrite Hp by lia. lia.
Qed.

Lemma countIn_none (p : nat -> bool) (a n : nat) :
  (forall k, (a <= k < a + n)%nat -> p k = false) ->
  countIn p a (a + n) = 0%nat.
Proof.
  induction n as [| n IH]; intros Hp.
  - rewrite Nat.add_0_r. apply countIn_empty.
  - replace (a + S n)%nat with (S (a + n)) by lia.
    rewrite countIn_last by lia.
    rewrite IH by (intros k Hk; apply Hp; lia).
    rewrite Hp by lia. lia.
Qed.

Section Reconnect.
Variables (net : Net) (wsEndpoint : string).

(** More fuel does not change a result. *)
Lemma connectWSClient_mono (fuel : nat) :
  forall fuel' w x,
    connectWSClient net fuel wsEndpoint w = Some x ->
    (fuel <= fuel')%nat ->
    connectWSClient net fuel' wsEndpoint w = Some x.
Proof.
  induction fuel as [| fuel IH]; intros fuel' w x Hrun Hle; [ discriminate | ].
  destruct fuel' as [| fuel']; [ lia | ].
  cbn [connectWSClient] in *.
  destruct (Dial net (dials w) wsEndpoint); [ | exact Hrun ].
  apply IH; [ exact Hrun | lia ].
Qed.

(** When it returns, connectWSClient has dialed [failed + 1] times: every
    dial but the last failed and was followed by a sleep of 10 s, and the
    client returned, with a nil error, is that of the last dial.  It has not
    subscribed and has not slept 5 s. *)
Lemma connectWSClient_result (fuel : nat) :
  forall w r w',
    connectWSClient net fuel wsEndpoint w = Some (r, w') ->
    exists c failed,
      r = inr c
      /\ dials w' = S (dials w + failed)
      /\ Dial net (dials w + failed) wsEndpoint = inr c
      /\ (forall k, (dials w <= k < dials w + failed)%nat ->
                    dialFails net wsEndpoint k = true)
      /\ subscribes w' = subscribes w
      /\ sleeps 5 (events w') = sleeps 5 (events w)
      /\ sleeps 10 (events w') = (sleeps 10 (events w) + failed)%nat.
Proof.
  induction fuel as [| fuel IH]; intros w r w' Hrun; [ discriminate | ].
  cbn [connectWSClient] in Hrun.
  destruct (Dial net (dials w) wsEndpoint) as [err | c] eqn:Hd.
  - apply IH in Hrun.
    destruct Hrun as (c & failed & -> & Hdials & Hlast & Hfail & Hsub & H5 & H10).
    rewrite !sleeps_did in H5, H10.
    cbn [did dialed dials subscribes events isSleep] in *.
    change (10 =? 5) with false in H5. change (10 =? 10) with true in H10.
    cbv iota in H5, H10.
    exists c, (S failed).
    replace (dials w + S failed)%nat with (S (dials w) + failed)%nat by lia.
    repeat split; try assumption; try lia.
    intros k Hk. destruct (Nat.eq_dec k (dials w)) as [-> | Hne].
    + unfold dialFails. now rewrite Hd.
    + apply Hfail. lia.
  - injection Hrun as <- <-. exists c, 0%nat.
    cbn [dialed dials subscribes events]. rewrite !Nat.add_0_r.
    repeat split; try assumption; try lia.
Qed.

(** The dials of one call of connectWSClient: one success, the rest
    failures. *)
Lemma connectWSClient_dials (a failed : nat) :
  Dial net (a + failed) wsEndpoint <> inl EmptyString ->
  (forall k, (a <= k < a + failed)%nat -> dialFails net wsEndpoint k = true) ->
  dialFails net wsEndpoint (a + failed) = false ->
  failedDials net wsEndpoint a (S (a + failed)) = failed
  /\ goodDials net wsEndpoint a (S (a + failed)) = 1%nat.
Proof.
  intros _ Hfail Hlast. unfold failedDials, goodDials.
  rewrite !countIn_last by lia.
  rewrite countIn_all by exact Hfail.
  rewrite countIn_none by (intros k Hk; now rewrite Hfail).
  rewrite Hlast. cbn [negb]. lia.
Qed.

(** If some dial from the current one on succeeds, connectWSClient
    returns. *)
Lemma connectWSClient_returns (n : nat) :
  forall w c,
    Dial net (dials w + n) wsEndpoint = inr c ->
    exists x, connectWSClient net (S n) wsEndpoint w = Some x.
Proof.
  induction n as [| n IH]; intros w c Hd; cbn [connectWSClient].
  - rewrite Nat.add_0_r in Hd. rewrite Hd. eauto.
  - destruct (Dial net (dials w) wsEndpoint) as [err | c0]; [ | eauto ].
    apply (IH _ c). cbn [did dialed dials].
    now replace (S (dials w) + n)%nat with (dials w + S n)%nat by lia.
Qed.

(** If every dial fails, connectWSClient does not return, whatever the
    bound on its recursion. *)
Lemma connectWSClient_diverges (fuel : nat) :
  (forall k, exists err, Dial net k wsEndpoint = inl err) ->
  forall w, connectWSClient net fuel wsEndpoint w = None.
Proof.
  intros Hdead. induction fuel as [| fuel IH]; intros w; [ reflexivity | ].
  cbn [connectWSClient]. destruct (Hdead (dials w)) as [err ->]. apply IH.
Qed.

Hypothesis dial_recovers :
  forall k, exists j c, (k <= j)%nat /\ Dial net j wsEndpoint = inr c.

Lemma connectWSClient_terminates (w : World) :
  exists fuel x, connectWSClient net fuel wsEndpoint w = Some x.
Proof.
  destruct (dial_recovers (dials w)) as (j & c & Hj & Hd).
  replace j with (dials w + (j - dials w))%nat in Hd by lia.
  destruct (connectWSClient_returns _ w c Hd) as [x Hx]. eauto.
Qed.

Lemma reconnectLoop_terminates (todo : nat) :
  forall w,
    exists fuel out w',
      (forall fuel', (fuel <= fuel')%nat ->
         reconnectLoop net fuel' wsEndpoint todo w = Some (out, w'))
      /\ reconnected net wsEndpoint todo w out w'.
Proof.
  induction todo as [| todo IH]; intros w.
  - exists 0%nat, Exit. eexists. split; [ reflexivity | ].
    unfold reconnected, failedDials, goodDials.
    rewrite !sleeps_did, !countIn_empty.
    cbn [did dials subscribes events isSleep].
    repeat split; try lia. apply last_last.
  - destruct (connectWSClient_terminates w) as (fuel1 & [r w1] & Hc).
    destruct (connectWSClient_result _ _ _ _ Hc)
      as (c & failed & -> & Hdials & Hlast & Hfail & Hsub & H5 & H10).
    assert (Hgood : dialFails net wsEndpoint (dials w + failed) = false)
      by (unfold dialFails; now rewrite Hlast).
    destruct (connectWSClient_dials (dials w) failed
                ltac:(rewrite Hlast; discriminate) Hfail Hgood)
      as [Hnf Hng].
    rewrite <- Hdials in Hnf, Hng.
    pose (w2 := did (EvLog LvlInfo "(ws) geth client reconnected") w1).
    destruct (SubscribeNewHead net (subscribes w2) c) as [err | sub] eqn:Hs.
    + pose (w3 := did (EvSleep 5)
                    (did (EvLog LvlWarn
                            "failed to reconnect WebSocket client, retrying...")
                         (subscribed w2))).
      destruct (IH w3) as (fuel2 & out & w' & Hloop & Hrec).
      exists (Nat.max fuel1 fuel2), out, w'. split.
      * intros fuel' Hle. cbn [reconnectLoop].
        rewrite (connectWSClient_mono _ _ _ _ Hc) by lia.
        fold w2. rewrite Hs. apply Hloop. lia.
      * clear Hloop Hc IH.
        assert (Hd3 : dials w3 = dials w1) by reflexivity.
        assert (Hs3 : subscribes w3 = S (subscribes w))
          by (cbn [w3 w2 did subscribed subscribes]; now rewrite Hsub).
        assert (H53 : sleeps 5 (events w3) = S (sleeps 5 (events w))).
        { subst w3 w2. rewrite !sleeps_did.
          cbn [subscribed events]. rewrite !sleeps_did.
          cbn [isSleep]. change (5 =? 5) with true. cbv iota.
          rewrite H5. lia. }
        assert (H103 : sleeps 10 (events w3) = sleeps 10 (events w1)).
        { subst w3 w2. rewrite !sleeps_did.
          cbn [subscribed events]. rewrite !sleeps_did.
          cbn [isSleep]. change (5 =? 10) with false. cbv iota. lia. }
        assert (Hs2 : subscribes w2 = subscribes w)
          by (cbn [w2 did subscribes]; exact Hsub).
        rewrite Hs2 in Hs.
        unfold reconnected in *.
        destruct Hrec as (Ld & Ls & La & Hg & Hz & Hall & Hout).
        rewrite Hd3, Hs3, ?H53, ?H103 in *.
        split; [ lia | ]. split; [ lia | ]. split; [ lia | ].
        split.
        { unfold goodDials in *.
          rewrite (countIn_split _ (dials w) (dials w1) (dials w')) by lia.
          rewrite Hng, Hg. lia. }
        split.
        { unfold failedDials in *.
          rewrite (countIn_split _ (dials w) (dials w1) (dials w')) by lia.
          rewrite Hz, H10, Hnf. lia. }
        split.
        { intros s Hlo Hhi.
          destruct (Nat.eq_dec s (subscribes w)) as [-> | Hne].
          - exists (dials w + failed)%nat, c, err.
            split; [ lia | ]. split; assumption.
          - destruct (Hall s ltac:(lia) Hhi) as (k & c' & err' & Hk & Hdk & Hsk).
            exists k, c', err'. split; [ lia | ]. split; assumption. }
        destruct out as [[c' sub'] | why |]; [ | exact Hout | ].
        -- destruct Hout as (H1 & H2 & H3 & H4 & H5').
           repeat split; try assumption; lia.
        -- destruct Hout as (H1 & H2 & H3).
           repeat split; try assumption; lia.
    + exists fuel1, (Ret (c, sub)), (subscribed w2). split.
      * intros fuel' Hle. cbn [reconnectLoop].
        rewrite (connectWSClient_mono _ _ _ _ Hc) by lia.
        fold w2. rewrite Hs. reflexivity.
      * clear IH Hc.
        assert (Hs2 : subscribes w2 = subscribes w)
          by (cbn [w2 did subscribes]; exact Hsub).
        rewrite Hs2 in Hs.
        unfold reconnected.
        assert (Hd' : dials (subscribed w2) = dials w1) by reflexivity.
        assert (Hs' : subscribes (subscribed w2) = S (subscribes w))
          by (cbn [subscribed subscribes]; now rewrite Hs2).
        assert (H5' : sleeps 5 (events (subscribed w2)) = sleeps 5 (events w)).
        { subst w2. cbn [subscribed events]. rewrite sleeps_did.
          cbn [isSleep]. rewrite H5. lia. }
        assert (H10' : sleeps 10 (events (subscribed w2))
                       = (sleeps 10 (events w) + failed)%nat).
        { subst w2. cbn [subscribed events]. rewrite sleeps_did.
          cbn [isSleep]. rewrite H10. lia. }
        rewrite Hd', Hs', H5', H10', Hng, Hnf.
        split; [ lia | ]. split; [ lia | ]. split; [ lia | ].
        split; [ lia | ]. split; [ reflexivity | ].
        split; [ intros s Hlo Hhi; lia | ].
        split; [ lia | ]. split; [ lia | ].
        split; [ now replace (dials w1 - 1)%nat with (dials w + failed)%nat by lia | ].
        split; [ now replace (S (subscribes w) - 1)%nat with (subscribes w) by lia | ].
        lia.
Qed.
End Reconnect.

Lemma reconnectWSClient_dead (net : Net) (wsEndpoint : string) :
  (forall k, exists err, Dial net k wsEndpoint = inl err) ->
  forall fuel w, reconnectWSClient net fuel wsEndpoint w = None.
Proof.
  intros Hdead fuel w. unfold reconnectWSClient. cbn [reconnectLoop].
  now rewrite connectWSClient_diverges.
Qed.

(** C9 (amended): reconnectWSClient makes at most 10 subscription attempts.
    Each attempt first calls connectWSClient, which redials, sleeping 10 s
    after every failed dial and without any bound, until a dial succeeds,
    and then subscribes on the connection just dialed; a failed subscription
    is followed by a 5 s sleep.  If dialing always succeeds eventually,
    reconnectWSClient terminates: either it returns the connection of its
    last dial together with a live subscription obtained on it, every
    earlier subscription of the burst having failed on a connection dialed
    in the burst, or all 10 subscriptions failed and it ends the process
    with log.Crit.  There are as many successful dials as subscription
    attempts and as many sleeps of 10 s as failed dials.  If no dial ever
    succeeds it does not terminate. *)
Theorem reconnectWSClient_terminates_when_dial_recovers :
  forall (net : Net) (wsEndpoint : string) (w : World),
    (forall k, exists j c, (k <= j)%nat /\ Dial net j wsEndpoint = inr c) ->
    (exists fuel out w',
        (forall fuel', (fuel <= fuel')%nat ->
           reconnectWSClient net fuel' wsEndpoint w = Some (out, w'))
        /\ (dials w <= dials w')%nat
        /\ (subscribes w <= subscribes w')%nat
        /\ (subscribes w' - subscribes w <= 10)%nat
        /\ goodDials net wsEndpoint (dials w) (dials w')
           = (subscribes w' - subscribes w)%nat
        /\ sleeps 10 (events w')
           = (sleeps 10 (events w)
              + failedDials net wsEndpoint (dials w) (dials w'))%nat
        /\ (forall s,
              (subscribes w <= s)%nat ->
              (s < subscribes w' - match out with Ret _ => 1 | _ => 0 end)%nat ->
              exists k c err,
                (dials w <= k < dials w')%nat
                /\ Dial net k wsEndpoint = inr c
                /\ SubscribeNewHead net s c = inl err)
        /\ match out with
           | Ret (c, sub) =>
               (subscribes w < subscribes w')%nat
               /\ (dials w < dials w')%nat
               /\ Dial net (dials w' - 1) wsEndpoint = inr c
               /\ SubscribeNewHead net (subscribes w' - 1) c = inr sub
               /\ sleeps 5 (events w')
                  = (sleeps 5 (events w) + (subscribes w' - subscribes w - 1))%nat
           | Exit =>
               subscribes w' = (subscribes w + 10)%nat
               /\ sleeps 5 (events w') = (sleeps 5 (events w) + 10)%nat
               /\ last (events w') (EvSleep 0)
                  = EvLog LvlCrit
                      "failed to reconnect WebSocket client after retries"
           | Panic _ => False
           end)
    /\ (forall dead : Net,
          (forall k, exists err, Dial dead k wsEndpoint = inl err) ->
          forall fuel, reconnectWSClient dead fuel wsEndpoint w = None).
Proof.
  intros net wsEndpoint w Hrec. split.
  - destruct (reconnectLoop_terminates net wsEndpoint Hrec 10 w)
      as (fuel & out & w' & Hrun & Hspec).
    exists fuel, out, w'. split; [ exact Hrun | exact Hspec ].
  - intros dead Hdead fuel. now apply reconnectWSClient_dead.
Qed.

(** At an endpoint that refuses two connections and then one subscription:
    two sleeps of 10 s, a third dial, a failed subscription, a sleep of
    5 s, a fourth dial and the subscription that is returned. *)
Lemma reconnectWSClient_terminates_when_dial_recovers_witness :
  reconnectWSClient Demo.flakyNet 3 "ws://node" (mkWorld 0 0 [])
  = Some (Ret (Demo.client, 1),
          mkWorld 4 2
            [EvLog LvlWarn "failed to connect to websocket client"; EvSleep 10;
             EvLog LvlWarn "failed to connect to websocket client"; EvSleep 10;
             EvLog LvlInfo "(ws) geth client reconnected";
             EvLog LvlWarn "failed to reconnect WebSocket client, retrying...";
             EvSleep 5;
             EvLog LvlInfo "(ws) geth client reconnected"])
  /\ (exists fuel out w',
        (forall fuel', (fuel <= fuel')%nat ->
           reconnectWSClient Demo.flakyNet fuel' "ws://node" (mkWorld 0 0 [])
           = Some (out, w'))
        /\ (0 <= dials w')%nat
        /\ (0 <= subscribes w')%nat
        /\ (subscribes w' - 0 <= 10)%nat
        /\ goodDials Demo.flakyNet "ws://node" 0 (dials w')
           = (subscribes w' - 0)%nat
        /\ sleeps 10 (events w')
           = (sleeps 10 [] + failedDials Demo.flakyNet "ws://node" 0 (dials w'))%nat
        /\ (forall s,
              (0 <= s)%nat ->
              (s < subscribes w' - match out with Ret _ => 1 | _ => 0 end)%nat ->
              exists k c err,
                (0 <= k < dials w')%nat
                /\ Dial Demo.flakyNet k "ws://node" = inr c
                /\ SubscribeNewHead Demo.flakyNet s c = inl err)
        /\ match out with
           | Ret (c, sub) =>
               (0 < subscribes w')%nat
               /\ (0 < dials w')%nat
               /\ Dial Demo.flakyNet (dials w' - 1) "ws://node" = inr c
               /\ SubscribeNewHead Demo.flakyNet (subscribes w' - 1) c = inr sub
               /\ sleeps 5 (events w')
                  = (sleeps 5 [] + (subscribes w' - 0 - 1))%nat
           | Exit =>
               subscribes w' = (0 + 10)%nat
               /\ sleeps 5 (events w') = (sleeps 5 [] + 10)%nat
               /\ last (events w') (EvSleep 0)
                  = EvLog LvlCrit
                      "failed to reconnect WebSocket client after retries"
           | Panic _ => False
           end)
  /\ (forall dead : Net,
        (forall k, exists err, Dial dead k "ws://node" = inl err) ->
        forall fuel,
          reconnectWSClient dead fuel "ws://node" (mkWorld 0 0 []) = None).
Proof.
  split; [ reflexivity | ].
  apply (reconnectWSClient_terminates_when_dial_recovers
           Demo.flakyNet "ws://node" (mkWorld 0 0 [])).
  intros k. exists (k + 2)%nat, Demo.client. split; [ lia | ].
  cbn [Demo.flakyNet Dial].
  destruct (Nat.ltb_spec (k + 2) 2) as [Hlt | _]; [ lia | reflexivity ].
Defined.

(** The claim of C9 at an endpoint that refuses every connection: no bound
    on the recursion of connectWSClient lets reconnectWSClient return or
    escalate. *)
Lemma reconnectWSClient_dead_endpoint_counterexample :
  ~ exists fuel,
      reconnectWSClient Demo.deadNet fuel "ws://node" (mkWorld 0 0 []) <> None.
Proof.
  intros [fuel Hret]. apply Hret. apply reconnectWSClient_dead.
  intros k. eexists. reflexivity.
Qed.

(* ================================================================= *)
(** * Further properties of the modelled code *)

(** ** Random blobs *)

Lemma be_decode_snoc (bs : list Z) (b : Z) :
  be_decode (bs ++ [b]) = be_decode bs * 256 + b.
Proof. unfold be_decode. now rewrite fold_left_app. Qed.

Lemma be_encode_length (n : nat) (z : Z) : List.length (be_encode n z) = n.
Proof.
  revert z. induction n as [| n IH]; intros z; cbn [be_encode]; [ reflexivity | ].
  rewrite length_app, IH. cbn. lia.
Qed.

Lemma be_encode_bytes (n : nat) (z : Z) :
  Forall (fun b => 0 <= b < 256) (be_encode n z).
Proof.
  revert z. induction n as [| n IH]; intros z; cbn [be_encode]; [ constructor | ].
  apply Forall_app. split; [ apply IH | ].
  constructor; [ apply Z.mod_pos_bound; lia | constructor ].
Qed.

Lemma be_decode_encode (n : nat) (z : Z) :
  be_decode (be_encode n z) = z mod 256 ^ Z.of_nat n.
Proof.
  revert z. induction n as [| n IH]; intros z; cbn [be_encode].
  - cbn. now rewrite Z.mod_1_r.
  - rewrite be_decode_snoc, IH.
    rewrite Nat2Z.inj_succ, Z.pow_succ_r by lia.
    rewrite (Z.rem_mul_r z 256 (256 ^ Z.of_nat n)) by lia. lia.
Qed.

(** X1: a random field element is serialized as 32 bytes, each in 0..255,
    and read back big-endian it is the drawn value reduced modulo the scalar
    field, hence a canonical scalar below the modulus. *)
Theorem randFieldElement_canonical :
  forall (rnd : Rand) (call : nat),
    let fe := randFieldElement rnd call in
    List.length fe = 32%nat
    /\ Forall (fun b => 0 <= b < 256) fe
    /\ be_decode fe = be_decode (rand_Read rnd call) mod fr_modulus
    /\ 0 <= be_decode fe < fr_modulus.
Proof.
  intros rnd call fe. subst fe. unfold randFieldElement.
  assert (Hr : 0 <= be_decode (rand_Read rnd call) mod fr_modulus < fr_modulus)
    by (apply Z.mod_pos_bound; reflexivity).
  assert (Hd : be_decode
                 (be_encode (Z.to_nat SerializedScalarSize)
                    (be_decode (rand_Read rnd call) mod fr_modulus))
               = be_decode (rand_Read rnd call) mod fr_modulus).
  { rewrite be_decode_encode. apply Z.mod_small.
    split; [ lia | ]. eapply Z.lt_trans; [ apply Hr | reflexivity ]. }
  split; [ apply be_encode_length | ].
  split; [ apply be_encode_bytes | ].
  split; [ exact Hd | rewrite Hd; exact Hr ].
Qed.

Lemma flat_map_const_length {A B} (f : A -> list B) (k : nat) (l : list A) :
  (forall a, List.length (f a) = k) ->
  List.length (flat_map f l) = (List.length l * k)%nat.
Proof.
  intros Hf. induction l as [| a l IH]; cbn [flat_map]; [ reflexivity | ].
  rewrite length_app, Hf, IH. cbn. lia.
Qed.

Lemma randBlob_shape (rnd : Rand) (call : nat) :
  len (randBlob rnd call) = blobLen
  /\ Forall (fun b => 0 <= b < 256) (randBlob rnd call).
Proof.
  unfold randBlob, len. split.
  - rewrite (flat_map_const_length _ 32).
    + rewrite length_seq. reflexivity.
    + intros j. apply be_encode_length.
  - apply Forall_flat_map, Forall_forall. intros j _. apply be_encode_bytes.
Qed.

(** Every blob that randBlob builds consists of canonical scalars, so a KZG
    library that refuses only other blobs accepts it. *)
Lemma randFieldElement_slots (rnd : Rand) (call n : nat) :
  forall a,
    canonicalScalars n
      (flat_map (fun j => randFieldElement rnd (call + j)%nat) (seq a n))
    = true.
Proof.
  induction n as [| n IH]; intros a; cbn [seq flat_map canonicalScalars];
    [ reflexivity | ].
  assert (Hlen : List.length (randFieldElement rnd (call + a)) = 32%nat)
    by apply be_encode_length.
  rewrite firstn_app, Hlen, Nat.sub_diag, firstn_O, app_nil_r.
  rewrite firstn_all2 by lia.
  rewrite skipn_app, Hlen, Nat.sub_diag, skipn_O.
  rewrite skipn_all2 by lia. cbn [app].
  rewrite IH, andb_true_r. cbn [Nat.eqb andb].
  apply Z.ltb_lt. unfold randFieldElement.
  rewrite be_decode_encode.
  assert (Hm : 0 <= be_decode (rand_Read rnd (call + a)) mod fr_modulus
               < fr_modulus)
    by (apply Z.mod_pos_bound; reflexivity).
  rewrite Z.mod_small; [ lia | ].
  split; [ lia | ].
  eapply Z.lt_trans; [ apply Hm | reflexivity ].
Qed.

Lemma randBlob_canonical (rnd : Rand) (call : nat) :
  canonicalBlob (randBlob rnd call) = true.
Proof. apply randFieldElement_slots. Qed.

Lemma strictKzg_accepts_built_blobs (rnd : Rand) (call : nat) :
  snd (BlobToCommitment Demo.strictKzg (randBlob rnd call)) = None.
Proof.
  cbn [Demo.strictKzg BlobToCommitment]. now rewrite randBlob_canonical.
Qed.

(** X2: randBlobs panics on a negative count; for a count n >= 0 it returns
    exactly n blobs, each of 131072 bytes in 0..255, and the k-th 32-byte
    slot of the i-th blob is the field element of draw [4096 * i + k]. *)
Theorem randBlobs_shape :
  forall (rnd : Rand) (n : Z),
    match randBlobs rnd n with
    | Ret blobs =>
        0 <= n
        /\ len blobs = n
        /\ Forall (fun blob => len blob = 131072
                               /\ Forall (fun b => 0 <= b < 256) blob) blobs
        /\ forall i, (i < Z.to_nat n)%nat ->
             nth i blobs []
             = flat_map (fun k => randFieldElement rnd (i * 4096 + k)%nat)
                        (seq 0 4096)
    | Panic _ => n < 0
    | Exit => False
    end.
Proof.
  intros rnd n. unfold randBlobs.
  destruct (n <? 0) eqn:En; [ now apply Z.ltb_lt | ].
  apply Z.ltb_ge in En.
  split; [ exact En | ].
  split; [ unfold len; rewrite length_map, length_seq; lia | ].
  split.
  - apply Forall_map, Forall_forall. intros i _. apply randBlob_shape.
  - intros i Hi.
    rewrite (nth_indep _ [] (randBlob rnd (0 * scalarsPerBlob)%nat))
      by (rewrite length_map, length_seq; exact Hi).
    rewrite (map_nth (fun i => randBlob rnd (i * scalarsPerBlob)%nat)).
    rewrite seq_nth by exact Hi. reflexivity.
Qed.

(** ** Builders: what a returned transaction looks like, and how they fail *)

Lemma signWithKey_inv (cr : Crypto) (tx : Transaction) (chainID : Z)
    (key : option PrivateKey) (r : result Transaction) :
  signWithKey cr tx chainID key = Ret r ->
  exists prv, key = Some prv
    /\ match r with
       | inl e => SignTx cr tx chainID prv = inl e
       | inr signed =>
           exists sg, SignTx cr tx chainID prv = inr sg
                      /\ signed = WithSignature tx sg
       end.
Proof.
  unfold signWithKey. destruct key as [prv |]; cbn [deref obind]; [ | discriminate ].
  destruct (SignTx cr tx chainID prv) as [e | sg] eqn:Hs; intros [= <-];
    exists prv; split; try reflexivity; eauto.
Qed.

Lemma TransferFile_inv (cr : Crypto) (client : EthClient) (authAcct : AuthAcct)
    (value offset : Z) (tx : Transaction) (blk : Z) :
  TransferFile.SelfETHTransfer cr client authAcct value offset = Ret (inr (tx, blk)) ->
  isSelfTransfer client cr authAcct value offset 2 tx blk.
Proof.
  unfold TransferFile.SelfETHTransfer, isSelfTransfer.
  destruct (PendingNonceAt client (acctAddress authAcct)) as [e | nonce];
    [ discriminate | ].
  destruct (HeaderByNumber client) as [e | header]; [ discriminate | ].
  destruct (BaseFee header) as [baseFee |] eqn:Hfee; cbn [deref obind];
    [ | discriminate ].
  destruct (NetworkID client) as [e | chainID]; [ discriminate | ].
  destruct (signWithKey cr _ chainID (acctPrivateKey authAcct))
    as [[e | signed] | w |] eqn:Hs; cbn [obind]; try discriminate.
  intros [= <- <-].
  apply signWithKey_inv in Hs. destruct Hs as (key & Hkey & sg & Hsg & ->).
  exists nonce, header, baseFee, chainID, key, sg.
  unfold transferTx.
  replace (4 * baseFee) with (baseFee * 2 * 2) by lia.
  replace (2 * baseFee) with (baseFee * 2) by lia.
  repeat split; auto.
Qed.

Lemma BlobFile_inv (cr : Crypto) (client : EthClient) (authAcct : AuthAcct)
    (value offset : Z) (tx : Transaction) (blk : Z) :
  BlobFile.SelfETHTransfer cr client authAcct value offset = Ret (inr (tx, blk)) ->
  isSelfTransfer client cr authAcct value offset 0 tx blk.
Proof.
  unfold BlobFile.SelfETHTransfer, isSelfTransfer.
  destruct (PendingNonceAt client (acctAddress authAcct)) as [e | nonce];
    [ discriminate | ].
  destruct (HeaderByNumber client) as [e | header]; [ discriminate | ].
  destruct (BaseFee header) as [baseFee |] eqn:Hfee; cbn [deref obind];
    [ | discriminate ].
  destruct (NetworkID client) as [e | chainID]; [ discriminate | ].
  destruct (signWithKey cr _ chainID (acctPrivateKey authAcct))
    as [[e | signed] | w |] eqn:Hs; cbn [obind]; try discriminate.
  intros [= <- <-].
  apply signWithKey_inv in Hs. destruct Hs as (key & Hkey & sg & Hsg & ->).
  exists nonce, header, baseFee, chainID, key, sg.
  unfold transferTx.
  replace (4 * baseFee) with (baseFee * 2 * 2) by lia.
  replace (0 * baseFee) with 0 by lia.
  repeat split; auto.
Qed.

(** X3: whatever the node, the keys and the signer do, a transaction that
    SelfETHTransfer returns is a signed EIP-1559 transfer from the account to
    itself: its nonce is the pending nonce read from the node, its value the
    requested value, its gas limit 500000, its fee cap 4 x the base fee of
    the header read, its signature the one SignTx produced for the chain id
    read, and the block returned with it is header number + offset modulo
    2^64. *)
Theorem SelfETHTransfer_returned_transaction :
  forall (cr : Crypto) (client : EthClient) (authAcct : AuthAcct)
         (value offset : Z) (tx : Transaction) (blk : Z),
    TransferFile.SelfETHTransfer cr client authAcct value offset = Ret (inr (tx, blk))
    \/ BlobFile.SelfETHTransfer cr client authAcct value offset = Ret (inr (tx, blk)) ->
    exists nonce header baseFee chainID key sg d,
      PendingNonceAt client (acctAddress authAcct) = inr nonce
      /\ HeaderByNumber client = inr header
      /\ BaseFee header = Some baseFee
      /\ NetworkID client = inr chainID
      /\ acctPrivateKey authAcct = Some key
      /\ inner tx = DynamicFee d
      /\ signature tx = Some sg
      /\ SignTx cr (NewTx (DynamicFee d)) chainID key = inr sg
      /\ df_Nonce d = nonce
      /\ df_To d = Some (acctAddress authAcct)
      /\ df_Value d = value
      /\ df_Gas d = 500000
      /\ df_GasFeeCap d = 4 * baseFee
      /\ (df_GasTipCap d = 2 * baseFee \/ df_GasTipCap d = 0)
      /\ blk = wrap_uint64 (Uint64 (Number header) + offset).
Proof.
  intros cr client authAcct value offset tx blk [H | H];
    [ apply TransferFile_inv in H | apply BlobFile_inv in H ];
    destruct H as (nonce & header & baseFee & chainID & key & sg
                   & Hn & Hh & Hf & Hc & Hk & [Hs ->] & ->);
    exists nonce, header, baseFee, chainID, key, sg;
    eexists; unfold transferTx in *; cbn;
    repeat match goal with |- _ /\ _ => split end;
    try reflexivity; try assumption; auto; lia.
Qed.

Lemma SelfETHTransfer_returned_transaction_witness :
  exists nonce header baseFee chainID key sg d,
    PendingNonceAt Demo.client (acctAddress Demo.acct) = inr nonce
    /\ HeaderByNumber Demo.client = inr header
    /\ BaseFee header = Some baseFee
    /\ NetworkID Demo.client = inr chainID
    /\ acctPrivateKey Demo.acct = Some key
    /\ inner (WithSignature (transferTx Demo.acct 7 5 400 200) Demo.sig0)
       = DynamicFee d
    /\ signature (WithSignature (transferTx Demo.acct 7 5 400 200) Demo.sig0)
       = Some sg
    /\ SignTx Demo.crypto (NewTx (DynamicFee d)) chainID key = inr sg
    /\ df_Nonce d = nonce
    /\ df_To d = Some (acctAddress Demo.acct)
    /\ df_Value d = 5
    /\ df_Gas d = 500000
    /\ df_GasFeeCap d = 4 * baseFee
    /\ (df_GasTipCap d = 2 * baseFee \/ df_GasTipCap d = 0)
    /\ 11 = wrap_uint64 (Uint64 (Number header) + 1).
Proof.
  apply (SelfETHTransfer_returned_transaction Demo.crypto Demo.client Demo.acct
           5 1 (WithSignature (transferTx Demo.acct 7 5 400 200) Demo.sig0) 11).
  left. reflexivity.
Defined.

Lemma SelfETHTransfer_failure_table :
  forall (cr : Crypto) (client : EthClient) (authAcct : AuthAcct)
         (value offset : Z),
    let runT := TransferFile.SelfETHTransfer cr client authAcct value offset in
    let runB := BlobFile.SelfETHTransfer cr client authAcct value offset in
    match PendingNonceAt client (acctAddress authAcct) with
    | inl e => runT = Ret (inl e) /\ runB = Ret (inl e)
    | inr nonce =>
      match HeaderByNumber client with
      | inl e => runT = Ret (inl e) /\ runB = Ret (inl e)
      | inr header =>
        match BaseFee header with
        | None => runT = Panic nil_deref /\ runB = Panic nil_deref
        | Some baseFee =>
          match NetworkID client with
          | inl e => runT = Ret (inl e) /\ runB = Ret (inl e)
          | inr chainID =>
            match acctPrivateKey authAcct with
            | None => runT = Panic nil_deref /\ runB = Panic nil_deref
            | Some key =>
                (forall e,
                   SignTx cr (transferTx authAcct nonce value (4 * baseFee)
                                         (2 * baseFee)) chainID key = inl e ->
                   runT = Ret (inl e))
                /\ (forall e,
                      SignTx cr (transferTx authAcct nonce value (4 * baseFee) 0)
                             chainID key = inl e ->
                      runB = Ret (inl e))
            end
          end
        end
      end
    end.
Proof.
  intros cr client authAcct value offset runT runB. subst runT runB.
  unfold TransferFile.SelfETHTransfer, BlobFile.SelfETHTransfer, signWithKey.
  destruct (PendingNonceAt client (acctAddress authAcct)) as [e | nonce];
    [ split; reflexivity | ].
  destruct (HeaderByNumber client) as [e | header]; [ split; reflexivity | ].
  destruct (BaseFee header) as [baseFee |]; cbn [deref obind];
    [ | split; reflexivity ].
  destruct (NetworkID client) as [e | chainID]; [ split; reflexivity | ].
  destruct (acctPrivateKey authAcct) as [key |]; cbn [deref obind];
    [ | split; reflexivity ].
  unfold transferTx.
  replace (4 * baseFee) with (baseFee * 2 * 2) by lia.
  replace (2 * baseFee) with (baseFee * 2) by lia.
  split; intros e He; rewrite He; reflexivity.
Qed.

(** X4: SelfETHTransfer, in both files, fails in a fixed order.  A failed
    nonce read is returned as the error; else a failed header read; else a
    header without base fee panics; else a failed chain-id read is returned;
    else an account without private key panics; else a signing error is
    returned.  In none of these cases is a transaction returned. *)
Theorem SelfETHTransfer_failure_order :
  forall (cr : Crypto) (client : EthClient) (authAcct : AuthAcct)
         (value offset : Z),
    let runT := TransferFile.SelfETHTransfer cr client authAcct value offset in
    let runB := BlobFile.SelfETHTransfer cr client authAcct value offset in
    match PendingNonceAt client (acctAddress authAcct) with
    | inl e => runT = Ret (inl e) /\ runB = Ret (inl e)
    | inr nonce =>
      match HeaderByNumber client with
      | inl e => runT = Ret (inl e) /\ runB = Ret (inl e)
      | inr header =>
        match BaseFee header with
        | None => runT = Panic nil_deref /\ runB = Panic nil_deref
        | Some baseFee =>
          match NetworkID client with
          | inl e => runT = Ret (inl e) /\ runB = Ret (inl e)
          | inr chainID =>
            match acctPrivateKey authAcct with
            | None => runT = Panic nil_deref /\ runB = Panic nil_deref
            | Some key =>
                (forall e,
                   SignTx cr (transferTx authAcct nonce value (4 * baseFee)
                                         (2 * baseFee)) chainID key = inl e ->
                   runT = Ret (inl e))
                /\ (forall e,
                      SignTx cr (transferTx authAcct nonce value (4 * baseFee) 0)
                             chainID key = inl e ->
                      runB = Ret (inl e))
            end
          end
        end
      end
    end.
Proof. exact SelfETHTransfer_failure_table. Qed.

Lemma MustFromBig_inv (b a : Z) :
  MustFromBig b = Ret a -> Z.abs b < 2 ^ 256 /\ a = b mod 2 ^ 256.
Proof.
  unfold MustFromBig. destruct (Z.abs b <? 2 ^ 256) eqn:E; [ | discriminate ].
  intros [= <-]. split; [ now apply Z.ltb_lt | reflexivity ].
Qed.

(** X5: whatever the collaborators do, a transaction that
    ExecuteBlobTransaction returns is a signed blob transaction with the
    pending nonce of the account's address, tip cap 0, fee cap 4 x base fee,
    gas limit 500000, blob fee cap (minimum + 1) * 110 / 100, sent to the
    address derived from the private key; the count is non-negative and the
    sidecar holds that many random blobs with, position by position, the
    commitment of the blob, the proof for that blob and commitment, and the
    versioned hash of that commitment.  The three fee values fit 256 bits. *)
Theorem ExecuteBlobTransaction_returned_transaction :
  forall (cr : Crypto) (kz : Kzg) (fm : Eip4844) (rnd : Rand)
         (client : EthClient) (authAcct : AuthAcct) (numBlobs offset : Z)
         (tx : Transaction) (blk : Z),
    ExecuteBlobTransaction cr kz fm rnd client authAcct numBlobs offset
      = Ret (inr (tx, blk)) ->
    exists key nonce header chainID excessBlobGas blobGasUsed baseFee blobs b sg,
      acctPrivateKey authAcct = Some key
      /\ PendingNonceAt client (acctAddress authAcct) = inr nonce
      /\ HeaderByNumber client = inr header
      /\ NetworkID client = inr chainID
      /\ ExcessBlobGas header = Some excessBlobGas
      /\ BlobGasUsed header = Some blobGasUsed
      /\ BaseFee header = Some baseFee
      /\ 0 <= numBlobs
      /\ randBlobs rnd numBlobs = Ret blobs
      /\ inner tx = BlobData b
      /\ signature tx = Some sg
      /\ bt_Nonce b = nonce
      /\ bt_GasTipCap b = 0
      /\ bt_GasFeeCap b = (4 * baseFee) mod 2 ^ 256
      /\ Z.abs (4 * baseFee) < 2 ^ 256
      /\ bt_Gas b = 500000
      /\ bt_To b = PubkeyToAddress cr (Public cr key)
      /\ bt_ChainID b = chainID mod 2 ^ 256
      /\ bt_BlobFeeCap b
         = bumpBlobFee (minBlobFeeOf fm excessBlobGas blobGasUsed) mod 2 ^ 256
      /\ Z.abs (bumpBlobFee (minBlobFeeOf fm excessBlobGas blobGasUsed)) < 2 ^ 256
      /\ Blobs (bt_Sidecar b) = blobs
      /\ len blobs = numBlobs
      /\ Commitments (bt_Sidecar b)
         = map (fun blob => fst (BlobToCommitment kz blob)) blobs
      /\ Proofs (bt_Sidecar b)
         = map (fun blob =>
                  fst (ComputeBlobProof kz blob (fst (BlobToCommitment kz blob))))
               blobs
      /\ bt_BlobHashes b
         = map (fun blob => CalcBlobHashV1 kz (fst (BlobToCommitment kz blob))) blobs
      /\ blk = wrap_uint64 (Uint64 (Number header) + offset).
Proof.
  intros cr kz fm rnd client authAcct numBlobs offset tx blk.
  unfold ExecuteBlobTransaction.
  destruct (acctPrivateKey authAcct) as [key |]; cbn [deref obind];
    [ | discriminate ].
  destruct (PendingNonceAt client (acctAddress authAcct)) as [e | nonce];
    [ discriminate | ].
  destruct (HeaderByNumber client) as [e | header]; [ discriminate | ].
  destruct (NetworkID client) as [e | chainID]; [ discriminate | ].
  destruct (ExcessBlobGas header) as [excessBlobGas |] eqn:He; cbn [deref obind];
    [ | discriminate ].
  destruct (BlobGasUsed header) as [blobGasUsed |] eqn:Hu; cbn [deref obind];
    [ | discriminate ].
  destruct (randBlobs rnd numBlobs) as [blobs | w |] eqn:Hb; cbn [obind];
    try discriminate.
  destruct (BaseFee header) as [baseFee |] eqn:Hbase; cbn [deref obind];
    [ | discriminate ].
  destruct (MustFromBig chainID) as [c256 | w |] eqn:Hc; cbn [obind];
    try discriminate.
  destruct (MustFromBig (baseFee * 2 * 2)) as [f256 | w |] eqn:Hf; cbn [obind];
    try discriminate.
  change ((CalcBlobFee fm (CalcExcessBlobGas fm excessBlobGas blobGasUsed) + 1)
          * 110 / 100)
    with (bumpBlobFee (minBlobFeeOf fm excessBlobGas blobGasUsed)).
  destruct (MustFromBig (bumpBlobFee (minBlobFeeOf fm excessBlobGas blobGasUsed)))
    as [bf256 | w |] eqn:Hbf; cbn [obind]; try discriminate.
  destruct (NewKeyedTransactorWithChainID cr key chainID) as [e | auth];
    [ discriminate | ].
  destruct (Signer auth (From auth) _) as [e | sg]; [ discriminate | ].
  intros [= <- <-].
  apply MustFromBig_inv in Hc, Hf, Hbf.
  destruct Hc as [_ ->]. destruct Hf as [Hfa ->]. destruct Hbf as [Hba ->].
  pose proof (randBlobs_length _ _ _ Hb) as Hlen.
  assert (Hn : 0 <= numBlobs) by (unfold len in Hlen; lia).
  exists key, nonce, header, chainID, excessBlobGas, blobGasUsed, baseFee, blobs.
  eexists. exists sg.
  rewrite makeSidecar_spec in *.
  replace (4 * baseFee) with (baseFee * 2 * 2) by lia.
  cbn [WithSignature NewTx inner signature].
  repeat match goal with |- _ /\ _ => split end;
    try reflexivity; try assumption.
  cbn [bt_BlobHashes]. unfold sidecarBlobHashes. cbn [Commitments].
  now rewrite map_map.
Qed.

Lemma ExecuteBlobTransaction_returned_transaction_witness :
  exists tx blk,
    ExecuteBlobTransaction Demo.crypto Demo.kzg Demo.feeMarket Demo.rnd
      Demo.client Demo.acct 2 1 = Ret (inr (tx, blk))
    /\ exists key nonce header chainID excessBlobGas blobGasUsed baseFee blobs b sg,
      acctPrivateKey Demo.acct = Some key
      /\ PendingNonceAt Demo.client (acctAddress Demo.acct) = inr nonce
      /\ HeaderByNumber Demo.client = inr header
      /\ NetworkID Demo.client = inr chainID
      /\ ExcessBlobGas header = Some excessBlobGas
      /\ BlobGasUsed header = Some blobGasUsed
      /\ BaseFee header = Some baseFee
      /\ 0 <= 2
      /\ randBlobs Demo.rnd 2 = Ret blobs
      /\ inner tx = BlobData b
      /\ signature tx = Some sg
      /\ bt_Nonce b = nonce
      /\ bt_GasTipCap b = 0
      /\ bt_GasFeeCap b = (4 * baseFee) mod 2 ^ 256
      /\ Z.abs (4 * baseFee) < 2 ^ 256
      /\ bt_Gas b = 500000
      /\ bt_To b = PubkeyToAddress Demo.crypto (Public Demo.crypto key)
      /\ bt_ChainID b = chainID mod 2 ^ 256
      /\ bt_BlobFeeCap b
         = bumpBlobFee (minBlobFeeOf Demo.feeMarket excessBlobGas blobGasUsed)
           mod 2 ^ 256
      /\ Z.abs (bumpBlobFee (minBlobFeeOf Demo.feeMarket excessBlobGas blobGasUsed))
         < 2 ^ 256
      /\ Blobs (bt_Sidecar b) = blobs
      /\ len blobs = 2
      /\ Commitments (bt_Sidecar b)
         = map (fun blob => fst (BlobToCommitment Demo.kzg blob)) blobs
      /\ Proofs (bt_Sidecar b)
         = map (fun blob =>
                  fst (ComputeBlobProof Demo.kzg blob
                         (fst (BlobToCommitment Demo.kzg blob))))
               blobs
      /\ bt_BlobHashes b
         = map (fun blob => CalcBlobHashV1 Demo.kzg (fst (BlobToCommitment Demo.kzg blob)))
               blobs
      /\ blk = wrap_uint64 (Uint64 (Number header) + 1).
Proof.
  eexists. eexists. split; [ reflexivity | ].
  apply (ExecuteBlobTransaction_returned_transaction Demo.crypto Demo.kzg
           Demo.feeMarket Demo.rnd Demo.client Demo.acct 2 1).
  reflexivity.
Defined.

(** X6: an account without private key, such as the zero account that
    AuthenticateAddress returns for the empty string, makes
    ExecuteBlobTransaction panic before any state read, whatever the node
    answers; SelfETHTransfer with such an account never returns a
    transaction: it returns the error of a failed read or panics. *)
Theorem keyless_account_builds_nothing :
  forall (cr : Crypto) (kz : Kzg) (fm : Eip4844) (rnd : Rand)
         (client : EthClient) (authAcct : AuthAcct)
         (value numBlobs offset : Z),
    acctPrivateKey authAcct = None ->
    ExecuteBlobTransaction cr kz fm rnd client authAcct numBlobs offset
      = Panic nil_deref
    /\ (forall run,
          run = TransferFile.SelfETHTransfer cr client authAcct value offset
          \/ run = BlobFile.SelfETHTransfer cr client authAcct value offset ->
          match run with
          | Ret (inr _) => False
          | Ret (inl e) =>
              PendingNonceAt client (acctAddress authAcct) = inl e
              \/ HeaderByNumber client = inl e
              \/ NetworkID client = inl e
          | Panic w => w = nil_deref
          | Exit => False
          end).
Proof.
  intros cr kz fm rnd client authAcct value numBlobs offset Hkey. split.
  - unfold ExecuteBlobTransaction. rewrite Hkey. reflexivity.
  - pose proof (SelfETHTransfer_failure_table cr client authAcct value offset)
      as Hord. cbv zeta in Hord.
    destruct (PendingNonceAt client (acctAddress authAcct)) as [e | nonce].
    { destruct Hord as [-> ->]. intros run [-> | ->]; auto. }
    destruct (HeaderByNumber client) as [e | header].
    { destruct Hord as [-> ->]. intros run [-> | ->]; auto. }
    destruct (BaseFee header) as [baseFee |].
    2:{ destruct Hord as [-> ->]. intros run [-> | ->]; reflexivity. }
    destruct (NetworkID client) as [e | chainID].
    { destruct Hord as [-> ->]. intros run [-> | ->]; auto. }
    rewrite Hkey in Hord. destruct Hord as [-> ->].
    intros run [-> | ->]; reflexivity.
Qed.

Lemma keyless_account_builds_nothing_witness :
  ExecuteBlobTransaction Demo.crypto Demo.kzg Demo.feeMarket Demo.rnd
    Demo.client zeroAuthAcct 2 1 = Panic nil_deref
  /\ (forall run,
        run = TransferFile.SelfETHTransfer Demo.crypto Demo.client zeroAuthAcct 5 1
        \/ run = BlobFile.SelfETHTransfer Demo.crypto Demo.client zeroAuthAcct 5 1 ->
        match run with
        | Ret (inr _) => False
        | Ret (inl e) =>
            PendingNonceAt Demo.client (acctAddress zeroAuthAcct) = inl e
            \/ HeaderByNumber Demo.client = inl e
            \/ NetworkID Demo.client = inl e
        | Panic w => w = nil_deref
        | Exit => False
        end).
Proof.
  apply (keyless_account_builds_nothing Demo.crypto Demo.kzg Demo.feeMarket
           Demo.rnd Demo.client zeroAuthAcct 5 2 1).
  reflexivity.
Defined.

(** X7: once the key is present and the three state reads have succeeded,
    ExecuteBlobTransaction does not report the following conditions as
    errors but panics: a header without excess-blob-gas or blob-gas-used
    field (a header from before the blob fork), a negative blob count, and a
    header without base fee. *)
Theorem ExecuteBlobTransaction_panics :
  forall (cr : Crypto) (kz : Kzg) (fm : Eip4844) (rnd : Rand)
         (client : EthClient) (authAcct : AuthAcct) (numBlobs offset : Z)
         (key : PrivateKey) (nonce chainID : Z) (header : Header),
    acctPrivateKey authAcct = Some key ->
    PendingNonceAt client (acctAddress authAcct) = inr nonce ->
    HeaderByNumber client = inr header ->
    NetworkID client = inr chainID ->
    ExcessBlobGas header = None \/ BlobGasUsed header = None
    \/ numBlobs < 0 \/ BaseFee header = None ->
    exists why,
      ExecuteBlobTransaction cr kz fm rnd client authAcct numBlobs offset
      = Panic why.
Proof.
  intros cr kz fm rnd client authAcct numBlobs offset key nonce chainID header
         Hkey Hn Hh Hc Hbad.
  unfold ExecuteBlobTransaction.
  rewrite Hkey; cbn [deref obind]. rewrite Hn, Hh, Hc.
  destruct (ExcessBlobGas header) as [excess |] eqn:He; cbn [deref obind];
    [ | eauto ].
  destruct (BlobGasUsed header) as [used |] eqn:Hu; cbn [deref obind];
    [ | eauto ].
  unfold randBlobs.
  destruct (numBlobs <? 0) eqn:Hneg; cbn [obind]; [ eauto | ].
  apply Z.ltb_ge in Hneg.
  destruct Hbad as [Hbad | [Hbad | [Hbad | Hbad]]]; try discriminate; try lia.
  rewrite Hbad. cbn [deref obind]. eauto.
Qed.

Lemma ExecuteBlobTransaction_panics_witness :
  exists why,
    ExecuteBlobTransaction Demo.crypto Demo.kzg Demo.feeMarket Demo.rnd
      (mkEthClient (fun _ => inr 7) (inr (mkHeader 10 (Some 100) None None))
                   (inr 17000))
      Demo.acct 2 1
    = Panic why.
Proof.
  apply (ExecuteBlobTransaction_panics Demo.crypto Demo.kzg Demo.feeMarket
           Demo.rnd
           (mkEthClient (fun _ => inr 7)
                        (inr (mkHeader 10 (Some 100) None None)) (inr 17000))
           Demo.acct 2 1 5 7 17000 (mkHeader 10 (Some 100) None None));
    try reflexivity.
  left. reflexivity.
Defined.

(** X8: a blob count of zero is not rejected.  With the reads and the
    signing succeeding, ExecuteBlobTransaction returns a signed blob
    transaction that carries no blob, no commitment, no proof and no blob
    hash. *)
Theorem ExecuteBlobTransaction_zero_blobs :
  forall (cr : Crypto) (kz : Kzg) (fm : Eip4844) (rnd : Rand)
         (client : EthClient) (authAcct : AuthAcct) (offset : Z)
         (key : PrivateKey) (nonce chainID : Z) (header : Header)
         (excessBlobGas blobGasUsed baseFee : Z)
         (auth : TransactOpts) (sgn : Transaction -> Signature),
    acctPrivateKey authAcct = Some key ->
    PendingNonceAt client (acctAddress authAcct) = inr nonce ->
    HeaderByNumber client = inr header ->
    NetworkID client = inr chainID ->
    ExcessBlobGas header = Some excessBlobGas ->
    BlobGasUsed header = Some blobGasUsed ->
    BaseFee header = Some baseFee ->
    0 <= chainID < 2 ^ 256 ->
    0 <= baseFee * 2 * 2 < 2 ^ 256 ->
    NewKeyedTransactorWithChainID cr key chainID = inr auth ->
    (forall tx, Signer auth (From auth) tx = inr (sgn tx)) ->
    0 <= bumpBlobFee (minBlobFeeOf fm excessBlobGas blobGasUsed) < 2 ^ 256 ->
    exists tx blk,
      ExecuteBlobTransaction cr kz fm rnd client authAcct 0 offset
        = Ret (inr (tx, blk))
      /\ BlobTxSidecarOf tx = Some (mkSidecar [] [] [])
      /\ BlobHashes tx = []
      /\ signature tx <> None.
Proof.
  intros cr kz fm rnd client authAcct offset key nonce chainID header
         excessBlobGas blobGasUsed baseFee auth sgn
         Hkey Hn Hh Hc He Hu Hb Hcf Hff Ht Hs Hbf.
  destruct (ExecuteBlobTransaction_run cr kz fm rnd client authAcct 0 offset
              key nonce chainID header excessBlobGas blobGasUsed baseFee
              auth sgn Hkey Hn Hh Hc He Hu Hb (Z.le_refl 0) Hcf Hff Ht Hs Hbf)
    as (blobs & Hblobs & Hrun).
  injection Hblobs as <-. rewrite Hrun. cbv zeta.
  do 2 eexists. split; [ reflexivity | ].
  repeat split. discriminate.
Qed.

Lemma ExecuteBlobTransaction_zero_blobs_witness :
  exists tx blk,
    ExecuteBlobTransaction Demo.crypto Demo.kzg Demo.feeMarket Demo.rnd
      Demo.client Demo.acct 0 1 = Ret (inr (tx, blk))
    /\ BlobTxSidecarOf tx = Some (mkSidecar [] [] [])
    /\ BlobHashes tx = []
    /\ signature tx <> None.
Proof.
  apply (ExecuteBlobTransaction_zero_blobs Demo.crypto Demo.kzg Demo.feeMarket
           Demo.rnd Demo.client Demo.acct 1 5 7 17000 Demo.header 0 0 100
           Demo.auth0 (fun _ => Demo.sig0));
    first [ reflexivity | lia | fits_256 ].
Defined.

(** ** SendBid: what is sent, and how it fails *)

Lemma substring_all (s : string) : String.substring 0 (String.length s) s = s.
Proof. induction s as [| c s IH]; cbn; [ reflexivity | now rewrite IH ]. Qed.

Lemma TrimPrefix_app (pre s : string) : TrimPrefix (pre ++ s)%string pre = s.
Proof.
  unfold TrimPrefix.
  assert (Hp : String.prefix pre (pre ++ s)%string = true).
  { induction pre as [| c pre IH]; cbn [String.append String.prefix];
      [ now destruct s | ].
    destruct (ascii_dec c c) as [_ | ne]; [ exact IH | now elim ne ]. }
  rewrite Hp. clear Hp.
  induction pre as [| c pre IH]; cbn [String.append String.length String.substring].
  - rewrite Nat.sub_0_r. apply substring_all.
  - exact IH.
Qed.

Lemma prefix_split (pre s : string) :
  String.prefix pre s = true -> exists t, s = (pre ++ t)%string.
Proof.
  revert s. induction pre as [| c pre IH]; intros s Hp.
  - exists s. reflexivity.
  - destruct s as [| c' s]; cbn [String.prefix] in Hp; [ discriminate | ].
    destruct (ascii_dec c c') as [<- | ne]; [ | discriminate ].
    destruct (IH s Hp) as [t ->]. exists t. reflexivity.
Qed.

(** Removal of one leading [0x], as a relation between a hash given to
    SendBid and the hash sent. *)
Lemma TrimPrefix_0x (h : string) :
  h = ("0x" ++ TrimPrefix h "0x")%string
  \/ (String.prefix "0x" h = false /\ TrimPrefix h "0x" = h).
Proof.
  destruct (String.prefix "0x" h) eqn:Hp.
  - left. destruct (prefix_split _ _ Hp) as [t ->].
    now rewrite TrimPrefix_app.
  - right. split; [ reflexivity | ]. unfold TrimPrefix. now rewrite Hp.
Qed.

Lemma afterSend_returns (b : Bidder) (ts : Z) (req : Bid) :
  exists r, snd (afterSend b ts req) = Ret r.
Proof.
  unfold afterSend. destruct (client_SendBid b req) as [err | response].
  - eexists. reflexivity.
  - destruct (recvLoop_spec (pending response) (closing response) [])
      as (_ & _ & _ & R4).
    rewrite !tbind_result. cbn [emit snd]. rewrite R4.
    destruct (closing response); eexists; reflexivity.
Qed.

Lemma SendBid_HashList_returns (b : Bidder) (ts : Z) (v : list string)
    (amount : string) (blk ds de : Z) :
  exists r, snd (SendBid b ts (HashList v) amount blk ds de) = Ret r.
Proof.
  destruct (SendBid_HashList_events b ts v amount blk ds de) as [_ Hres].
  cbv zeta in Hres. rewrite Hres. apply afterSend_returns.
Qed.

(** X9: for a list of hashes SendBid sends exactly one request, with no raw
    transaction and one hash per input hash in the same order; each hash is
    sent with one leading 0x removed, or unchanged when it does not start
    with 0x.  Sending it is the first thing SendBid does: nothing is logged
    or saved before. *)
Theorem SendBid_hash_list :
  forall (b : Bidder) (ts : Z) (v : list string) (amount : string)
         (blk ds de : Z),
    let run := SendBid b ts (HashList v) amount blk ds de in
    exists hashes,
      requestsSent (fst run) = [mkBid amount blk ds de hashes []]
      /\ Forall2 (fun given sent =>
                    given = ("0x" ++ sent)%string
                    \/ (String.prefix "0x" given = false /\ sent = given))
                 v hashes
      /\ exists rest, fst run = EvSendBid (mkBid amount blk ds de hashes []) :: rest.
Proof.
  intros b ts v amount blk ds de run. subst run.
  destruct (SendBid_HashList_events b ts v amount blk ds de) as [Hev _].
  cbv zeta in Hev. rewrite Hev.
  eexists. split; [ | split ].
  - destruct (afterSend_spec b ts
                (mkBid amount blk ds de (map (fun hash => TrimPrefix hash "0x") v) []))
      as [Hnone _].
    unfold requestsSent in *. cbn [flat_map app]. rewrite Hnone. reflexivity.
  - clear Hev.
    induction v as [| h rest IH]; cbn [map]; constructor; [ | exact IH ].
    apply TrimPrefix_0x.
  - eexists. reflexivity.
Qed.

Lemma unhex_hexDigit (n : Z) : 0 <= n < 16 -> unhexDigit (hexDigit n) = n.
Proof.
  intros Hn. destruct n as [| p | p]; [ reflexivity | | lia ].
  do 4 (try (destruct p as [p | p |]; try reflexivity; try lia)).
Qed.

Lemma hexDecode_EncodeToString (bs : list Z) :
  Forall (fun b => 0 <= b < 256) bs -> hexDecode (EncodeToString bs) = bs.
Proof.
  induction 1 as [| b bs Hb _ IH]; cbn [EncodeToString hexDecode]; [ reflexivity | ].
  rewrite IH, !unhex_hexDigit.
  - f_equal. rewrite (Z.div_mod b 16) at 3 by lia. lia.
  - apply Z.mod_pos_bound. lia.
  - split; [ apply Z.div_pos; lia | apply Z.div_lt_upper_bound; lia ].
Qed.

Lemma EncodeToString_length (bs : list Z) :
  String.length (EncodeToString bs) = (2 * List.length bs)%nat.
Proof.
  induction bs as [| b bs IH]; cbn [EncodeToString String.length List.length];
    [ reflexivity | rewrite IH; lia ].
Qed.

Lemma marshalAll_ok (b : Bidder) (v : list (option Transaction))
    (encs : list (list Z)) :
  encodeTo b v encs ->
  marshalAll b v = ([], Ret (inr (map EncodeToString encs))).
Proof.
  induction 1 as [| ptx enc v encs (tx & -> & Hm) _ IH]; cbn [marshalAll map];
    [ reflexivity | ].
  cbn [lift deref tbind]. rewrite Hm, IH. reflexivity.
Qed.

Lemma marshalAll_stops (b : Bidder) (pre : list (option Transaction))
    (encs : list (list Z)) (bad : option Transaction)
    (rest : list (option Transaction)) :
  encodeTo b pre encs ->
  marshalAll b (pre ++ bad :: rest)
  = match bad with
    | None => ([], Panic nil_deref)
    | Some tx =>
        match MarshalBinary b tx with
        | inl e =>
            ([EvLog LvlError "Failed to marshal transaction to raw format"],
             Ret (inl ("failed to marshal transaction: " ++ e)%string))
        | inr enc =>
            tbind (marshalAll b rest)
                  (fun r => match r with
                            | inl e => pure (inl e)
                            | inr raws =>
                                pure (inr (map EncodeToString encs
                                           ++ EncodeToString enc :: raws))
                            end)
        end
    end.
Proof.
  induction 1 as [| ptx enc v encs (tx & -> & Hm) _ IH];
    cbn [marshalAll map app].
  - destruct bad as [tx |]; cbn [lift deref tbind]; [ | reflexivity ].
    destruct (MarshalBinary b tx) as [e | enc]; [ reflexivity | ].
    destruct (marshalAll b rest) as [ev [[e | raws] | w |]]; reflexivity.
  - cbn [lift deref tbind]. rewrite Hm, IH.
    destruct bad as [tx' |]; [ | reflexivity ].
    destruct (MarshalBinary b tx') as [e | enc']; [ reflexivity | ].
    destruct (marshalAll b rest) as [ev [[e | raws] | w |]]; cbn;
      rewrite ?app_nil_r; reflexivity.
Qed.

Lemma SendBid_TxList_sent (b : Bidder) (ts : Z) (v : list (option Transaction))
    (encs : list (list Z)) (amount : string) (blk ds de : Z) :
  encodeTo b v encs ->
  requestsSent (fst (SendBid b ts (TxList v) amount blk ds de))
  = [mkBid amount blk ds de [] (map EncodeToString encs)].
Proof.
  intros Henc.
  pose proof (marshalAll_ok b v encs Henc) as Hm.
  assert (Hs : snd (marshalAll b v) = Ret (inr (map EncodeToString encs)))
    by now rewrite Hm.
  destruct (SendBid_TxList b ts v amount blk ds de _ Hs) as [Hev _].
  cbv zeta in Hev. rewrite Hev, Hm. cbn [fst app].
  destruct (afterSend_spec b ts
              (mkBid amount blk ds de [] (map EncodeToString encs)))
    as [Hnone _].
  unfold requestsSent in *. cbn [flat_map app]. now rewrite Hnone.
Qed.

(** X10: for a list of non-nil transactions that all encode, SendBid sends
    exactly one request, with no hash and one raw transaction per input
    transaction in the same order: the lower-case hex string of its binary
    encoding, twice as long as the encoding and decoding back to it. *)
Theorem SendBid_raw_transactions :
  forall (b : Bidder) (ts : Z) (v : list (option Transaction))
         (encs : list (list Z)) (amount : string) (blk ds de : Z),
    encodeTo b v encs ->
    Forall (Forall (fun x => 0 <= x < 256)) encs ->
    let run := SendBid b ts (TxList v) amount blk ds de in
    requestsSent (fst run)
    = [mkBid amount blk ds de [] (map EncodeToString encs)]
    /\ map hexDecode (map EncodeToString encs) = encs
    /\ Forall2 (fun enc raw => String.length raw = (2 * List.length enc)%nat)
               encs (map EncodeToString encs)
    /\ exists r, snd run = Ret r.
Proof.
  intros b ts v encs amount blk ds de Henc Hbytes run. subst run.
  split; [ now apply SendBid_TxList_sent | ].
  split.
  { clear - Hbytes. induction Hbytes as [| enc encs He _ IH]; cbn [map];
      [ reflexivity | ].
    now rewrite hexDecode_EncodeToString, IH. }
  split.
  { clear. induction encs as [| enc encs IH]; cbn [map]; constructor;
      [ apply EncodeToString_length | exact IH ]. }
  pose proof (marshalAll_ok b v encs Henc) as Hm.
  assert (Hs : snd (marshalAll b v) = Ret (inr (map EncodeToString encs)))
    by now rewrite Hm.
  destruct (SendBid_TxList b ts v amount blk ds de _ Hs) as [_ ->].
  apply afterSend_returns.
Qed.

Lemma SendBid_raw_transactions_witness :
  let tx := transferTx Demo.acct 7 1 400 200 in
  let run := SendBid Demo.bidder 0 (TxList [Some tx; Some tx]) "1" 11 1000 37000 in
  requestsSent (fst run)
  = [mkBid "1" 11 1000 37000 [] (map EncodeToString [[2; 248]; [2; 248]])]
  /\ map hexDecode (map EncodeToString [[2; 248]; [2; 248]]) = [[2; 248]; [2; 248]]
  /\ Forall2 (fun enc raw => String.length raw = (2 * List.length enc)%nat)
             [[2; 248]; [2; 248]] (map EncodeToString [[2; 248]; [2; 248]])
  /\ exists r, snd run = Ret r.
Proof.
  apply (SendBid_raw_transactions Demo.bidder 0
           [Some (transferTx Demo.acct 7 1 400 200);
            Some (transferTx Demo.acct 7 1 400 200)]
           [[2; 248]; [2; 248]] "1" 11 1000 37000).
  - repeat constructor; eexists; split; reflexivity.
  - repeat constructor; lia.
Defined.

(** X11: SendBid stops at the first transaction of the slice that cannot be
    used.  If it fails to encode, SendBid returns the marshal error, logs it,
    and sends, receives and persists nothing; if it is a nil pointer, SendBid
    panics, again before anything is sent. *)
Theorem SendBid_marshal_failure :
  forall (b : Bidder) (ts : Z) (pre : list (option Transaction))
         (encs : list (list Z)) (bad : option Transaction)
         (rest : list (option Transaction)) (amount : string) (blk ds de : Z),
    encodeTo b pre encs ->
    (forall tx enc, bad = Some tx -> MarshalBinary b tx <> inr enc) ->
    let run := SendBid b ts (TxList (pre ++ bad :: rest)) amount blk ds de in
    requestsSent (fst run) = []
    /\ received (fst run) = []
    /\ requestsSaved (fst run) = []
    /\ responsesSaved (fst run) = []
    /\ match bad with
       | None => snd run = Panic nil_deref
       | Some tx =>
           exists e, MarshalBinary b tx = inl e
             /\ snd run = Ret (inl ("failed to marshal transaction: " ++ e)%string)
             /\ logged (fst run)
                = [(LvlError, "Failed to marshal transaction to raw format"%string)]
       end.
Proof.
  intros b ts pre encs bad rest amount blk ds de Hpre Hbad run. subst run.
  pose proof (marshalAll_stops b pre encs bad rest Hpre) as Hm.
  unfold SendBid.
  destruct bad as [tx |].
  - destruct (MarshalBinary b tx) as [e | enc] eqn:He;
      [ | now elim (Hbad tx enc eq_refl) ].
    rewrite Hm. cbn. repeat split. exists e. repeat split.
  - rewrite Hm. cbn. repeat split.
Qed.

Lemma SendBid_marshal_failure_witness :
  let run := SendBid Demo.bidder 0
               (TxList ([Some (transferTx Demo.acct 7 1 400 200)] ++ None :: []))
               "1" 11 1000 37000 in
  requestsSent (fst run) = []
  /\ received (fst run) = []
  /\ requestsSaved (fst run) = []
  /\ responsesSaved (fst run) = []
  /\ snd run = Panic nil_deref.
Proof.
  apply (SendBid_marshal_failure Demo.bidder 0
           [Some (transferTx Demo.acct 7 1 400 200)] [[2; 248]] None []
           "1" 11 1000 37000).
  - repeat constructor. eexists. split; reflexivity.
  - discriminate.
Defined.

Lemma marshalAll_quiet (b : Bidder) (v : list (option Transaction)) :
  requestsSaved (fst (marshalAll b v)) = [].
Proof.
  induction v as [| ptx rest IH]; cbn [marshalAll]; [ reflexivity | ].
  unfold requestsSaved in *.
  destruct ptx as [tx |]; rewrite ?tbind_events; cbn [lift fst snd deref app flat_map];
    [ | reflexivity ].
  destruct (MarshalBinary b tx) as [err | enc];
    rewrite ?tbind_events, ?flat_map_app; cbn [emit pure fst snd app flat_map];
    [ reflexivity | ].
  rewrite IH.
  destruct (snd (marshalAll b rest)) as [[e | raws] | w |]; reflexivity.
Qed.

(** X12: the request log follows the connection.  When the request has been
    sent and the service refuses it, SendBid returns the wrapped error and
    neither calls Recv nor starts a goroutine for the request or the response
    log; when the service opens the stream, the goroutine for the request log
    is started once, with the very request that was sent and the submission
    timestamp. *)
Theorem SendBid_request_log :
  forall (b : Bidder) (ts : Z) (input : BidInput) (amount : string)
         (blk ds de : Z) (req : Bid),
    let run := SendBid b ts input amount blk ds de in
    requestsSent (fst run) = [req] ->
    match client_SendBid b req with
    | inl e =>
        snd run = Ret (inl ("failed to send bid: " ++ e)%string)
        /\ received (fst run) = []
        /\ requestsSaved (fst run) = []
        /\ responsesSaved (fst run) = []
    | inr _ => requestsSaved (fst run) = [(req, ts)]
    end.
Proof.
  intros b ts input amount blk ds de req run Hreq. subst run.
  assert (Hafter : forall r,
             requestsSent (fst (afterSend b ts r)) = []
             /\ match client_SendBid b r with
                | inl e =>
                    snd (afterSend b ts r) = Ret (inl ("failed to send bid: " ++ e)%string)
                    /\ received (fst (afterSend b ts r)) = []
                    /\ requestsSaved (fst (afterSend b ts r)) = []
                    /\ responsesSaved (fst (afterSend b ts r)) = []
                | inr _ => requestsSaved (fst (afterSend b ts r)) = [(r, ts)]
                end).
  { intros r. split; [ apply afterSend_spec | ].
    unfold afterSend. destruct (client_SendBid b r) as [e | response].
    - repeat split.
    - unfold requestsSaved. rewrite !tbind_events, !flat_map_app.
      cbn [emit fst snd flat_map app]. f_equal.
      assert (Hq : forall msgs closing acc,
                 flat_map (fun e => match e with
                                    | EvGoSaveBidRequest _ r0 ts0 => [(r0, ts0)]
                                    | _ => []
                                    end)
                          (fst (recvLoop msgs closing acc)) = []).
      { induction msgs as [| m ms IH]; intros closing acc; cbn [recvLoop].
        - destruct closing; reflexivity.
        - rewrite !tbind_events, !flat_map_app. cbn [emit fst snd flat_map app].
          apply IH. }
      rewrite flat_map_app, Hq. cbn [app].
      destruct (snd (recvLoop (pending response) (closing response) []))
        as [[e | [responses drained]] | w |]; reflexivity. }
  destruct input as [v | v | ty].
  - destruct (SendBid_HashList_events b ts v amount blk ds de) as [Hev Hres].
    cbv zeta in Hev, Hres. rewrite Hev in *. rewrite Hres.
    set (req0 := mkBid amount blk ds de _ []) in *.
    destruct (Hafter req0) as [Hnone Hcase].
    unfold requestsSent in Hreq, Hnone. cbn [flat_map app] in Hreq.
    rewrite Hnone in Hreq. injection Hreq as Hreq. rewrite Hreq in *.
    unfold received, requestsSaved, responsesSaved in *. cbn [flat_map app].
    exact Hcase.
  - destruct (marshalAll_spec b v) as (M1 & M2 & M3 & _).
    pose proof (marshalAll_quiet b v) as M5.
    destruct (snd (marshalAll b v)) as [[e | raws] | w |] eqn:Hm;
      try (rewrite SendBid_TxList_stopped in Hreq
             by (intros raws; rewrite Hm; discriminate);
           discriminate).
    destruct (SendBid_TxList b ts v amount blk ds de raws Hm) as [Hev Hres].
    cbv zeta in Hev, Hres. rewrite Hev in *. rewrite Hres.
    set (req0 := mkBid amount blk ds de [] raws) in *.
    destruct (Hafter req0) as [Hnone Hcase].
    unfold requestsSent, received, requestsSaved, responsesSaved in *.
    rewrite flat_map_app in Hreq. rewrite M1 in Hreq.
    cbn [flat_map app] in Hreq.
    rewrite Hnone in Hreq. injection Hreq as Hreq. rewrite Hreq in *.
    rewrite !flat_map_app, M2, M3, M5. cbn [flat_map app].
    exact Hcase.
  - discriminate.
Qed.

Lemma SendBid_request_log_witness :
  let run := SendBid Demo.bidder 1728667766 (HashList ["0xabcd"%string])
               "1" 11 1000 37000 in
  requestsSaved (fst run)
  = [(mkBid "1" 11 1000 37000 ["abcd"%string] [], 1728667766)].
Proof.
  exact (SendBid_request_log Demo.bidder 1728667766 (HashList ["0xabcd"%string])
           "1" 11 1000 37000 (mkBid "1" 11 1000 37000 ["abcd"%string] [])
           eq_refl).
Defined.

(** ** sendPreconfBid and the header case: composition *)

Lemma tbind_Forall {A B} (P : Event -> Prop) (m : traced A) (k : A -> traced B) :
  Forall P (fst m) -> (forall a, Forall P (fst (k a))) ->
  Forall P (fst (tbind m k)).
Proof.
  intros Hm Hk. rewrite tbind_events. apply Forall_app. split; [ exact Hm | ].
  destruct (snd m); [ apply Hk | constructor | constructor ].
Qed.

Create HintDb bidpath.

Ltac bid_path :=
  repeat first
    [ assumption
    | solve [ auto 1 with bidpath nocore ]
    | apply tbind_Forall; [ | intros ? ]
    | progress cbn [emit pure lift fst]
    | progress cbv zeta
    | apply Forall_nil
    | apply Forall_cons; [ exact I | ]
    | match goal with
      | |- Forall _ (fst (match ?x with _ => _ end)) => destruct x
      end ].

Lemma recvLoop_onBidPath (msgs : list Msg) (closing : option error) :
  forall acc, Forall onBidPath (fst (recvLoop msgs closing acc)).
Proof.
  induction msgs as [| m ms IH]; intros acc; cbn [recvLoop]; bid_path.
Qed.
#[local] Hint Resolve recvLoop_onBidPath : bidpath.

Lemma marshalAll_onBidPath (b : Bidder) (v : list (option Transaction)) :
  Forall onBidPath (fst (marshalAll b v)).
Proof.
  induction v as [| ptx rest IH]; cbn [marshalAll]; bid_path.
Qed.
#[local] Hint Resolve marshalAll_onBidPath : bidpath.

Lemma SendBid_onBidPath (b : Bidder) (ts : Z) (input : BidInput)
    (amount : string) (blk ds de : Z) :
  Forall onBidPath (fst (SendBid b ts input amount blk ds de)).
Proof.
  unfold SendBid. bid_path.
Qed.
#[local] Hint Resolve SendBid_onBidPath : bidpath.

Lemma sendPreconfBid_onBidPath (b : Bidder) (now rnd ts : Z)
    (input : PreconfInput) (blk : Z) :
  Forall onBidPath (fst (sendPreconfBid b now rnd ts input blk)).
Proof.
  unfold sendPreconfBid. bid_path.
Qed.

Lemma onBidPath_no_bundle (evs : list Event) :
  Forall onBidPath evs -> bundlesSent evs = [].
Proof.
  induction 1 as [| e evs He _ IH]; [ reflexivity | ].
  unfold bundlesSent in *. cbn [flat_map]. rewrite IH.
  destruct e; try reflexivity. destruct He.
Qed.

Lemma SendBid_singleton_returns (b : Bidder) (ts : Z) (tx : Transaction)
    (amount : string) (blk ds de : Z) :
  exists r, snd (SendBid b ts (TxList [Some tx]) amount blk ds de) = Ret r.
Proof.
  destruct (MarshalBinary b tx) as [e | enc] eqn:Hm.
  - unfold SendBid. cbn [marshalAll lift deref tbind]. rewrite Hm.
    cbn. eauto.
  - assert (Henc : encodeTo b [Some tx] [enc])
      by (repeat constructor; eauto).
    pose proof (marshalAll_ok b _ _ Henc) as Hok.
    assert (Hs : snd (marshalAll b [Some tx]) = Ret (inr (map EncodeToString [enc])))
      by now rewrite Hok.
    destruct (SendBid_TxList b ts _ amount blk ds de _ Hs) as [_ ->].
    apply afterSend_returns.
Qed.

(** X13: sendPreconfBid never hands a bid failure to its caller.  For a
    hash, and for a non-nil transaction, it returns normally whatever SendBid
    returns, its trace being its own announcement, the trace of the one
    SendBid call, and a final log line: a warning when SendBid returned an
    error, the success line otherwise.  For any other input type it only
    warns.  For a nil transaction pointer it panics before sending. *)
Theorem sendPreconfBid_swallows_errors :
  forall (b : Bidder) (now rnd ts : Z) (input : PreconfInput) (blk : Z),
    let run := sendPreconfBid b now rnd ts input blk in
    let decayEnd := wrap_int64 (now + Milliseconds (36 * Second)) in
    let closingLog (r : outcome (result Stream)) :=
      match r with
      | Ret (inl _) => EvLog LvlWarn "failed to send bid"
      | _ => EvLog LvlInfo "sent preconfirmation bid"
      end in
    match input with
    | InString v =>
        let sb := SendBid b ts (HashList [TrimPrefix v "0x"]) (Sprintf_d rnd)
                          blk now decayEnd in
        snd run = Ret tt
        /\ fst run = EvLog LvlInfo "sending bid with transaction hash"
                     :: fst sb ++ [closingLog (snd sb)]
    | InTransaction (Some tx) =>
        let sb := SendBid b ts (TxList [Some tx]) (Sprintf_d rnd)
                          blk now decayEnd in
        snd run = Ret tt
        /\ fst run = EvLog LvlInfo "sending bid with tx payload"
                     :: fst sb ++ [closingLog (snd sb)]
    | InTransaction None => run = ([], Panic nil_deref)
    | InOther =>
        run = ([EvLog LvlWarn
                  "unsupported input type, must be string or *types.Transaction"],
               Ret tt)
    end.
Proof.
  intros b now rnd ts input blk run decayEnd closingLog.
  subst run decayEnd closingLog. unfold sendPreconfBid.
  destruct input as [v | [tx |] |]; try reflexivity.
  - destruct (SendBid_HashList_returns b ts [TrimPrefix v "0x"] (Sprintf_d rnd)
                blk now (wrap_int64 (now + Milliseconds (36 * Second))))
      as [r Hr].
    rewrite !tbind_events, !tbind_result.
    cbn [emit pure fst snd app]. rewrite Hr. rewrite app_nil_r.
    destruct r; split; reflexivity.
  - destruct (SendBid_singleton_returns b ts tx (Sprintf_d rnd) blk now
                (wrap_int64 (now + Milliseconds (36 * Second)))) as [r Hr].
    rewrite !tbind_events, !tbind_result.
    cbn [lift deref emit pure fst snd app]. rewrite Hr. rewrite app_nil_r.
    destruct r; split; reflexivity.
Qed.

Lemma sendPreconfBid_sent (b : Bidder) (now rnd ts : Z)
    (input : PreconfInput) (blk : Z) :
  requestsSent (fst (sendPreconfBid b now rnd ts input blk))
  = match input with
    | InString v =>
        [mkBid (Sprintf_d rnd) blk now
               (wrap_int64 (now + Milliseconds (36 * Second)))
               [TrimPrefix (TrimPrefix v "0x") "0x"] []]
    | InTransaction (Some tx) =>
        match MarshalBinary b tx with
        | inr enc =>
            [mkBid (Sprintf_d rnd) blk now
                   (wrap_int64 (now + Milliseconds (36 * Second)))
                   [] [EncodeToString enc]]
        | inl _ => []
        end
    | _ => []
    end.
Proof.
  pose proof (sendPreconfBid_requests b now rnd ts input blk) as Hreq.
  cbv zeta in Hreq. rewrite Hreq. clear Hreq.
  destruct input as [v | [tx |] |]; try reflexivity.
  - destruct (SendBid_HashList_events b ts [TrimPrefix v "0x"] (Sprintf_d rnd)
                blk now (wrap_int64 (now + Milliseconds (36 * Second))))
      as [Hev _].
    cbv zeta in Hev. rewrite Hev.
    match goal with
    | |- context [afterSend b ts ?r] =>
        destruct (afterSend_spec b ts r) as [Hnone _]
    end.
    unfold requestsSent in *. cbn [flat_map app]. now rewrite Hnone.
  - destruct (MarshalBinary b tx) as [e | enc] eqn:Hm.
    + apply SendBid_TxList_stopped. intros raws.
      cbn [marshalAll lift deref tbind]. rewrite Hm. cbn. discriminate.
    + assert (Henc : encodeTo b [Some tx] [enc])
        by (repeat constructor; eauto).
      exact (SendBid_TxList_sent b ts [Some tx] [enc] (Sprintf_d rnd)
               blk now _ Henc).
Qed.

(** X14: the one request that sendPreconfBid submits.  Its amount is the
    decimal rendering of the drawn wei amount, its block number the one
    given, its decay window starts at the clock reading.  A hash is sent
    with a leading 0x removed twice (once here, once in SendBid); a
    transaction is sent as the hex string of its encoding, and not at all
    when it fails to encode; nothing is sent for other inputs. *)
Theorem sendPreconfBid_request :
  forall (b : Bidder) (now rnd ts : Z) (input : PreconfInput) (blk : Z),
    let decayEnd := wrap_int64 (now + Milliseconds (36 * Second)) in
    requestsSent (fst (sendPreconfBid b now rnd ts input blk))
    = match input with
      | InString v =>
          [mkBid (Sprintf_d rnd) blk now decayEnd
                 [TrimPrefix (TrimPrefix v "0x") "0x"] []]
      | InTransaction (Some tx) =>
          match MarshalBinary b tx with
          | inr enc =>
              [mkBid (Sprintf_d rnd) blk now decayEnd [] [EncodeToString enc]]
          | inl _ => []
          end
      | _ => []
      end.
Proof.
  intros b now rnd ts input blk decayEnd. subst decayEnd.
  apply sendPreconfBid_sent.
Qed.

Lemma sendPreconfBid_returns (b : Bidder) (now rnd ts : Z)
    (input : PreconfInput) (blk : Z) :
  input <> InTransaction None ->
  snd (sendPreconfBid b now rnd ts input blk) = Ret tt.
Proof.
  intros Hin. unfold sendPreconfBid.
  destruct input as [v | [tx |] |]; try reflexivity; [ | | now elim Hin ].
  - destruct (SendBid_HashList_returns b ts [TrimPrefix v "0x"] (Sprintf_d rnd)
                blk now (wrap_int64 (now + Milliseconds (36 * Second))))
      as [r Hr].
    rewrite !tbind_result. cbn [emit pure fst snd]. rewrite Hr.
    destruct r; reflexivity.
  - destruct (SendBid_singleton_returns b ts tx (Sprintf_d rnd) blk now
                (wrap_int64 (now + Milliseconds (36 * Second)))) as [r Hr].
    rewrite !tbind_result. cbn [lift deref emit pure fst snd]. rewrite Hr.
    destruct r; reflexivity.
Qed.

Ltac header_norm :=
  unfold requestsSent, bundlesSent, logged in *;
  repeat first
    [ rewrite tbind_events | rewrite tbind_result | rewrite flat_map_app
    | progress cbn [emit pure lift fst snd app deref flat_map] ].

(** X15: in payload mode, when the build returns a transaction, the header
    case calls no relay and submits through sendPreconfBid one bid carrying
    the hex encoding of that transaction for the returned target block (as
    int64), or none when the transaction does not encode. *)
Theorem headerCase_payload_mode :
  forall (env : MainEnv) (wsClient : EthClient) (authAcct : AuthAcct)
         (header : Header) (tx : Transaction) (blk : Z),
    usePayload env = true ->
    selfETHTransfer env wsClient authAcct 1000000000000000 (offset env)
      = Ret (inr (tx, blk)) ->
    let run := headerCase env wsClient authAcct header in
    bundlesSent (fst run) = []
    /\ requestsSent (fst run)
       = match MarshalBinary (bidderClient env) tx with
         | inr enc =>
             [mkBid (Sprintf_d (randomWeiAmount env)) (wrap_int64 blk)
                    (currentTime env)
                    (wrap_int64 (currentTime env + Milliseconds (36 * Second)))
                    [] [EncodeToString enc]]
         | inl _ => []
         end.
Proof.
  intros env wsClient authAcct header tx blk Hpay Hbuild run. subst run.
  unfold headerCase. rewrite Hbuild, Hpay.
  pose proof (sendPreconfBid_returns (bidderClient env) (currentTime env)
                (randomWeiAmount env) (submitTimestamp env)
                (InTransaction (Some tx)) (wrap_int64 blk)) as Hret.
  pose proof (sendPreconfBid_sent (bidderClient env) (currentTime env)
                (randomWeiAmount env) (submitTimestamp env)
                (InTransaction (Some tx)) (wrap_int64 blk)) as Hsent.
  pose proof (onBidPath_no_bundle _
                (sendPreconfBid_onBidPath (bidderClient env) (currentTime env)
                   (randomWeiAmount env) (submitTimestamp env)
                   (InTransaction (Some tx)) (wrap_int64 blk))) as Hnob.
  cbn beta iota in Hsent.
  specialize (Hret ltac:(discriminate)).
  header_norm. rewrite Hret. header_norm.
  rewrite Hsent, Hnob, !app_nil_r. repeat split.
Qed.

Lemma headerCase_payload_mode_witness :
  let env := mkMainEnv (TransferFile.SelfETHTransfer Demo.crypto) Demo.bidder
               Demo.relay true EmptyString 1 1728667766708
               8704466770567168 1728667766 in
  let run := headerCase env Demo.client Demo.acct Demo.header in
  bundlesSent (fst run) = []
  /\ requestsSent (fst run)
     = [mkBid (Sprintf_d 8704466770567168) (wrap_int64 11) 1728667766708
              (wrap_int64 (1728667766708 + Milliseconds (36 * Second)))
              [] [EncodeToString [2; 248]]].
Proof.
  apply (headerCase_payload_mode
           (mkMainEnv (TransferFile.SelfETHTransfer Demo.crypto) Demo.bidder
              Demo.relay true EmptyString 1 1728667766708
              8704466770567168 1728667766)
           Demo.client Demo.acct Demo.header
           (WithSignature (transferTx Demo.acct 7 1000000000000000 400 200)
                          Demo.sig0)
           11);
    reflexivity.
Defined.

(** X16: in bundle mode, when the build returns a transaction, the header
    case calls the relay once with that transaction and target block.  A
    panic of the relay call is not recovered: the case ends with it and no
    bid is submitted; this is what happens with SendBundle as the relay and
    an RPC endpoint that http.NewRequest rejects.  When the relay call
    returns, one bid with the transaction's hash is submitted whether or not
    the call failed, and a failure is logged as an error. *)
Theorem headerCase_bundle_mode :
  forall (env : MainEnv) (wsClient : EthClient) (authAcct : AuthAcct)
         (header : Header) (tx : Transaction) (blk : Z),
    usePayload env = false ->
    selfETHTransfer env wsClient authAcct 1000000000000000 (offset env)
      = Ret (inr (tx, blk)) ->
    let run := headerCase env wsClient authAcct header in
    bundlesSent (fst run) = [(rpcEndpoint env, tx, blk)]
    /\ match sendBundle env (rpcEndpoint env) tx blk with
       | Ret sent =>
           requestsSent (fst run)
           = [mkBid (Sprintf_d (randomWeiAmount env)) (wrap_int64 blk)
                    (currentTime env)
                    (wrap_int64 (currentTime env + Milliseconds (36 * Second)))
                    [TrimPrefix (TrimPrefix (HashString (bidderClient env) tx)
                                            "0x") "0x"]
                    []]
           /\ match sent with
              | inl _ =>
                  In (LvlError, "Failed to send transaction"%string)
                     (logged (fst run))
              | inr _ => True
              end
       | Panic why => snd run = Panic why /\ requestsSent (fst run) = []
       | Exit => snd run = Exit /\ requestsSent (fst run) = []
       end
    /\ (forall (http : Http) (marshalBinary : Transaction -> result (list Z))
               (urlErr : error) (binary payloadBytes : list Z),
          sendBundle env = relayOf http marshalBinary ->
          urlError http (rpcEndpoint env) = Some urlErr ->
          marshalBinary tx = inr binary ->
          jsonMarshal http
            (mkFlashbotsPayload "2.0" "eth_sendBundle"
               [mkBundleParams [hexutil_Encode binary] (hexutil_EncodeUint64 blk)]
               1) = inr payloadBytes ->
          snd run = Panic nil_deref /\ requestsSent (fst run) = []).
Proof.
  intros env wsClient authAcct header tx blk Hpay Hbuild run. subst run.
  unfold headerCase. rewrite Hbuild, Hpay.
  pose proof (sendPreconfBid_returns (bidderClient env) (currentTime env)
                (randomWeiAmount env) (submitTimestamp env)
                (InString (HashString (bidderClient env) tx))
                (wrap_int64 blk)) as Hret.
  pose proof (sendPreconfBid_sent (bidderClient env) (currentTime env)
                (randomWeiAmount env) (submitTimestamp env)
                (InString (HashString (bidderClient env) tx))
                (wrap_int64 blk)) as Hsent.
  pose proof (onBidPath_no_bundle _
                (sendPreconfBid_onBidPath (bidderClient env) (currentTime env)
                   (randomWeiAmount env) (submitTimestamp env)
                   (InString (HashString (bidderClient env) tx))
                   (wrap_int64 blk))) as Hnob.
  cbn beta iota in Hsent.
  specialize (Hret ltac:(discriminate)).
  assert (Hurl : forall (http : Http)
                        (marshalBinary : Transaction -> result (list Z))
                        (urlErr : error) (binary payloadBytes : list Z),
             sendBundle env = relayOf http marshalBinary ->
             urlError http (rpcEndpoint env) = Some urlErr ->
             marshalBinary tx = inr binary ->
             jsonMarshal http
               (mkFlashbotsPayload "2.0" "eth_sendBundle"
                  [mkBundleParams [hexutil_Encode binary]
                                  (hexutil_EncodeUint64 blk)] 1)
             = inr payloadBytes ->
             sendBundle env (rpcEndpoint env) tx blk = Panic nil_deref).
  { intros http marshalBinary urlErr binary payloadBytes -> Hu Hb Hj.
    unfold relayOf, SendBundle. rewrite Hb. cbv zeta. rewrite Hj, Hu.
    reflexivity. }
  header_norm.
  destruct (sendBundle env (rpcEndpoint env) tx blk) as [[e | body] | why |].
  - header_norm. rewrite Hret. header_norm.
    rewrite Hsent, Hnob, !app_nil_r.
    split; [ reflexivity | ]. split.
    + split; [ reflexivity | ]. right. right. left. reflexivity.
    + intros http marshalBinary urlErr binary payloadBytes H1 H2 H3 H4.
      discriminate (Hurl _ _ _ _ _ H1 H2 H3 H4).
  - header_norm. rewrite Hret. header_norm.
    rewrite Hsent, Hnob, !app_nil_r.
    split; [ reflexivity | ]. split; [ split; [ reflexivity | exact I ] | ].
    intros http marshalBinary urlErr binary payloadBytes H1 H2 H3 H4.
    discriminate (Hurl _ _ _ _ _ H1 H2 H3 H4).
  - header_norm.
    split; [ reflexivity | ]. split; [ split; reflexivity | ].
    intros http marshalBinary urlErr binary payloadBytes H1 H2 H3 H4.
    pose proof (Hurl _ _ _ _ _ H1 H2 H3 H4) as [= ->].
    split; reflexivity.
  - header_norm.
    split; [ reflexivity | ]. split; [ split; reflexivity | ].
    intros http marshalBinary urlErr binary payloadBytes H1 H2 H3 H4.
    discriminate (Hurl _ _ _ _ _ H1 H2 H3 H4).
Qed.

Lemma headerCase_bundle_mode_witness :
  let env := mkMainEnv (TransferFile.SelfETHTransfer Demo.crypto) Demo.bidder
               (relayOf Demo.badUrlHttp (MarshalBinary Demo.bidder)) false
               "relay:8545" 1 1728667766708 8704466770567168 1728667766 in
  let tx := WithSignature (transferTx Demo.acct 7 1000000000000000 400 200)
                          Demo.sig0 in
  let run := headerCase env Demo.client Demo.acct Demo.header in
  bundlesSent (fst run) = [("relay:8545"%string, tx, 11)]
  /\ snd run = Panic nil_deref
  /\ requestsSent (fst run) = [].
Proof.
  destruct (headerCase_bundle_mode
              (mkMainEnv (TransferFile.SelfETHTransfer Demo.crypto) Demo.bidder
                 (relayOf Demo.badUrlHttp (MarshalBinary Demo.bidder)) false
                 "relay:8545" 1 1728667766708 8704466770567168 1728667766)
              Demo.client Demo.acct Demo.header
              (WithSignature (transferTx Demo.acct 7 1000000000000000 400 200)
                             Demo.sig0)
              11 eq_refl eq_refl) as (Hsent & _ & Hurl).
  split; [ exact Hsent | ].
  exact (Hurl Demo.badUrlHttp (MarshalBinary Demo.bidder)
              "missing protocol scheme"%string [2; 248] [123; 125]
              eq_refl eq_refl eq_refl eq_refl).
Defined.

(** ** connectRPCClientWithRetries *)

Lemma rpcRetryLoop_failures (net : Net) (conv : Z -> Z) (ep : string) (k : nat) :
  forall todo i st,
    (forall j, (j < k)%nat -> exists e, Dial net (rpcDials st + j) ep = inl e) ->
    rpcRetryLoop net conv ep (k + todo) i st
    = rpcRetryLoop net conv ep todo (i + Z.of_nat k) (afterFailures conv st i k).
Proof.
  induction k as [| k IH]; intros todo i st Hfail.
  - unfold afterFailures. cbn [Nat.add seq map repeat].
    rewrite Z.add_0_r, Nat.add_0_r, !app_nil_r. now destruct st.
  - cbn [Nat.add rpcRetryLoop].
    destruct (Hfail 0%nat ltac:(lia)) as [e He].
    rewrite Nat.add_0_r in He. rewrite He.
    rewrite IH.
    + f_equal; [ lia | ].
      unfold afterFailures. cbn [rpcDials rpcSleeps rpcLog].
      f_equal.
      * lia.
      * rewrite <- app_assoc. f_equal. cbn [seq map app].
        rewrite Z.add_0_r. f_equal.
        rewrite <- seq_shift, map_map. apply map_ext. intros j. f_equal. lia.
      * rewrite <- app_assoc. reflexivity.
    + intros j Hj. cbn [rpcDials].
      destruct (Hfail (S j) ltac:(lia)) as [e' He']. exists e'.
      now replace (S (rpcDials st) + j)%nat with (rpcDials st + S j)%nat by lia.
Qed.

Lemma backoff_exact (conv : Z -> Z) (j : Z) :
  0 <= j <= 59 -> backoff conv j = 10 * 2 ^ j.
Proof.
  intros Hj. unfold backoff, pow2Duration.
  destruct (j <? 63) eqn:E; [ | apply Z.ltb_ge in E; lia ].
  apply wrap_int64_id. unfold int64_min, int64_max.
  assert (0 < 2 ^ j) by (apply Z.pow_pos_nonneg; lia).
  assert (2 ^ j <= 2 ^ 59) by (apply Z.pow_le_mono_r; lia).
  lia.
Qed.

Lemma total_app (l1 l2 : list Z) : total (l1 ++ l2) = total l1 + total l2.
Proof.
  unfold total. induction l1 as [| x l1 IH]; cbn [app fold_right];
    [ lia | rewrite IH; lia ].
Qed.

Lemma backoff_total (conv : Z -> Z) (k : nat) :
  (k <= 60)%nat ->
  total (map (fun j => backoff conv (0 + Z.of_nat j)) (seq 0 k))
  = 10 * (2 ^ Z.of_nat k - 1).
Proof.
  induction k as [| k IH]; intros Hk; [ reflexivity | ].
  rewrite seq_S, map_app, total_app, IH by lia.
  cbn [map Nat.add]. unfold total at 1. cbn [fold_right].
  rewrite backoff_exact by lia.
  rewrite Nat2Z.inj_succ, Z.pow_succ_r by lia.
  replace (0 + Z.of_nat k) with (Z.of_nat k) by lia. lia.
Qed.

Lemma backoff_map (conv : Z -> Z) (k : nat) :
  map (fun j => backoff conv (0 + Z.of_nat j)) (seq 0 k)
  = map (fun j => backoff conv (Z.of_nat j)) (seq 0 k).
Proof. apply map_ext. intros j. now rewrite Z.add_0_l. Qed.

Lemma backoff_map_exact (conv : Z -> Z) (k : nat) :
  (k <= 60)%nat ->
  map (fun j => backoff conv (Z.of_nat j)) (seq 0 k)
  = map (fun j => 10 * 2 ^ Z.of_nat j) (seq 0 k).
Proof.
  intros Hk. apply map_ext_in. intros j Hj. apply in_seq in Hj.
  apply backoff_exact. lia.
Qed.

(** X17: connectRPCClientWithRetries returns the client of the first dial
    that succeeds, if that is one of the first maxRetries dials: after k
    failed dials it has dialed k + 1 times and has slept k times, the j-th
    time for the int64 product 10 * Duration(2^j) nanoseconds.  That is
    10 * 2^j ns for j < 60, and 10 * (2^k - 1) ns in all when k <= 60; at
    j = 60 the product wraps to a negative duration. *)
Theorem connectRPC_first_success :
  forall (net : Net) (conv : Z -> Z) (ep : string) (maxRetries timeout : Z)
         (st : RpcState) (k : nat) (c : EthClient),
    (k < Z.to_nat maxRetries)%nat ->
    (forall j, (j < k)%nat -> exists e, Dial net (rpcDials st + j) ep = inl e) ->
    Dial net (rpcDials st + k) ep = inr c ->
    let run := connectRPCClientWithRetries net conv ep maxRetries timeout st in
    fst run = Some c
    /\ rpcDials (snd run) = (rpcDials st + k + 1)%nat
    /\ rpcSleeps (snd run)
       = rpcSleeps st ++ map (fun j => backoff conv (Z.of_nat j)) (seq 0 k)
    /\ ((k <= 60)%nat ->
        map (fun j => backoff conv (Z.of_nat j)) (seq 0 k)
        = map (fun j => 10 * 2 ^ Z.of_nat j) (seq 0 k)
        /\ total (map (fun j => backoff conv (Z.of_nat j)) (seq 0 k))
           = 10 * (2 ^ Z.of_nat k - 1))
    /\ backoff conv 60 = 10 * 2 ^ 60 - 2 ^ 64
    /\ backoff conv 60 < 0.
Proof.
  intros net conv ep maxRetries timeout st k c Hk Hfail Hok run. subst run.
  unfold connectRPCClientWithRetries.
  replace (Z.to_nat maxRetries) with (k + S (Z.to_nat maxRetries - k - 1))%nat by lia.
  rewrite (rpcRetryLoop_failures net conv ep k _ 0 st Hfail).
  cbn [rpcRetryLoop afterFailures rpcDials]. rewrite Hok.
  cbn [fst snd rpcDials rpcSleeps].
  split; [ reflexivity | ]. split; [ lia | ].
  split; [ unfold afterFailures; cbn [rpcSleeps]; now rewrite backoff_map | ].
  split.
  { intros H60. split; [ now apply backoff_map_exact | ].
    rewrite <- backoff_map. now apply backoff_total. }
  split; [ reflexivity | ].
  change (backoff conv 60) with (10 * 2 ^ 60 - 2 ^ 64). lia.
Qed.

Lemma connectRPC_first_success_witness :
  let net := mkNet (fun k _ => if (k <? 2)%nat then inl "refused"%string
                               else inr Demo.client)
                   (fun _ _ => inr 1) in
  let run := connectRPCClientWithRetries net (fun _ => 0) "http://node" 5 30
               (mkRpcState 0 [] []) in
  fst run = Some Demo.client
  /\ rpcDials (snd run) = 3%nat
  /\ rpcSleeps (snd run) = [10; 20].
Proof.
  destruct (connectRPC_first_success
              (mkNet (fun k _ => if (k <? 2)%nat then inl "refused"%string
                                 else inr Demo.client)
                     (fun _ _ => inr 1))
              (fun _ => 0) "http://node" 5 30 (mkRpcState 0 [] []) 2 Demo.client
              ltac:(cbn; lia)
              (fun j Hj =>
                 match j as j0 return
                   (j0 < 2)%nat ->
                   exists e,
                     (if (0 + j0 <? 2)%nat then inl "refused"%string
                      else inr Demo.client) = inl e
                 with
                 | 0%nat | 1%nat => fun _ => ex_intro _ "refused"%string eq_refl
                 | S (S _) => fun H => ltac:(lia)
                 end Hj)
              eq_refl)
    as (H1 & H2 & H3 & _).
  split; [ exact H1 | ]. split; [ exact H2 | exact H3 ].
Defined.

(** X18: when each of the first maxRetries dials fails,
    connectRPCClientWithRetries returns nil after exactly maxRetries dials
    (none for a maxRetries of zero or less) and one final error log; it has
    slept after every failed dial, the j-th time for the int64 product
    10 * Duration(2^j) nanoseconds, which makes 10 * (2^maxRetries - 1) ns
    in all when maxRetries <= 60, and 310 ns for the 5 retries of main. *)
Theorem connectRPC_exhausted :
  forall (net : Net) (conv : Z -> Z) (ep : string) (maxRetries timeout : Z)
         (st : RpcState),
    (forall j, (j < Z.to_nat maxRetries)%nat ->
               exists e, Dial net (rpcDials st + j) ep = inl e) ->
    let run := connectRPCClientWithRetries net conv ep maxRetries timeout st in
    fst run = None
    /\ rpcDials (snd run) = (rpcDials st + Z.to_nat maxRetries)%nat
    /\ rpcSleeps (snd run)
       = rpcSleeps st
         ++ map (fun j => backoff conv (Z.of_nat j)) (seq 0 (Z.to_nat maxRetries))
    /\ last (rpcLog (snd run)) (LvlInfo, EmptyString)
       = (LvlError, "failed to connect to RPC client after retries"%string)
    /\ (maxRetries <= 60 ->
        total (rpcSleeps (snd run))
        = total (rpcSleeps st) + 10 * (2 ^ Z.max 0 maxRetries - 1))
    /\ (maxRetries = 5 -> total (rpcSleeps (snd run)) = total (rpcSleeps st) + 310).
Proof.
  intros net conv ep maxRetries timeout st Hfail run. subst run.
  unfold connectRPCClientWithRetries.
  assert (Hrun : rpcRetryLoop net conv ep (Z.to_nat maxRetries) 0 st
                 = rpcRetryLoop net conv ep 0 (0 + Z.of_nat (Z.to_nat maxRetries))
                     (afterFailures conv st 0 (Z.to_nat maxRetries))).
  { rewrite <- (rpcRetryLoop_failures net conv ep _ 0%nat 0 st Hfail).
    now rewrite Nat.add_0_r. }
  rewrite Hrun.
  cbn [rpcRetryLoop afterFailures fst snd rpcDials rpcSleeps rpcLog].
  assert (Htot : maxRetries <= 60 ->
                 total (map (fun j => backoff conv (0 + Z.of_nat j))
                            (seq 0 (Z.to_nat maxRetries)))
                 = 10 * (2 ^ Z.max 0 maxRetries - 1)).
  { intros Hmax. rewrite backoff_total by lia.
    now replace (Z.of_nat (Z.to_nat maxRetries)) with (Z.max 0 maxRetries) by lia. }
  split; [ reflexivity | ]. split; [ reflexivity | ].
  split; [ now rewrite backoff_map | ].
  split; [ apply last_last | ].
  split.
  - intros Hmax. rewrite total_app, Htot by exact Hmax. reflexivity.
  - intros ->. rewrite total_app, Htot by lia. reflexivity.
Qed.

Lemma connectRPC_exhausted_witness :
  let run := connectRPCClientWithRetries Demo.deadNet (fun _ => 0) "http://node"
               5 30 (mkRpcState 0 [] []) in
  fst run = None
  /\ rpcDials (snd run) = 5%nat
  /\ rpcSleeps (snd run) = [10; 20; 40; 80; 160]
  /\ total (rpcSleeps (snd run)) = 310.
Proof.
  destruct (connectRPC_exhausted Demo.deadNet (fun _ => 0) "http://node" 5 30
              (mkRpcState 0 [] [])
              (fun j _ => ex_intro _ "connection refused"%string eq_refl))
    as (H1 & H2 & H3 & _ & _ & H5).
  split; [ exact H1 | ]. split; [ exact H2 | ].
  split; [ exact H3 | exact (H5 eq_refl) ].
Defined.

(** ** Environment parsing *)

Lemma decimalValue_mono (d : Decimal.uint) :
  forall a, 0 <= a -> a <= decimalValue d a.
Proof.
  induction d; intros a Ha; cbn [decimalValue]; try lia;
    (etransitivity; [ | apply IHd; lia ]); lia.
Qed.

Lemma parseUintLoop_step (c : ascii) (k : Z) (rest : string) (n : Z) :
  digitValue c = Some k -> 0 <= k <= 9 ->
  0 <= n -> 10 * n + k <= maxUint64 ->
  parseUintLoop (String c rest) n = parseUintLoop rest (10 * n + k).
Proof.
  intros Hc Hk Hn Hmax. cbn [parseUintLoop]. rewrite Hc.
  unfold maxUint64 in *.
  destruct (10 <=? k) eqn:E1; [ apply Z.leb_le in E1; lia | ].
  destruct ((2 ^ 64 - 1) / 10 + 1 <=? n) eqn:E2.
  { apply Z.leb_le in E2. change ((2 ^ 64 - 1) / 10 + 1) with 1844674407370955162 in E2.
    change (2 ^ 64 - 1) with 18446744073709551615 in Hmax. lia. }
  unfold wrap_uint64.
  change (2 ^ 64 - 1) with 18446744073709551615 in *.
  change (2 ^ 64) with 18446744073709551616.
  rewrite (Z.mod_small (n * 10)) by lia.
  rewrite (Z.mod_small (n * 10 + k)) by lia.
  destruct (n * 10 + k <? n * 10) eqn:E3; [ apply Z.ltb_lt in E3; lia | ].
  destruct (18446744073709551615 <? n * 10 + k) eqn:E4;
    [ apply Z.ltb_lt in E4; lia | ].
  cbn [orb]. f_equal. lia.
Qed.

Ltac digit_case k IH Hmax :=
  rewrite (parseUintLoop_step _ k);
  [ apply IH; [ lia | exact Hmax ]
  | reflexivity | lia | lia
  | etransitivity; [ apply decimalValue_mono; lia | exact Hmax ] ].

Lemma parseUintLoop_decimal (d : Decimal.uint) :
  forall n, 0 <= n -> decimalValue d n <= maxUint64 ->
    parseUintLoop (DecimalString.NilEmpty.string_of_uint d) n
    = inr (decimalValue d n).
Proof.
  induction d as [| d IH | d IH | d IH | d IH | d IH | d IH | d IH | d IH
                  | d IH | d IH];
    intros n Hn Hmax;
    cbn [DecimalString.NilEmpty.string_of_uint decimalValue] in *;
    [ reflexivity
    | digit_case 0 IH Hmax | digit_case 1 IH Hmax | digit_case 2 IH Hmax
    | digit_case 3 IH Hmax | digit_case 4 IH Hmax | digit_case 5 IH Hmax
    | digit_case 6 IH Hmax | digit_case 7 IH Hmax | digit_case 8 IH Hmax
    | digit_case 9 IH Hmax ].
Qed.

Lemma decimalValue_of_uint_acc (d : Decimal.uint) :
  forall p, Z.pos (Pos.of_uint_acc d p) = decimalValue d (Z.pos p).
Proof.
  induction d; intros p; cbn [Pos.of_uint_acc decimalValue]; [ reflexivity | .. ];
    rewrite IHd; f_equal; lia.
Qed.

Lemma decimalValue_of_uint (d : Decimal.uint) :
  Z.of_N (Pos.of_uint d) = decimalValue d 0.
Proof.
  induction d; cbn [Pos.of_uint decimalValue]; [ reflexivity | exact IHd | .. ];
    cbn [Z.of_N]; rewrite decimalValue_of_uint_acc; reflexivity.
Qed.

Lemma ParseUint10_numeral (d : Decimal.uint) :
  d <> Decimal.Nil ->
  ParseUint10 (DecimalString.NilZero.string_of_uint d)
  = parseUintLoop (DecimalString.NilEmpty.string_of_uint d) 0.
Proof. intros Hd. destruct d; [ now elim Hd | reflexivity .. ]. Qed.

Lemma Sprintf_d_parse (n : Z) :
  0 <= n <= maxUint64 -> ParseUint10 (Sprintf_d n) = inr n.
Proof.
  intros Hn. unfold Sprintf_d.
  destruct n as [| p | p]; [ reflexivity | | lia ].
  cbn [Z.to_int DecimalString.NilZero.string_of_int].
  pose proof (decimalValue_of_uint (Pos.to_uint p)) as Hval.
  rewrite DecimalPos.Unsigned.of_to in Hval. cbn [Z.of_N] in Hval.
  rewrite ParseUint10_numeral by apply DecimalPos.Unsigned.to_uint_nonnil.
  rewrite parseUintLoop_decimal; [ now rewrite <- Hval | lia | rewrite <- Hval; lia ].
Qed.

Lemma digitValue_decimal (c : ascii) (d : Z) :
  digitValue c = Some d -> d < 10 ->
  0 <= d
  /\ (48 <=? Z.of_N (N_of_ascii c)) && (Z.of_N (N_of_ascii c) <=? 57) = true.
Proof.
  unfold digitValue.
  destruct ((48 <=? Z.of_N (N_of_ascii c)) && (Z.of_N (N_of_ascii c) <=? 57))
    eqn:E.
  - intros [= <-] _. apply andb_prop in E. destruct E as [E1 _].
    apply Z.leb_le in E1. split; [ lia | reflexivity ].
  - destruct ((97 <=? Z.lor (Z.of_N (N_of_ascii c)) 32)
              && (Z.lor (Z.of_N (N_of_ascii c)) 32 <=? 122)) eqn:E2;
      [ | discriminate ].
    intros [= <-] Hd. apply andb_prop in E2. destruct E2 as [E2 _].
    apply Z.leb_le in E2. lia.
Qed.

Lemma parseUintLoop_sound (s : string) :
  forall n v, 0 <= n <= maxUint64 -> parseUintLoop s n = inr v ->
    n <= v <= maxUint64 /\ allDigits s = true.
Proof.
  induction s as [| c rest IH]; intros n v Hn; cbn [parseUintLoop allDigits].
  - intros [= <-]. split; [ lia | reflexivity ].
  - destruct (digitValue c) as [d |] eqn:Hc; [ | discriminate ].
    destruct (10 <=? d) eqn:E1; [ discriminate | ]. apply Z.leb_gt in E1.
    destruct (digitValue_decimal c d Hc E1) as [Hd0 Hdig].
    destruct (maxUint64 / 10 + 1 <=? n) eqn:E2; [ discriminate | ].
    apply Z.leb_gt in E2.
    assert (Hn10 : 0 <= n * 10 <= maxUint64).
    { unfold maxUint64 in *.
      change ((2 ^ 64 - 1) / 10 + 1) with 1844674407370955162 in E2.
      change (2 ^ 64 - 1) with 18446744073709551615 in *. lia. }
    assert (Hw : wrap_uint64 (n * 10) = n * 10).
    { unfold wrap_uint64, maxUint64 in *. rewrite Z.mod_small; lia. }
    cbv zeta. rewrite !Hw.
    destruct ((wrap_uint64 (n * 10 + d) <? n * 10)
              || (maxUint64 <? wrap_uint64 (n * 10 + d))) eqn:E3;
      [ discriminate | ].
    apply orb_false_elim in E3. destruct E3 as [E3 E4].
    apply Z.ltb_ge in E3, E4.
    intros Hrun. apply IH in Hrun; [ | split; [ lia | exact E4 ] ].
    destruct Hrun as [Hv ->]. rewrite Hdig. split; [ lia | reflexivity ].
Qed.

Lemma parseUintEnvVar_sound (name s : string) (v : Z) :
  parseUintEnvVar name s = inr v ->
  0 <= v < 2 ^ 64 /\ s <> EmptyString /\ allDigits s = true.
Proof.
  unfold parseUintEnvVar, ParseUint10.
  destruct s as [| c rest]; [ discriminate | ].
  destruct (parseUintLoop (String c rest) 0) as [e | v'] eqn:Hp;
    [ discriminate | ].
  intros [= <-].
  apply parseUintLoop_sound in Hp; [ | unfold maxUint64; lia ].
  destruct Hp as [Hv Hd]. unfold maxUint64 in Hv.
  repeat split; try lia; try discriminate; exact Hd.
Qed.

Lemma digitValue_of_digit (c : ascii) :
  (48 <=? Z.of_N (N_of_ascii c)) && (Z.of_N (N_of_ascii c) <=? 57) = true ->
  digitValue c = Some (Z.of_N (N_of_ascii c) - 48)
  /\ 0 <= Z.of_N (N_of_ascii c) - 48 <= 9.
Proof.
  intros Hc. unfold digitValue. rewrite Hc. split; [ reflexivity | ].
  apply andb_prop in Hc. destruct Hc as [H1 H2].
  apply Z.leb_le in H1, H2. lia.
Qed.

Lemma digitValue_digit (c : ascii) (d : Z) :
  digitValue c = Some d -> d < 10 -> d = Z.of_N (N_of_ascii c) - 48.
Proof.
  intros Hc Hd. destruct (digitValue_decimal c d Hc Hd) as [_ Hdig].
  destruct (digitValue_of_digit c Hdig) as [Hc' _]. congruence.
Qed.

Lemma digitsValueFrom_mono (s : string) :
  forall a, 0 <= a -> allDigits s = true -> a <= digitsValueFrom s a.
Proof.
  induction s as [| c rest IH]; intros a Ha Hs;
    cbn [digitsValueFrom allDigits] in *; [ lia | ].
  apply andb_prop in Hs. destruct Hs as [Hc Hrest].
  destruct (digitValue_of_digit c Hc) as [_ Hd].
  etransitivity; [ | apply IH; [ lia | exact Hrest ] ]. lia.
Qed.

(** The digit loop returns the number the digits denote. *)
Lemma parseUintLoop_value (s : string) :
  forall n v, 0 <= n <= maxUint64 -> parseUintLoop s n = inr v ->
    v = digitsValueFrom s n.
Proof.
  induction s as [| c rest IH]; intros n v Hn;
    cbn [parseUintLoop digitsValueFrom].
  - now intros [= <-].
  - destruct (digitValue c) as [d |] eqn:Hc; [ | discriminate ].
    destruct (10 <=? d) eqn:E1; [ discriminate | ]. apply Z.leb_gt in E1.
    destruct (digitValue_decimal c d Hc E1) as [Hd0 _].
    rewrite <- (digitValue_digit c d Hc E1).
    destruct (maxUint64 / 10 + 1 <=? n) eqn:E2; [ discriminate | ].
    apply Z.leb_gt in E2.
    assert (Hn10 : 0 <= n * 10 <= maxUint64).
    { unfold maxUint64 in *.
      change ((2 ^ 64 - 1) / 10 + 1) with 1844674407370955162 in E2.
      change (2 ^ 64 - 1) with 18446744073709551615 in *. lia. }
    assert (Hw : wrap_uint64 (n * 10) = n * 10).
    { unfold wrap_uint64, maxUint64 in *. rewrite Z.mod_small; lia. }
    cbv zeta. rewrite !Hw.
    destruct ((wrap_uint64 (n * 10 + d) <? n * 10)
              || (maxUint64 <? wrap_uint64 (n * 10 + d))) eqn:E3;
      [ discriminate | ].
    apply orb_false_elim in E3. destruct E3 as [E3 E4].
    apply Z.ltb_ge in E3, E4.
    assert (Hsum : wrap_uint64 (n * 10 + d) = n * 10 + d).
    { unfold wrap_uint64, maxUint64 in *.
      destruct (Z_lt_ge_dec (n * 10 + d) (2 ^ 64)) as [Hlt | Hge];
        [ apply Z.mod_small; lia | ].
      exfalso.
      assert (Hm : (n * 10 + d) mod 2 ^ 64 = n * 10 + d - 2 ^ 64).
      { symmetry. apply (Z.mod_unique _ _ 1); lia. }
      rewrite Hm in E3. lia. }
    rewrite Hsum in *.
    intros Hrun. apply IH in Hrun; [ | lia ].
    rewrite Hrun. f_equal. lia.
Qed.

(** The digit loop accepts every string of digits whose value fits. *)
Lemma parseUintLoop_complete (s : string) :
  forall n, 0 <= n -> allDigits s = true ->
    digitsValueFrom s n <= maxUint64 ->
    parseUintLoop s n = inr (digitsValueFrom s n).
Proof.
  induction s as [| c rest IH]; intros n Hn Hs Hmax;
    cbn [digitsValueFrom allDigits] in *; [ reflexivity | ].
  apply andb_prop in Hs. destruct Hs as [Hc Hrest].
  destruct (digitValue_of_digit c Hc) as [Hdig Hd].
  assert (Hfit : 10 * n + (Z.of_N (N_of_ascii c) - 48) <= maxUint64).
  { etransitivity; [ apply digitsValueFrom_mono; [ lia | exact Hrest ] | ].
    exact Hmax. }
  rewrite (parseUintLoop_step c _ rest n Hdig Hd Hn Hfit).
  apply IH; [ lia | exact Hrest | exact Hmax ].
Qed.

Lemma parseUintEnvVar_value (name s : string) (v : Z) :
  parseUintEnvVar name s = inr v <->
  s <> EmptyString /\ allDigits s = true /\ digitsValue s = v /\ v < 2 ^ 64.
Proof.
  split.
  - intros Hrun. destruct (parseUintEnvVar_sound _ _ _ Hrun) as (Hv & Hne & Hd).
    repeat split; try assumption; try lia.
    unfold parseUintEnvVar, ParseUint10 in Hrun.
    destruct s as [| c rest]; [ discriminate | ].
    destruct (parseUintLoop (String c rest) 0) as [e | v'] eqn:Hp;
      [ discriminate | ].
    injection Hrun as <-. symmetry.
    apply (parseUintLoop_value _ 0 _ ltac:(unfold maxUint64; lia) Hp).
  - intros (Hne & Hd & <- & Hv).
    unfold parseUintEnvVar, ParseUint10.
    destruct s as [| c rest]; [ now elim Hne | ].
    unfold digitsValue in *.
    rewrite parseUintLoop_complete;
      [ reflexivity | lia | exact Hd | unfold maxUint64; lia ].
Qed.

(** X19: parseUintEnvVar accepts exactly the non-empty strings of decimal
    digits whose value is below 2^64, leading zeros allowed and zero
    included although its error message asks for a positive integer, and
    returns the value the digits denote; so it reads back every uint64
    written in decimal, and rejects a sign, a space, an underscore and every
    value from 2^64 on. *)
Theorem parseUintEnvVar_decimal :
  forall (name s : string) (v : Z),
    (parseUintEnvVar name s = inr v <->
     s <> EmptyString /\ allDigits s = true /\ digitsValue s = v /\ v < 2 ^ 64)
    /\ (0 <= v < 2 ^ 64 -> parseUintEnvVar name (Sprintf_d v) = inr v).
Proof.
  intros name s v. split.
  - apply parseUintEnvVar_value.
  - intros Hv. unfold parseUintEnvVar.
    rewrite Sprintf_d_parse; [ reflexivity | unfold maxUint64; lia ].
Qed.

Lemma parseUintEnvVar_decimal_witness :
  parseUintEnvVar "OFFSET" "007" = inr 7
  /\ parseUintEnvVar "OFFSET" "0" = inr 0
  /\ parseUintEnvVar "OFFSET" "18446744073709551615" = inr (2 ^ 64 - 1)
  /\ parseUintEnvVar "OFFSET" "18446744073709551616" <> inr (2 ^ 64).
Proof.
  split.
  { apply (proj1 (parseUintEnvVar_decimal "OFFSET" "007" 7)).
    repeat split; first [ discriminate | lia ]. }
  split.
  { apply (proj1 (parseUintEnvVar_decimal "OFFSET" "0" 0)).
    repeat split; first [ discriminate | lia ]. }
  split.
  { apply (proj2 (parseUintEnvVar_decimal "OFFSET" "0" (2 ^ 64 - 1))). lia. }
  intros Hrun.
  apply (proj1 (parseUintEnvVar_decimal "OFFSET" "18446744073709551616" (2 ^ 64)))
    in Hrun.
  lia.
Defined.

(** ** The configuration block of main *)

Lemma isEmpty_false (s : string) : isEmpty s = false <-> s <> EmptyString.
Proof. unfold isEmpty. apply String.eqb_neq. Qed.

Lemma isEmpty_true (s : string) : isEmpty s = true <-> s = EmptyString.
Proof. unfold isEmpty. apply String.eqb_eq. Qed.

Lemma loadConfig_table :
  forall (dotenv : option error) (Getenv : string -> string),
    match loadConfig dotenv Getenv with
    | Ret cfg =>
        dotenv = None
        /\ cfg_wsEndpoint cfg = Getenv "WS_ENDPOINT"%string
        /\ cfg_wsEndpoint cfg <> EmptyString
        /\ cfg_privateKeyHex cfg = Getenv "PRIVATE_KEY"%string
        /\ cfg_privateKeyHex cfg <> EmptyString
        /\ cfg_bidderAddress cfg <> EmptyString
        /\ 0 <= cfg_offset cfg < 2 ^ 64
        /\ (if cfg_usePayload cfg
            then cfg_rpcEndpoint cfg = EmptyString
            else cfg_rpcEndpoint cfg = Getenv "RPC_ENDPOINT"%string
                 /\ cfg_rpcEndpoint cfg <> EmptyString)
    | Panic _ => False
    | Exit => True
    end.
Proof.
  intros dotenv Getenv. unfold loadConfig.
  destruct dotenv as [e |]; [ exact I | ].
  set (bidder := if isEmpty (Getenv "BIDDER_ADDRESS"%string)
                 then "mev-commit-bidder:13524"%string
                 else Getenv "BIDDER_ADDRESS"%string).
  assert (Hbidder : bidder <> EmptyString).
  { subst bidder. destruct (isEmpty (Getenv "BIDDER_ADDRESS"%string)) eqn:E;
      [ discriminate | now apply isEmpty_false ]. }
  assert (Hpay : exists o : outcome bool,
             (if isEmpty (Getenv "USE_PAYLOAD"%string) then Ret true
              else match parseBoolEnvVar "USE_PAYLOAD" (Getenv "USE_PAYLOAD"%string) with
                   | inl _ => Exit
                   | inr v => Ret v
                   end) = o /\ (forall w, o <> Panic w)).
  { eexists. split; [ reflexivity | ]. intros w.
    destruct (isEmpty (Getenv "USE_PAYLOAD"%string)); [ discriminate | ].
    destruct (parseBoolEnvVar "USE_PAYLOAD" (Getenv "USE_PAYLOAD"%string));
      discriminate. }
  destruct Hpay as (o & -> & Ho).
  destruct o as [usePayload | w |]; cbn [obind]; [ | now elim (Ho w) | exact I ].
  destruct usePayload; cbn [negb obind].
  - destruct (isEmpty (Getenv "WS_ENDPOINT"%string)) eqn:Ews; [ exact I | ].
    destruct (isEmpty (Getenv "PRIVATE_KEY"%string)) eqn:Ekey; [ exact I | ].
    apply isEmpty_false in Ews, Ekey.
    destruct (isEmpty (Getenv "OFFSET"%string)); cbn [obind].
    + cbn. repeat split; auto; lia.
    + destruct (parseUintEnvVar "OFFSET" (Getenv "OFFSET"%string)) as [e | v] eqn:Ep;
        cbn [obind]; [ exact I | ].
      destruct (parseUintEnvVar_sound _ _ _ Ep) as [Hv _].
      cbn. repeat split; auto; lia.
  - destruct (isEmpty (Getenv "RPC_ENDPOINT"%string)) eqn:Erpc; cbn [obind];
      [ exact I | ].
    destruct (isEmpty (Getenv "WS_ENDPOINT"%string)) eqn:Ews; [ exact I | ].
    destruct (isEmpty (Getenv "PRIVATE_KEY"%string)) eqn:Ekey; [ exact I | ].
    apply isEmpty_false in Ews, Ekey, Erpc.
    destruct (isEmpty (Getenv "OFFSET"%string)); cbn [obind].
    + cbn. repeat split; auto; lia.
    + destruct (parseUintEnvVar "OFFSET" (Getenv "OFFSET"%string)) as [e | v] eqn:Ep;
        cbn [obind]; [ exact I | ].
      destruct (parseUintEnvVar_sound _ _ _ Ep) as [Hv _].
      cbn. repeat split; auto; lia.
Qed.

(** X20: the configuration block of main either ends the process or
    returns settings in which the websocket endpoint and the private key are
    the non-empty values of WS_ENDPOINT and PRIVATE_KEY, the bidder address
    is non-empty, the offset lies in the uint64 range, and the RPC endpoint
    is the non-empty value of RPC_ENDPOINT exactly in bundle mode: in
    payload mode it is empty, RPC_ENDPOINT not being read. *)
Theorem loadConfig_invariants :
  forall (dotenv : option error) (Getenv : string -> string),
    match loadConfig dotenv Getenv with
    | Ret cfg =>
        dotenv = None
        /\ cfg_wsEndpoint cfg = Getenv "WS_ENDPOINT"%string
        /\ cfg_wsEndpoint cfg <> EmptyString
        /\ cfg_privateKeyHex cfg = Getenv "PRIVATE_KEY"%string
        /\ cfg_privateKeyHex cfg <> EmptyString
        /\ cfg_bidderAddress cfg <> EmptyString
        /\ 0 <= cfg_offset cfg < 2 ^ 64
        /\ (if cfg_usePayload cfg
            then cfg_rpcEndpoint cfg = EmptyString
            else cfg_rpcEndpoint cfg = Getenv "RPC_ENDPOINT"%string
                 /\ cfg_rpcEndpoint cfg <> EmptyString)
    | Panic _ => False
    | Exit => True
    end.
Proof. exact loadConfig_table. Qed.

Lemma Sprintf_d_nonempty (n : Z) :
  0 <= n <= maxUint64 -> Sprintf_d n <> EmptyString.
Proof.
  intros Hn E. pose proof (Sprintf_d_parse n Hn) as Hp.
  rewrite E in Hp. discriminate.
Qed.

Lemma ParseBool_nonempty (s : string) (b : bool) :
  ParseBool s = inr b -> s <> EmptyString.
Proof. intros H ->. discriminate. Qed.

(** X21: with WS_ENDPOINT and PRIVATE_KEY set, a USE_PAYLOAD that is unset
    (meaning true) or one of the spellings ParseBool accepts, RPC_ENDPOINT
    set when the mode is bundle mode, and an OFFSET that is unset (meaning 1)
    or a uint64 in decimal, the configuration block returns: the bidder
    address defaults to mev-commit-bidder:13524, and the RPC endpoint stays
    empty in payload mode whatever RPC_ENDPOINT holds. *)
Theorem loadConfig_accepts :
  forall (Getenv : string -> string) (usePayload : bool) (offset : Z),
    Getenv "WS_ENDPOINT"%string <> EmptyString ->
    Getenv "PRIVATE_KEY"%string <> EmptyString ->
    (Getenv "USE_PAYLOAD"%string = EmptyString /\ usePayload = true
     \/ ParseBool (Getenv "USE_PAYLOAD"%string) = inr usePayload) ->
    (usePayload = false -> Getenv "RPC_ENDPOINT"%string <> EmptyString) ->
    (Getenv "OFFSET"%string = EmptyString /\ offset = 1
     \/ Getenv "OFFSET"%string = Sprintf_d offset /\ 0 <= offset < 2 ^ 64) ->
    loadConfig None Getenv =
    Ret (mkConfig
           (if isEmpty (Getenv "BIDDER_ADDRESS"%string)
            then "mev-commit-bidder:13524"%string
            else Getenv "BIDDER_ADDRESS"%string)
           usePayload
           (if usePayload then EmptyString else Getenv "RPC_ENDPOINT"%string)
           (Getenv "WS_ENDPOINT"%string)
           (Getenv "PRIVATE_KEY"%string)
           offset).
Proof.
  intros Getenv usePayload offset Hws Hkey Hpay Hrpc Hoff.
  unfold loadConfig.
  assert (Epay : (if isEmpty (Getenv "USE_PAYLOAD"%string) then Ret true
                  else match parseBoolEnvVar "USE_PAYLOAD" (Getenv "USE_PAYLOAD"%string) with
                       | inl _ => Exit
                       | inr v => Ret v
                       end) = Ret usePayload).
  { destruct Hpay as [[E ->] | E].
    - rewrite E. reflexivity.
    - pose proof (ParseBool_nonempty _ _ E) as Hne.
      apply isEmpty_false in Hne. rewrite Hne.
      unfold parseBoolEnvVar. rewrite E. reflexivity. }
  rewrite Epay. cbn [obind].
  assert (Eoff : (if isEmpty (Getenv "OFFSET"%string) then Ret 1
                  else match parseUintEnvVar "OFFSET" (Getenv "OFFSET"%string) with
                       | inl _ => Exit
                       | inr v => Ret v
                       end) = Ret offset).
  { destruct Hoff as [[E ->] | [E Hn]].
    - rewrite E. reflexivity.
    - assert (Hm : 0 <= offset <= maxUint64) by (unfold maxUint64; lia).
      pose proof (Sprintf_d_nonempty _ Hm) as Hne.
      apply isEmpty_false in Hne. rewrite E, Hne.
      unfold parseUintEnvVar. rewrite (Sprintf_d_parse _ Hm). reflexivity. }
  apply isEmpty_false in Hws, Hkey.
  destruct usePayload; cbn [negb obind].
  - rewrite Hws, Hkey, Eoff. reflexivity.
  - specialize (Hrpc eq_refl). apply isEmpty_false in Hrpc.
    rewrite Hrpc. cbn [obind]. rewrite Hws, Hkey, Eoff. reflexivity.
Qed.

Lemma loadConfig_accepts_witness :
  loadConfig None Demo.env =
  Ret (mkConfig "mev-commit-bidder:13524" false "http://relay:8545"
                "ws://geth:8546" "4c0883a6" 0).
Proof.
  exact (loadConfig_accepts Demo.env false 0
           ltac:(discriminate) ltac:(discriminate)
           (or_intror eq_refl) (fun _ => ltac:(discriminate))
           (or_intror (conj eq_refl (conj (Z.le_refl 0) eq_refl)))).
Defined.

(** ** SendBundle *)

Lemma hexutil_EncodeUint64_decodes (i : Z) :
  0 <= i -> hexutil_DecodeUint64 (hexutil_EncodeUint64 i) = Some i.
Proof.
  intros Hi. unfold hexutil_DecodeUint64, hexutil_EncodeUint64.
  rewrite TrimPrefix_app, HexadecimalString.NilZero.usu.
  - rewrite HexadecimalN.Unsigned.of_to. f_equal. lia.
  - destruct (Z.to_N i) as [| p]; [ discriminate | ].
    apply HexadecimalPos.Unsigned.to_uint_nonnil.
Qed.

(** X22: when SendBundle returns a response body, the transaction was
    serialised, exactly one HTTP request was made, a POST to the given URL
    with the JSON content type whose body is the encoding of a JSON-RPC 2.0
    call of eth_sendBundle with id 1 and one parameter object, and the body
    returned is what that request answered.  The parameter's only
    transaction is 0x followed by the hex of the serialised bytes, and its
    block number reads back as the given block number. *)
Theorem SendBundle_returns_body :
  forall (http : Http) (marshalBinary : Transaction -> result (list Z))
         (RPCURL : string) (signedTx : option Transaction) (blkNum : Z)
         (body : string),
    snd (SendBundle http marshalBinary RPCURL signedTx blkNum) = Ret (inr body) ->
    exists tx binary payload param payloadBytes,
      signedTx = Some tx
      /\ marshalBinary tx = inr binary
      /\ jsonMarshal http payload = inr payloadBytes
      /\ fp_Jsonrpc payload = "2.0"%string
      /\ fp_Method payload = "eth_sendBundle"%string
      /\ fp_ID payload = 1
      /\ fp_Params payload = [param]
      /\ bp_txs param = [("0x" ++ EncodeToString binary)%string]
      /\ (Forall (fun b => 0 <= b < 256) binary ->
          map (fun h => hexDecode (TrimPrefix h "0x")) (bp_txs param) = [binary])
      /\ (0 <= blkNum -> hexutil_DecodeUint64 (bp_blockNumber param) = Some blkNum)
      /\ fst (SendBundle http marshalBinary RPCURL signedTx blkNum) =
         [BDo (mkRequest "POST" RPCURL payloadBytes
                         [("Content-Type", "application/json")%string])]
      /\ Do http (mkRequest "POST" RPCURL payloadBytes
                            [("Content-Type", "application/json")%string]) =
         inr (inr body).
Proof.
  intros http marshalBinary RPCURL signedTx blkNum body.
  unfold SendBundle.
  destruct signedTx as [tx |]; [ | discriminate ].
  destruct (marshalBinary tx) as [e | binary] eqn:Ebin; [ discriminate | ].
  cbv zeta.
  destruct (jsonMarshal http _) as [e | payloadBytes] eqn:Ejson; [ discriminate | ].
  destruct (urlError http RPCURL) as [e |]; [ discriminate | ].
  destruct (Do http _) as [e | [e | body']] eqn:Edo; try discriminate.
  cbn [fst snd]. intros [= ->].
  exists tx, binary,
    (mkFlashbotsPayload "2.0" "eth_sendBundle"
       [mkBundleParams [hexutil_Encode binary] (hexutil_EncodeUint64 blkNum)] 1),
    (mkBundleParams [hexutil_Encode binary] (hexutil_EncodeUint64 blkNum)),
    payloadBytes.
  split; [ reflexivity | ]. split; [ exact Ebin | ].
  split; [ exact Ejson | ].
  cbn [fp_Jsonrpc fp_Method fp_ID fp_Params bp_txs bp_blockNumber].
  repeat (split; [ reflexivity | ]).
  split.
  { intros Hb. cbn [map]. unfold hexutil_Encode.
    now rewrite TrimPrefix_app, hexDecode_EncodeToString. }
  split; [ apply hexutil_EncodeUint64_decodes | ].
  split; [ reflexivity | exact Edo ].
Qed.

Lemma SendBundle_returns_body_witness :
  snd (SendBundle Demo.http (MarshalBinary Demo.bidder) "http://relay:8545"
                  (Some Demo.signed) 2513098) = Ret (inr "{}"%string)
  /\ exists tx binary payload param payloadBytes,
      Some Demo.signed = Some tx
      /\ MarshalBinary Demo.bidder tx = inr binary
      /\ jsonMarshal Demo.http payload = inr payloadBytes
      /\ fp_Jsonrpc payload = "2.0"%string
      /\ fp_Method payload = "eth_sendBundle"%string
      /\ fp_ID payload = 1
      /\ fp_Params payload = [param]
      /\ bp_txs param = [("0x" ++ EncodeToString binary)%string]
      /\ (Forall (fun b => 0 <= b < 256) binary ->
          map (fun h => hexDecode (TrimPrefix h "0x")) (bp_txs param) = [binary])
      /\ (0 <= 2513098 ->
          hexutil_DecodeUint64 (bp_blockNumber param) = Some 2513098)
      /\ fst (SendBundle Demo.http (MarshalBinary Demo.bidder) "http://relay:8545"
                         (Some Demo.signed) 2513098) =
         [BDo (mkRequest "POST" "http://relay:8545" payloadBytes
                         [("Content-Type", "application/json")%string])]
      /\ Do Demo.http (mkRequest "POST" "http://relay:8545" payloadBytes
                                 [("Content-Type", "application/json")%string]) =
         inr (inr "{}"%string).
Proof.
  split; [ reflexivity | ].
  exact (SendBundle_returns_body Demo.http (MarshalBinary Demo.bidder)
           "http://relay:8545" (Some Demo.signed) 2513098 "{}" eq_refl).
Defined.

(** X23: with a URL that http.NewRequest rejects, SendBundle makes no HTTP
    request and never returns, neither a body nor the error of NewRequest:
    once the transaction and the payload are encoded it logs the error and
    then panics on the nil request, whose header it sets. *)
Theorem SendBundle_rejected_url :
  forall (http : Http) (marshalBinary : Transaction -> result (list Z))
         (RPCURL : string) (signedTx : option Transaction) (blkNum : Z)
         (urlErr : error),
    urlError http RPCURL = Some urlErr ->
    requestsDone (fst (SendBundle http marshalBinary RPCURL signedTx blkNum)) = []
    /\ (forall body,
          snd (SendBundle http marshalBinary RPCURL signedTx blkNum) <> Ret (inr body))
    /\ (forall tx binary payloadBytes,
          signedTx = Some tx ->
          marshalBinary tx = inr binary ->
          jsonMarshal http
            (mkFlashbotsPayload "2.0" "eth_sendBundle"
               [mkBundleParams [hexutil_Encode binary] (hexutil_EncodeUint64 blkNum)]
               1) = inr payloadBytes ->
          SendBundle http marshalBinary RPCURL signedTx blkNum =
          ([BLog LvlError "an error occurred creating request"], Panic nil_deref)).
Proof.
  intros http marshalBinary RPCURL signedTx blkNum urlErr Hurl.
  unfold SendBundle. repeat split.
  - destruct signedTx as [tx |]; [ | reflexivity ].
    destruct (marshalBinary tx); [ reflexivity | ]. cbv zeta.
    destruct (jsonMarshal http _); [ reflexivity | ].
    rewrite Hurl. reflexivity.
  - intros body. destruct signedTx as [tx |]; [ | discriminate ].
    destruct (marshalBinary tx); [ discriminate | ]. cbv zeta.
    destruct (jsonMarshal http _); [ discriminate | ].
    rewrite Hurl. discriminate.
  - intros tx binary payloadBytes -> Hbin Hjson.
    rewrite Hbin. cbv zeta. rewrite Hjson, Hurl. reflexivity.
Qed.

Lemma SendBundle_rejected_url_witness :
  SendBundle Demo.badUrlHttp (MarshalBinary Demo.bidder) "relay:8545"%string
             (Some Demo.signed) 2513098 =
  ([BLog LvlError "an error occurred creating request"], Panic nil_deref).
Proof.
  exact (proj2 (proj2 (SendBundle_rejected_url Demo.badUrlHttp
                         (MarshalBinary Demo.bidder) "relay:8545"%string
                         (Some Demo.signed) 2513098
                         "missing protocol scheme"%string eq_refl))
           Demo.signed [2; 248] [123; 125] eq_refl eq_refl eq_refl).
Defined.

(** X24: an error that SendBundle returns is, unchanged, the error of one of
    four steps: serialising the transaction or encoding the payload, before
    any request is made, or sending the one request or reading its response;
    in every run at most one request is made. *)
Theorem SendBundle_error_source :
  forall (http : Http) (marshalBinary : Transaction -> result (list Z))
         (RPCURL : string) (signedTx : option Transaction) (blkNum : Z),
    (List.length
       (requestsDone (fst (SendBundle http marshalBinary RPCURL signedTx blkNum)))
     <= 1)%nat
    /\ forall err,
        snd (SendBundle http marshalBinary RPCURL signedTx blkNum) = Ret (inl err) ->
        exists tx,
          signedTx = Some tx
          /\ ((marshalBinary tx = inl err
               /\ requestsDone
                    (fst (SendBundle http marshalBinary RPCURL signedTx blkNum)) = [])
              \/ exists binary,
                  marshalBinary tx = inr binary
                  /\ ((jsonMarshal http
                         (mkFlashbotsPayload "2.0" "eth_sendBundle"
                            [mkBundleParams [hexutil_Encode binary]
                                            (hexutil_EncodeUint64 blkNum)] 1)
                       = inl err
                       /\ requestsDone
                            (fst (SendBundle http marshalBinary RPCURL signedTx
                                             blkNum)) = [])
                      \/ exists req,
                          requestsDone
                            (fst (SendBundle http marshalBinary RPCURL signedTx
                                             blkNum)) = [req]
                          /\ req_URL req = RPCURL
                          /\ (Do http req = inl err
                              \/ Do http req = inr (inl err)))).
Proof.
  intros http marshalBinary RPCURL signedTx blkNum.
  unfold SendBundle.
  destruct signedTx as [tx |]; [ | split; [ cbn; lia | discriminate ] ].
  destruct (marshalBinary tx) as [e | binary] eqn:Ebin.
  { split; [ cbn; lia | ]. cbn [snd]. intros err [= ->].
    exists tx. split; [ reflexivity | ]. left. split; [ exact Ebin | reflexivity ]. }
  cbv zeta.
  destruct (jsonMarshal http _) as [e | payloadBytes] eqn:Ejson.
  { split; [ cbn; lia | ]. cbn [snd]. intros err [= ->].
    exists tx. split; [ reflexivity | ]. right. exists binary.
    split; [ exact Ebin | ]. left. split; [ exact Ejson | reflexivity ]. }
  destruct (urlError http RPCURL) as [e |]; [ split; [ cbn; lia | discriminate ] | ].
  destruct (Do http _) as [e | [e | body]] eqn:Edo;
    (split; [ cbn; lia | ]); cbn [snd]; intros err E; try discriminate;
    injection E as ->;
    exists tx; (split; [ reflexivity | ]); right; exists binary;
    (split; [ exact Ebin | ]); right;
    eexists; (split; [ reflexivity | ]); (split; [ reflexivity | ]).
  - left. exact Edo.
  - right. exact Edo.
Qed.

(** ** The contract helpers *)

Lemma firstBigInt_inv (results : list AbiValue) (failure : error) (z : Z) :
  firstBigInt results failure = Ret (inr z) ->
  exists rest, results = VBigInt z :: rest.
Proof.
  destruct results as [| [z' | a |] rest]; cbn; try discriminate.
  intros [= ->]. now exists rest.
Qed.

(** X25: WindowHeight and GetMinDeposit return, when they return a number,
    the first output of their contract call, made on the contract and with
    the method they are written for and no argument; and a call that
    succeeds without any output makes each of them panic on the index 0
    instead of returning an error. *)
Theorem getters_first_output :
  forall (ch : Chain),
    (forall z, WindowHeight ch = Ret (inr z) ->
       exists abi rest,
         LoadABI ch "abi/BlockTracker.abi" = inr abi
         /\ Call ch blockTrackerAddress abi "getCurrentWindow" [] =
            inr (VBigInt z :: rest))
    /\ (forall z, GetMinDeposit ch = Ret (inr z) ->
         exists abi rest,
           LoadABI ch "abi/BidderRegistry.abi" = inr abi
           /\ Call ch bidderRegistryAddress abi "minDeposit" [] =
              inr (VBigInt z :: rest))
    /\ (forall abi,
          LoadABI ch "abi/BlockTracker.abi" = inr abi ->
          Call ch blockTrackerAddress abi "getCurrentWindow" [] = inr [] ->
          WindowHeight ch = Panic index_out_of_range)
    /\ (forall abi,
          LoadABI ch "abi/BidderRegistry.abi" = inr abi ->
          Call ch bidderRegistryAddress abi "minDeposit" [] = inr [] ->
          GetMinDeposit ch = Panic index_out_of_range).
Proof.
  intros ch.
  unfold WindowHeight, GetMinDeposit.
  repeat split.
  - intros z. destruct (LoadABI ch "abi/BlockTracker.abi") as [e | abi];
      [ discriminate | ].
    destruct (Call ch blockTrackerAddress abi "getCurrentWindow" [])
      as [e | out] eqn:Ec; [ discriminate | ].
    intros H. destruct (firstBigInt_inv _ _ _ H) as [rest ->].
    now exists abi, rest.
  - intros z. destruct (LoadABI ch "abi/BidderRegistry.abi") as [e | abi];
      [ discriminate | ].
    destruct (Call ch bidderRegistryAddress abi "minDeposit" [])
      as [e | out] eqn:Ec; [ discriminate | ].
    intros H. destruct (firstBigInt_inv _ _ _ H) as [rest ->].
    now exists abi, rest.
  - intros abi -> ->. reflexivity.
  - intros abi -> ->. reflexivity.
Qed.

Lemma getters_first_output_witness :
  WindowHeight Demo.silentChain = Panic index_out_of_range
  /\ GetMinDeposit Demo.silentChain = Panic index_out_of_range
  /\ exists abi rest,
       LoadABI Demo.chain "abi/BidderRegistry.abi" = inr abi
       /\ Call Demo.chain bidderRegistryAddress abi "minDeposit" [] =
          inr (VBigInt 1000 :: rest).
Proof.
  destruct (getters_first_output Demo.silentChain) as (_ & _ & Hw & Hm).
  split; [ exact (Hw "[]"%string eq_refl eq_refl) | ].
  split; [ exact (Hm "[]"%string eq_refl eq_refl) | ].
  exact (proj1 (proj2 (getters_first_output Demo.chain)) 1000 eq_refl).
Defined.

Lemma awaitReceipt_inv (ch : Chain) (tx tx' : Transaction)
    (miningError failed : string) :
  awaitReceipt ch tx miningError failed = inr tx' ->
  tx' = tx /\ exists receipt, WaitMined ch tx = inr receipt /\ Status receipt = 1.
Proof.
  unfold awaitReceipt.
  destruct (WaitMined ch tx) as [e | receipt]; [ discriminate | ].
  destruct (Status receipt =? 1) eqn:Es; [ | discriminate ].
  intros [= <-]. split; [ reflexivity | ].
  exists receipt. split; [ reflexivity | now apply Z.eqb_eq ].
Qed.

(** X26: a transaction that DepositIntoWindow returns is the one that
    Transact made for depositForSpecificWindow with the given window as its
    only argument, sent by the account's transactor carrying as value the
    minimum deposit that GetMinDeposit read, and mined with status 1; the
    transactor keeps that value afterwards. *)
Theorem DepositIntoWindow_returned_transaction :
  forall (ch : Chain) (depositWindow : Z) (authAcct : option AuthAcct)
         (authValue : option Z) (tx : Transaction),
    fst (DepositIntoWindow ch depositWindow authAcct authValue) = Ret (inr tx) ->
    exists abi minDeposit acct auth receipt,
      LoadABI ch "abi/BidderRegistry.abi" = inr abi
      /\ GetMinDeposit ch = Ret (inr minDeposit)
      /\ authAcct = Some acct
      /\ acctAuth acct = Some auth
      /\ Transact ch bidderRegistryAddress abi auth (Some minDeposit)
                  "depositForSpecificWindow" [VBigInt depositWindow] = inr tx
      /\ WaitMined ch tx = inr receipt
      /\ Status receipt = 1
      /\ snd (DepositIntoWindow ch depositWindow authAcct authValue) =
         Some minDeposit.
Proof.
  intros ch depositWindow authAcct authValue tx.
  unfold DepositIntoWindow.
  destruct (LoadABI ch "abi/BidderRegistry.abi") as [e | abi]; [ discriminate | ].
  destruct (GetMinDeposit ch) as [[e | minDeposit] | w |]; try discriminate.
  destruct authAcct as [acct |]; [ | discriminate ].
  destruct (acctAuth acct) as [auth |] eqn:Eauth; [ | discriminate ].
  cbv zeta.
  destruct (Transact ch bidderRegistryAddress abi auth (Some minDeposit)
                     "depositForSpecificWindow" [VBigInt depositWindow])
    as [e | tx'] eqn:Etx; [ discriminate | ].
  cbn [fst snd]. intros [= H].
  destruct (awaitReceipt_inv _ _ _ _ _ H) as (-> & receipt & Hw & Hs).
  exists abi, minDeposit, acct, auth, receipt.
  repeat split; try assumption.
Qed.

Lemma DepositIntoWindow_returned_transaction_witness :
  exists abi minDeposit acct auth receipt,
    LoadABI Demo.chain "abi/BidderRegistry.abi" = inr abi
    /\ GetMinDeposit Demo.chain = Ret (inr minDeposit)
    /\ Some Demo.acct = Some acct
    /\ acctAuth acct = Some auth
    /\ Transact Demo.chain bidderRegistryAddress abi auth (Some minDeposit)
                "depositForSpecificWindow" [VBigInt 7] = inr Demo.signed
    /\ WaitMined Demo.chain Demo.signed = inr receipt
    /\ Status receipt = 1
    /\ snd (DepositIntoWindow Demo.chain 7 (Some Demo.acct) None) =
       Some minDeposit.
Proof.
  exact (DepositIntoWindow_returned_transaction Demo.chain 7 (Some Demo.acct)
           None Demo.signed eq_refl).
Defined.

(** X27: DepositIntoWindow assigns the minimum deposit to the value of the
    account's transactor and never resets it, also when the deposit then
    fails, so a WithdrawFromWindow that follows with the same account sends
    its transaction, withdrawBidderAmountFromWindow with the account's
    address and the window, carrying the minimum deposit as value. *)
Theorem withdraw_after_deposit_carries_value :
  forall (ch : Chain) (depositWindow window : Z) (acct : AuthAcct)
         (auth : TransactOpts) (authValue : option Z) (abi : ABI)
         (minDeposit : Z),
    LoadABI ch "abi/BidderRegistry.abi" = inr abi ->
    GetMinDeposit ch = Ret (inr minDeposit) ->
    acctAuth acct = Some auth ->
    snd (DepositIntoWindow ch depositWindow (Some acct) authValue) =
    Some minDeposit
    /\ WithdrawFromWindow ch (Some acct) window
         (snd (DepositIntoWindow ch depositWindow (Some acct) authValue)) =
       match Transact ch bidderRegistryAddress abi auth (Some minDeposit)
                      "withdrawBidderAmountFromWindow"
                      [VAddress (acctAddress acct); VBigInt window] with
       | inl err =>
           Ret (inl ("failed to create withdrawal transaction: " ++ err)%string)
       | inr withdrawalTx =>
           Ret (awaitReceipt ch withdrawalTx
                             "withdrawal transaction mining error: "
                             "withdrawal failed")
       end.
Proof.
  intros ch depositWindow window acct auth authValue abi minDeposit Habi Hmin Hauth.
  assert (Hv : snd (DepositIntoWindow ch depositWindow (Some acct) authValue) =
               Some minDeposit).
  { unfold DepositIntoWindow. rewrite Habi, Hmin, Hauth. cbv zeta.
    destruct (Transact ch bidderRegistryAddress abi auth (Some minDeposit)
                       "depositForSpecificWindow" [VBigInt depositWindow]);
      reflexivity. }
  split; [ exact Hv | ].
  rewrite Hv. unfold WithdrawFromWindow.
  rewrite Habi. cbn [deref obind]. cbv zeta. rewrite Hauth. reflexivity.
Qed.

Lemma withdraw_after_deposit_carries_value_witness :
  fst (DepositIntoWindow Demo.revertingChain 7 (Some Demo.acct) None) =
  Ret (inl "transaction failed"%string)
  /\ snd (DepositIntoWindow Demo.revertingChain 7 (Some Demo.acct) None) =
     Some 1000
  /\ WithdrawFromWindow Demo.revertingChain (Some Demo.acct) 7
       (snd (DepositIntoWindow Demo.revertingChain 7 (Some Demo.acct) None)) =
     match Transact Demo.revertingChain bidderRegistryAddress "[]"%string
                    Demo.auth0 (Some 1000)
                    "withdrawBidderAmountFromWindow"
                    [VAddress (acctAddress Demo.acct); VBigInt 7] with
     | inl err =>
         Ret (inl ("failed to create withdrawal transaction: " ++ err)%string)
     | inr withdrawalTx =>
         Ret (awaitReceipt Demo.revertingChain withdrawalTx
                           "withdrawal transaction mining error: "
                           "withdrawal failed")
     end.
Proof.
  split; [ reflexivity | ].
  exact (withdraw_after_deposit_carries_value Demo.revertingChain 7 7 Demo.acct
           Demo.auth0 None "[]"%string 1000 eq_refl eq_refl eq_refl).
Defined.

(** ** From the configuration to the account *)

(** X28: the account that main builds from an accepted configuration is
    never the keyless one: AuthenticateAddress is reached with the non-empty
    PRIVATE_KEY, so what it returns carries the decoded key, the public key
    and address derived from it and a transactor for the chain id of the
    code, and the error that main checks after the call is nil. *)
Theorem main_account_has_key :
  forall (dotenv : option error) (Getenv : string -> string) (cr : Crypto)
         (cfg : Config) (authAcct : AuthAcct) (err : option error),
    loadConfig dotenv Getenv = Ret cfg ->
    AuthenticateAddress cr (cfg_privateKeyHex cfg) = Ret (authAcct, err) ->
    err = None
    /\ mainAuthenticate cr (cfg_privateKeyHex cfg) = Ret authAcct
    /\ exists key auth,
        HexToECDSA cr (Getenv "PRIVATE_KEY"%string) = inr key
        /\ NewKeyedTransactorWithChainID cr key HOLESKY_CHAIN_ID = inr auth
        /\ authAcct =
           mkAuthAcct (Some key) (Some (Public cr key))
                      (PubkeyToAddress cr (Public cr key)) (Some auth).
Proof.
  intros dotenv Getenv cr cfg authAcct err Hcfg.
  pose proof (loadConfig_table dotenv Getenv) as Ht. rewrite Hcfg in Ht.
  destruct Ht as (_ & _ & _ & Hkey & Hne & _).
  unfold mainAuthenticate, AuthenticateAddress.
  destruct (string_dec (cfg_privateKeyHex cfg) EmptyString) as [E | _];
    [ now elim Hne | ].
  rewrite Hkey.
  destruct (HexToECDSA cr (Getenv "PRIVATE_KEY"%string)) as [e | key];
    [ discriminate | ].
  cbv zeta.
  destruct (NewKeyedTransactorWithChainID cr key HOLESKY_CHAIN_ID) as [e | auth]
    eqn:Eauth; [ discriminate | ].
  intros [= <- <-]. split; [ reflexivity | ]. split; [ reflexivity | ].
  now exists key, auth.
Qed.

Lemma main_account_has_key_witness :
  mainAuthenticate Demo.crypto "4c0883a6" = Ret Demo.acct.
Proof.
  exact (proj1 (proj2 (main_account_has_key None Demo.env Demo.crypto
                         (mkConfig "mev-commit-bidder:13524" false
                                   "http://relay:8545" "ws://geth:8546"
                                   "4c0883a6" 0)
                         Demo.acct None eq_refl eq_refl))).
Defined.
